(** * Qumulo cluster provisioner: survey and convergence logic

    A shallow embedding of [modules/qprovisioner/scripts/provision.py].
    The script talks to the outside world through shell commands
    ([subprocess.run]), HTTP requests, a scratch JSON file and [time.sleep];
    every such interaction is an explicit call whose reply is supplied by an
    environment that sees the whole history of earlier calls.  Unbounded
    [while True] loops take a bound on their number of iterations.
    Calls to [logging] only write to the log file and are left out. *)

From Stdlib Require Import String Ascii List ZArith Lia Bool DecimalString Permutation.
Import ListNotations.
Local Open Scope string_scope.
Local Open Scope Z_scope.

(** ** Python string primitives used by the script *)

Module Py.

(** [str.isspace] on ASCII text: TAB..CR, FS..US and the space. *)
Definition is_space (c : ascii) : bool :=
  let n := nat_of_ascii c in
  ((9 <=? n) && (n <=? 13) || (28 <=? n) && (n <=? 32))%nat.

Definition is_digit (c : ascii) : bool :=
  let n := nat_of_ascii c in ((48 <=? n) && (n <=? 57))%nat.

Definition digit_val (c : ascii) : Z := Z.of_nat (nat_of_ascii c) - 48.

Definition snoc (s : string) (c : ascii) : string := s ++ String c "".

(** [needle in hay] *)
Fixpoint contains (needle hay : string) : bool :=
  if prefix needle hay then true
  else match hay with
       | "" => false
       | String _ rest => contains needle rest
       end.

(** [s.split()]: split on runs of whitespace, no empty pieces. *)
Fixpoint split_ws (cur s : string) : list string :=
  match s with
  | "" => if (cur =? "")%string then [] else [cur]
  | String c rest =>
      if is_space c
      then (if (cur =? "")%string then split_ws "" rest
            else cur :: split_ws "" rest)
      else split_ws (snoc cur c) rest
  end.

Definition split (s : string) : list string := split_ws "" s.

(** [s.split(sep)] for a one-character separator: always at least one
    piece, empty pieces kept. *)
Fixpoint split_on (sep : ascii) (cur s : string) : list string :=
  match s with
  | "" => [cur]
  | String c rest =>
      if Ascii.eqb c sep then cur :: split_on sep "" rest
      else split_on sep (snoc cur c) rest
  end.

Definition split_sep (sep : ascii) (s : string) : list string :=
  split_on sep "" s.

(** [sep.join(l)] *)
Definition join (sep : string) (l : list string) : string := String.concat sep l.

(** [s.replace(c, by)] for a one-character pattern. *)
Fixpoint replace (c : ascii) (by_ : string) (s : string) : string :=
  match s with
  | "" => ""
  | String d rest =>
      if Ascii.eqb d c then by_ ++ replace c by_ rest
      else String d (replace c by_ rest)
  end.

(** [re.sub(r"[^0-9.]", "", s)] *)
Fixpoint keep_digits_and_dots (s : string) : string :=
  match s with
  | "" => ""
  | String c rest =>
      if is_digit c || Ascii.eqb c "."
      then String c (keep_digits_and_dots rest)
      else keep_digits_and_dots rest
  end.

(** [s[:n]] for a literal [n >= 0]. *)
Fixpoint take (n : nat) (s : string) : string :=
  match n, s with
  | S n', String c rest => String c (take n' rest)
  | _, _ => ""
  end.

Fixpoint lstrip (s : string) : string :=
  match s with
  | String c rest => if is_space c then lstrip rest else s
  | "" => ""
  end.

Fixpoint rstrip (s : string) : string :=
  match s with
  | "" => ""
  | String c rest =>
      let r := rstrip rest in
      if (r =? "")%string && is_space c then "" else String c r
  end.

Definition strip (s : string) : string := rstrip (lstrip s).

(** Decimal digits with single underscores allowed between digits. *)
Fixpoint parse_digits (acc : Z) (after_digit : bool) (s : string) : option Z :=
  match s with
  | "" => if after_digit then Some acc else None
  | String c rest =>
      if is_digit c then parse_digits (10 * acc + digit_val c) true rest
      else if Ascii.eqb c "_" && after_digit then parse_digits acc false rest
      else None
  end.

(** [int(s)] on ASCII text; [None] stands for [ValueError]. *)
Definition int (s : string) : option Z :=
  match strip s with
  | String "+" rest => parse_digits 0 false rest
  | String "-" rest => option_map Z.opp (parse_digits 0 false rest)
  | t => parse_digits 0 false t
  end.

(** [str(n)] for an integer. *)
Definition str (n : Z) : string := NilZero.string_of_int (Z.to_int n).

(** [len(l)] *)
Definition len {A} (l : list A) : Z := Z.of_nat (length l).

(** [l[:n]] for an integer [n] of either sign. *)
Definition slice_to {A} (n : Z) (l : list A) : list A :=
  if 0 <=? n then firstn (Z.to_nat n) l
  else firstn (Z.to_nat (len l + n)) l.

(** A value that is a [bool] by annotation and a [str] at the call site. *)
Inductive value : Type :=
| VBool (b : bool)
| VStr (s : string).

(** Truth value of [v] in a condition. *)
Definition truthy (v : value) : bool :=
  match v with
  | VBool b => b
  | VStr s => negb (s =? "")%string
  end.

(** [v == "lit"]: a [bool] never equals a [str]. *)
Definition eq_str (v : value) (lit : string) : bool :=
  match v with
  | VBool _ => false
  | VStr s => (s =? lit)%string
  end.

End Py.

(** ** Decoded JSON documents *)

#[local] Set Warnings "-register-all".

Inductive json : Type :=
| JNull
| JBool (b : bool)
| JNum (n : Z)
| JStr (s : string)
| JArr (items : list json)
| JObj (fields : list (string * json)).

(** ** Exceptions *)

(** The texts of the [ProvisioningError]s the script raises, by their
    parameters. *)
Inductive Message : Type :=
| CommandFailed (returncode : Z) (cmd : string)
    (* "Command failed with exit code {returncode}: {cmd}" *)
| WrongRevision (ip node_version qfsd_version : string)
    (* "Node at {ip} has the wrong qfsd revision {node_version}. Please
        make sure all nodes are at revision {qfsd_version}" *)
| NodeCountAndSwingState
    (* "Cannot change node count and change swing pool state at the same
        time" *)
| OutOfQuorumNodes (ips : list string)
    (* "Found out of quorum nodes at IPs {ips}, abort operation. ..." *)
| OutOfQuorumSwingNodes (ips : list string).
    (* "Found out of quorum swing pool nodes at IPs {ips}, abort ..." *)

Inductive Exn : Type :=
| ProvisioningError (msg : Message)
| SubprocessTimeout          (* subprocess.TimeoutExpired, never caught *)
| RequestException
| JSONDecodeError
| KeyError
| IndexError
| TypeError
| AttributeError
| ValueError
| OtherError.

Module Json.

Fixpoint lookup (k : string) (fields : list (string * json)) : option json :=
  match fields with
  | [] => None
  | (k', v) :: rest => if (k' =? k)%string then Some v else lookup k rest
  end.

Fixpoint assign (k : string) (v : json) (fields : list (string * json))
  : list (string * json) :=
  match fields with
  | [] => [(k, v)]
  | (k', v') :: rest =>
      if (k' =? k)%string then (k, v) :: rest else (k', v') :: assign k v rest
  end.

(** [d.get(k, default)] *)
Definition get (d : json) (k : string) (default : json) : Exn + json :=
  match d with
  | JObj fields =>
      match lookup k fields with Some v => inr v | None => inr default end
  | _ => inl AttributeError
  end.

(** [d[k]] for a string [k] *)
Definition item (d : json) (k : string) : Exn + json :=
  match d with
  | JObj fields =>
      match lookup k fields with Some v => inr v | None => inl KeyError end
  | _ => inl TypeError
  end.

(** [l[0]] *)
Definition first (l : json) : Exn + json :=
  match l with
  | JArr (x :: _) => inr x
  | JArr [] => inl IndexError
  | JStr (String c _) => inr (JStr (String c ""))
  | JStr "" => inl IndexError
  | JObj _ => inl KeyError
  | _ => inl TypeError
  end.

(** [len(x)] *)
Definition len (x : json) : Exn + Z :=
  match x with
  | JArr items => inr (Py.len items)
  | JObj fields => inr (Py.len fields)
  | JStr s => inr (Z.of_nat (String.length s))
  | _ => inl TypeError
  end.

(** [d[k] = v] *)
Definition set_item (d : json) (k : string) (v : json) : Exn + json :=
  match d with
  | JObj fields => inr (JObj (assign k v fields))
  | _ => inl TypeError
  end.

(** [l[0] = v] *)
Definition set_first (l : json) (v : json) : Exn + json :=
  match l with
  | JArr (_ :: rest) => inr (JArr (v :: rest))
  | JArr [] => inl IndexError
  | _ => inl TypeError  (* only reached after [first] gave an item of [l] *)
  end.

Definition strings (l : list string) : json := JArr (map JStr l).

Fixpoint same_strings (items : list json) (l : list string) : bool :=
  match items, l with
  | [], [] => true
  | JStr s :: items', t :: l' => (s =? t)%string && same_strings items' l'
  | _, _ => false
  end.

(** [x == l] for a decoded document [x] and a list of [str] [l]. *)
Definition eq_strings (x : json) (l : list string) : bool :=
  match x with
  | JArr items => same_strings items l
  | _ => false
  end.

End Json.

(** ** Calls to the outside world and their replies *)

Inductive Call : Type :=
| Run (cmd : string) (timeout : option Z)      (* subprocess.run(cmd, shell=True, check=True, ...) *)
| HttpGet (url : string) (headers : list (string * string)) (timeout : option Z)
| Sleep (seconds : Z)
| Chdir (path : string)
| Chmod (path : string) (mode : Z)
| WriteBytes (path : string) (content : string)
| ReadJson (path : string)                     (* json.load(open(path, "r")) *)
| WriteJson (path : string) (doc : json).      (* json.dump(doc, open(path, "w")) *)

Inductive Reply : Type :=
| Completed (stdout stderr : string)
| CalledProcessError (returncode : Z) (stdout stderr : string)
| TimeoutExpired
| Response (status_code : Z) (content : string)
| RequestFailed                                (* requests.RequestException *)
| Loaded (doc : json)
| Done
| Broken.                                      (* any other failure *)

Definition Event : Type := Call * Reply.
Definition History : Type := list Event.

(** The environment answers a call knowing everything that happened so far. *)
Definition Env : Type := History -> Call -> Reply.

(** ** Computations: history passing with exceptions and bounded loops *)

Inductive Res (A : Type) : Type :=
| Ret (a : A) (h : History)
| Raise (e : Exn) (h : History)
| Spin (h : History).      (* a loop used up its bound *)
Arguments Ret {A} a h.
Arguments Raise {A} e h.
Arguments Spin {A} h.

Definition M (A : Type) : Type := History -> Res A.

Definition ret {A} (a : A) : M A := fun h => Ret a h.
Definition raise {A} (e : Exn) : M A := fun h => Raise e h.
Definition spin {A} : M A := fun h => Spin h.

Definition bind {A B} (m : M A) (k : A -> M B) : M B :=
  fun h =>
    match m h with
    | Ret a h' => k a h'
    | Raise e h' => Raise e h'
    | Spin h' => Spin h'
    end.

(** [try: m  except <caught>: handler] *)
Definition try_except {A} (m : M A) (caught : Exn -> bool) (handler : M A) : M A :=
  fun h =>
    match m h with
    | Raise e h' => if caught e then handler h' else Raise e h'
    | r => r
    end.

Definition lift {A} (x : Exn + A) : M A :=
  match x with
  | inl e => raise e
  | inr a => ret a
  end.

Declare Scope prov_scope.
Delimit Scope prov_scope with prov.
Notation "x <- m ;; k" := (bind m (fun x => k))
  (at level 61, m at next level, right associativity) : prov_scope.
Notation "m ;; k" := (bind m (fun _ => k))
  (at level 61, right associativity) : prov_scope.
Local Open Scope prov_scope.

Definition is_provisioning_error (e : Exn) : bool :=
  match e with ProvisioningError _ => true | _ => false end.

Definition is_request_exception (e : Exn) : bool :=
  match e with RequestException => true | _ => false end.

(** [except (ProvisioningError, json.JSONDecodeError, KeyError, IndexError)] *)
Definition is_membership_poll_error (e : Exn) : bool :=
  match e with
  | ProvisioningError _ | JSONDecodeError | KeyError | IndexError => true
  | _ => false
  end.

Definition dq : string := String "034"%char "".
Definition nl : string := String "010"%char "".
Definition quoted (s : string) : string := dq ++ s ++ dq.

Record CompletedProcess : Type := { stdout : string; stderr : string }.

(** Template variables substituted by Terraform's [templatefile]. *)
Record Template : Type := {
  cluster_node_ip_addresses : string;
  clustering_node_ip_address : string;
  swing_node_ip_addresses : string;
  provision_swing_pool : string;
  t_cluster_name : string;
  t_admin_password : string;
  t_product_type : string;
  t_dev_environment : string;
  t_node_count : string;
  t_node_ip_addresses_and_fault_domains : string;
  t_swing_node_count : string;
  t_swing_node_ip_addresses_and_fault_domains : string;
  t_clustering_node_ocid : string;
  t_object_storage_uris : string;
  t_soft_capacity_limit : string;
  t_permanent_disk_count : string;
  t_floating_ip_addresses : string;
  t_netmask : string;
  t_secret_ocid : string;
  t_cluster_node_count_secret_id : string;
  t_provisioner_complete_secret_id : string;
  t_deployed_permanent_disk_count_secret_id : string;
  t_cluster_soft_capacity_limit_secret_id : string
}.

Record ProvisioningConfig : Type := {
  cluster_name : string;
  admin_password : string;
  product_type : string;
  node_count : Z;
  node_ips_and_fault_domains : string;
  swing_node_count : Z;
  swing_node_ip_addresses_and_fault_domains : string;
  storage_uris : string;
  soft_capacity_limit : string;
  permanent_disk_count : string;
  floating_ips : string;
  netmask : string;
  secret_ocid : string;
  cluster_node_count_secret_id : string;
  deployed_permanent_disk_count_secret_id : string;
  cluster_soft_capacity_limit_secret_id : string;
  provisioner_complete_secret_id : string;
  dev_environment : string;
  clustering_node_ocid : string
}.

(** The four lists [survey_node_state] fills. *)
Record Survey : Type := {
  in_quorum_nodes : list string;
  unconfigured_nodes : list string;
  removed_nodes : list string;
  out_of_quorum_nodes : list string
}.

Definition empty_survey : Survey :=
  {| in_quorum_nodes := []; unconfigured_nodes := [];
     removed_nodes := []; out_of_quorum_nodes := [] |}.

(** ** Concrete worlds for the examples *)

Module Scenario.

Definition ends_with_sleep (h : History) : bool :=
  match rev h with
  | (Sleep _, _) :: _ => true
  | _ => false
  end.

(** Some earlier shell command contained [marker]. *)
Definition ran (marker : string) (h : History) : bool :=
  existsb (fun ev => match fst ev with
                     | Run cmd _ => Py.contains marker cmd
                     | _ => false
                     end) h.

(** The reply of the first entry whose pattern occurs in the command; an
    empty output when there is none. *)
Fixpoint answer (table : list (string * (History -> Reply))) (cmd : string) (h : History)
  : Reply :=
  match table with
  | [] => Completed "" ""
  | (pattern, reply) :: rest =>
      if Py.contains pattern cmd then reply h else answer rest cmd h
  end.

Definition scripted (table : list (string * (History -> Reply))) (doc : json) : Env :=
  fun h c =>
    match c with
    | Run cmd _ => answer table cmd h
    | HttpGet _ _ _ => Response 200 "{}"
    | ReadJson _ => Loaded doc
    | _ => Done
    end.

Definition says (out : string) : History -> Reply := fun _ => Completed out "".

(** [slow] on the first attempt, [ready] on an attempt made after a sleep. *)
Definition after_sleep (ready slow : string) : History -> Reply :=
  fun h => Completed (if ends_with_sleep h then ready else slow) "".

(** Output of [qq version]. *)
Definition version_text (revision : string) : string :=
  Py.join nl [ "{"; "    " ++ quoted "revision_id" ++ ": " ++ quoted revision; "}" ].

(** A world in which nothing has been set up and every command prints
    nothing. *)
Definition quiet : Env := scripted [] JNull.

Definition no_loads : string -> option json := fun _ => None.
Definition no_b64 : string -> option string := fun _ => None.

(** Three primary nodes, no swing pool. *)
Definition tpl : Template :=
  {| cluster_node_ip_addresses := "10.0.0.1 10.0.0.2 10.0.0.3";
     clustering_node_ip_address := "10.0.0.1";
     swing_node_ip_addresses := "";
     provision_swing_pool := "false";
     t_cluster_name := "demo";
     t_admin_password := "hunter2";
     t_product_type := "ACTIVE_WITH_STANDARD_STORAGE";
     t_dev_environment := "false";
     t_node_count := "3";
     t_node_ip_addresses_and_fault_domains := "10.0.0.1,fd1 10.0.0.2,fd2 10.0.0.3,fd3";
     t_swing_node_count := "0";
     t_swing_node_ip_addresses_and_fault_domains := "";
     t_clustering_node_ocid := "ocid1.instance.oc1..node1";
     t_object_storage_uris := "https://bucket-1 https://bucket-2";
     t_soft_capacity_limit := "500";
     t_permanent_disk_count := "8";
     t_floating_ip_addresses := "";
     t_netmask := "255.255.255.0";
     t_secret_ocid := "ocid1.vault.oc1..v";
     t_cluster_node_count_secret_id := "ocid1.secret.count";
     t_provisioner_complete_secret_id := "ocid1.secret.done";
     t_deployed_permanent_disk_count_secret_id := "ocid1.secret.disks";
     t_cluster_soft_capacity_limit_secret_id := "ocid1.secret.capacity" |}.

(** The configuration [create_provisioning_config] builds from [tpl]. *)
Definition config : ProvisioningConfig :=
  {| cluster_name := "demo";
     admin_password := "hunter2";
     product_type := "ACTIVE_WITH_STANDARD_STORAGE";
     node_count := 3;
     node_ips_and_fault_domains := "10.0.0.1,fd1 10.0.0.2,fd2 10.0.0.3,fd3";
     swing_node_count := 0;
     swing_node_ip_addresses_and_fault_domains := "";
     storage_uris := "https://bucket-1 https://bucket-2";
     soft_capacity_limit := "500";
     permanent_disk_count := "8";
     floating_ips := "";
     netmask := "255.255.255.0";
     secret_ocid := "ocid1.vault.oc1..v";
     cluster_node_count_secret_id := "ocid1.secret.count";
     deployed_permanent_disk_count_secret_id := "ocid1.secret.disks";
     cluster_soft_capacity_limit_secret_id := "ocid1.secret.capacity";
     provisioner_complete_secret_id := "ocid1.secret.done";
     dev_environment := "false";
     clustering_node_ocid := "ocid1.instance.oc1..node1" |}.

(** The same cluster asked to grow to five primary nodes, with one swing
    node declared. *)
Definition grown : ProvisioningConfig :=
  {| cluster_name := "demo";
     admin_password := "hunter2";
     product_type := "ACTIVE_WITH_STANDARD_STORAGE";
     node_count := 5;
     node_ips_and_fault_domains :=
       "10.0.0.1,fd1 10.0.0.2,fd2 10.0.0.3,fd3 10.0.0.4,fd1 10.0.0.5,fd2";
     swing_node_count := 1;
     swing_node_ip_addresses_and_fault_domains := "10.0.1.1,fd3";
     storage_uris := "https://bucket-1 https://bucket-2";
     soft_capacity_limit := "500";
     permanent_disk_count := "8";
     floating_ips := "";
     netmask := "255.255.255.0";
     secret_ocid := "ocid1.vault.oc1..v";
     cluster_node_count_secret_id := "ocid1.secret.count";
     deployed_permanent_disk_count_secret_id := "ocid1.secret.disks";
     cluster_soft_capacity_limit_secret_id := "ocid1.secret.capacity";
     provisioner_complete_secret_id := "ocid1.secret.done";
     dev_environment := "false";
     clustering_node_ocid := "ocid1.instance.oc1..node1" |}.

Definition three_nodes : list string := ["10.0.0.1"; "10.0.0.2"; "10.0.0.3"].

Definition no_repr : json -> string := fun _ => "".

(** Freshly installed nodes: every node answers at revision 7.5.1 and
    reports that it is unconfigured. *)
Definition unconfigured : Env :=
  scripted [ (" version", says (version_text "Qumulo Core 7.5.1"));
             ("node_state_get", says "UNCONFIGURED") ] JNull.

(** A cluster with one node in quorum, one unconfigured node and one node
    whose state query fails. *)
Definition mixed : Env :=
  scripted [ (" version", says (version_text "Qumulo Core 7.5.1"));
             ("10.0.0.1 node_state_get", says "ACTIVE");
             ("10.0.0.2 node_state_get", says "UNCONFIGURED");
             ("10.0.0.3 node_state_get",
              fun _ => CalledProcessError 1 "" "connection refused") ] JNull.

(** Unconfigured nodes, the third of which runs an older revision. *)
Definition skewed : Env :=
  scripted [ ("10.0.0.3 version", says (version_text "Qumulo Core 7.4.0"));
             (" version", says (version_text "Qumulo Core 7.5.1"));
             ("node_state_get", says "UNCONFIGURED") ] JNull.

Definition addresses : string := "10.0.0.1 10.0.0.2 10.0.0.3".

Definition two_ranges : list string := ["10.0.0.50"; "10.0.0.51"].

Definition with_capacity (limit : string) (c : ProvisioningConfig) : ProvisioningConfig :=
  {| cluster_name := cluster_name c;
     admin_password := admin_password c;
     product_type := product_type c;
     node_count := node_count c;
     node_ips_and_fault_domains := node_ips_and_fault_domains c;
     swing_node_count := swing_node_count c;
     swing_node_ip_addresses_and_fault_domains :=
       swing_node_ip_addresses_and_fault_domains c;
     storage_uris := storage_uris c;
     soft_capacity_limit := limit;
     permanent_disk_count := permanent_disk_count c;
     floating_ips := floating_ips c;
     netmask := netmask c;
     secret_ocid := secret_ocid c;
     cluster_node_count_secret_id := cluster_node_count_secret_id c;
     deployed_permanent_disk_count_secret_id := deployed_permanent_disk_count_secret_id c;
     cluster_soft_capacity_limit_secret_id := cluster_soft_capacity_limit_secret_id c;
     provisioner_complete_secret_id := provisioner_complete_secret_id c;
     dev_environment := dev_environment c;
     clustering_node_ocid := clustering_node_ocid c |}.

Definition with_floating_ips (flips : string) (c : ProvisioningConfig) : ProvisioningConfig :=
  {| cluster_name := cluster_name c;
     admin_password := admin_password c;
     product_type := product_type c;
     node_count := node_count c;
     node_ips_and_fault_domains := node_ips_and_fault_domains c;
     swing_node_count := swing_node_count c;
     swing_node_ip_addresses_and_fault_domains :=
       swing_node_ip_addresses_and_fault_domains c;
     storage_uris := storage_uris c;
     soft_capacity_limit := soft_capacity_limit c;
     permanent_disk_count := permanent_disk_count c;
     floating_ips := flips;
     netmask := netmask c;
     secret_ocid := secret_ocid c;
     cluster_node_count_secret_id := cluster_node_count_secret_id c;
     deployed_permanent_disk_count_secret_id := deployed_permanent_disk_count_secret_id c;
     cluster_soft_capacity_limit_secret_id := cluster_soft_capacity_limit_secret_id c;
     provisioner_complete_secret_id := provisioner_complete_secret_id c;
     dev_environment := dev_environment c;
     clustering_node_ocid := clustering_node_ocid c |}.

(** The secret bundle holding the capacity limit 400 (base64 of "400\n"). *)
Definition secret_text : string :=
  "{" ++ quoted "data" ++ ": {" ++ quoted "secret-bundle-content" ++ ": {"
  ++ quoted "content" ++ ": " ++ quoted "NDAwCg==" ++ "}}}".

Definition secret_doc : json :=
  JObj [("data", JObj [("secret-bundle-content", JObj [("content", JStr "NDAwCg==")])])].

(** Output of [get_object_backed_nodes] for a membership of the given
    nodes, printed with single quotes. *)
Definition nodes_text (nodes : list string) : string :=
  "{'membership': {'node_ips_and_fault_domains': ["
  ++ Py.join ", " (map (fun n => "'" ++ n ++ "'") nodes) ++ "]}}".

Definition nodes_doc (nodes : list string) : json :=
  JObj [("membership", JObj [("node_ips_and_fault_domains", Json.strings nodes)])].

Definition five_declared : list string :=
  ["10.0.0.1,fd1"; "10.0.0.2,fd2"; "10.0.0.3,fd3"; "10.0.0.4,fd1"; "10.0.0.5,fd2"].

(** A decoder that knows the documents of this module. *)
Definition loads : string -> option json :=
  fun text =>
    if (text =? secret_text)%string then Some secret_doc
    else if (text =? Py.replace "'" dq (nodes_text five_declared))%string
         then Some (nodes_doc five_declared)
    else if (text =? Py.replace "'" dq (nodes_text (firstn 3 five_declared)))%string
         then Some (nodes_doc (firstn 3 five_declared))
    else None.

Definition b64 : string -> option string :=
  fun text => if (text =? "NDAwCg==")%string then Some ("400" ++ nl) else None.

(** The network configuration of a cluster with two floating IPs. *)
Definition network_doc (ranges : list string) : json :=
  JObj [("frontend_networks",
         JArr [JObj [("id", JNum 1);
                     ("name", JStr "default");
                     ("addresses",
                      JObj [("type", JStr "HOST");
                            ("host_addresses",
                             JObj [("floating_ip_ranges", Json.strings ranges);
                                   ("netmask", JStr "255.255.255.0")])])]])].

(** A running cluster: commands succeed, the secret store holds 400, and
    polls show their marker on the attempt after the first sleep. *)
Definition running (ranges : list string) : Env :=
  scripted [ (" version", says (version_text "Qumulo Core 7.5.1"));
             ("node_state_get", after_sleep "ACTIVE" "PAUSED");
             ("secret-bundle get", says secret_text);
             ("/v3/network/status", after_sleep "floating_addresses" "{}") ]
    (network_doc ranges).

(** Freshly installed nodes on which a cluster can be created: a node
    reports UNCONFIGURED until the create command has run, and ACTIVE on the
    first poll made after a sleep from then on. *)
Definition forming : Env :=
  scripted [ ("node_state_get",
              fun h => Completed
                         (if ran "create_object_backed_cluster" h
                          then (if ends_with_sleep h then "ACTIVE" else "PAUSED")
                          else "UNCONFIGURED") "");
             (" version", says (version_text "Qumulo Core 7.5.1"));
             ("/v3/network/status", after_sleep "floating_addresses" "{}") ] JNull.

Definition three_declared : list string :=
  ["10.0.0.1,fd1"; "10.0.0.2,fd2"; "10.0.0.3,fd3"].

(** A three-node cluster that takes up a new five-node membership: the
    quorum is ACTIVE again, and the membership reported in full, on the first
    poll made after a sleep. *)
Definition growing : Env :=
  scripted [ ("node_state_get", after_sleep "ACTIVE" "PAUSED");
             ("get_object_backed_nodes",
              after_sleep (nodes_text five_declared)
                (nodes_text (firstn 3 five_declared))) ] JNull.

(** Nodes of which the second does not answer the version query. *)
Definition unreachable : Env :=
  scripted [ ("10.0.0.2 version", fun _ => CalledProcessError 1 "" "connection refused");
             (" version", says (version_text "Qumulo Core 7.5.1"));
             ("node_state_get", says "ACTIVE") ] JNull.

(** Output of [get_object_storage_uris] for a cluster that uses one bucket. *)
Definition bucket_text : string := "['https://bucket-1']".

Definition bucket_loads : string -> option json :=
  fun text =>
    if (text =? Py.replace "'" dq bucket_text)%string
    then Some (Json.strings ["https://bucket-1"]) else None.

(** A running cluster that uses one bucket. *)
Definition one_bucket : Env :=
  scripted [ ("get_object_storage_uris", says bucket_text);
             ("node_state_get", after_sleep "ACTIVE" "PAUSED") ] JNull.

(** What the instance metadata service answers. *)
Definition metadata_text : string :=
  "{" ++ quoted "id" ++ ": " ++ quoted "ocid1.instance.oc1..provisioner" ++ "}".

Definition metadata_loads : string -> option json :=
  fun text =>
    if (text =? metadata_text)%string
    then Some (JObj [("id", JStr "ocid1.instance.oc1..provisioner")]) else None.

(** The world [world] seen from an instance whose metadata service answers. *)
Definition on_instance (world : Env) : Env :=
  fun h c =>
    match c with
    | HttpGet url _ _ =>
        if (url =? "http://169.254.169.254/opc/v2/instance/")%string
        then Response 200 metadata_text else world h c
    | _ => world h c
    end.

(** Output of [get_object_storage_uris] for a cluster that uses both
    declared buckets. *)
Definition buckets_text : string := "['https://bucket-1', 'https://bucket-2']".

Definition steady_loads : string -> option json :=
  fun text =>
    if (text =? secret_text)%string then Some secret_doc
    else if (text =? Py.replace "'" dq buckets_text)%string
         then Some (Json.strings ["https://bucket-1"; "https://bucket-2"])
    else None.

(** A cluster that is as declared by [converged]: two buckets, a capacity
    limit of 400 and two floating IPs. *)
Definition steady : Env :=
  scripted [ ("get_object_storage_uris", says buckets_text);
             ("secret-bundle get", says secret_text) ]
    (network_doc two_ranges).

Definition converged : ProvisioningConfig :=
  with_capacity "400" (with_floating_ips "10.0.0.50,10.0.0.51" config).

End Scenario.

(** ** The provisioning script *)

Section Script.

(** The world the script runs in. *)
Variable env : Env.
(** [json.loads]; [None] is [json.JSONDecodeError]. *)
Variable json_loads : string -> option json.
(** [base64.b64decode(s).decode()]; [None] is a decoding error. *)
Variable b64decode : string -> option string.
(** [str(x)] of a decoded JSON value that is not a string. *)
Variable py_repr : json -> string.
(** The values Terraform substituted into the script. *)
Variable tpl : Template.

Definition call (c : Call) : M Reply :=
  fun h => let r := env h c in Ret r (h ++ [(c, r)])%list.

Definition sleep (seconds : Z) : M unit := call (Sleep seconds) ;; ret tt.

(** A call made for its effect alone ([os.chdir], [os.chmod], writing a
    file): when it does not end normally its exception ends the script. *)
Definition perform (c : Call) : M unit :=
  r <- call c ;;
  match r with
  | Done => ret tt
  | _ => raise OtherError
  end.

Fixpoint for_each {A} (l : list A) (body : A -> M unit) : M unit :=
  match l with
  | [] => ret tt
  | x :: rest => body x ;; for_each rest body
  end.

(** [create_provisioning_config] *)
Definition create_provisioning_config : M ProvisioningConfig :=
  match Py.int (t_node_count tpl), Py.int (t_swing_node_count tpl) with
  | Some n, Some sn =>
      ret {| cluster_name := t_cluster_name tpl;
             admin_password := t_admin_password tpl;
             product_type := t_product_type tpl;
             dev_environment := t_dev_environment tpl;
             node_count := n;
             node_ips_and_fault_domains := t_node_ip_addresses_and_fault_domains tpl;
             swing_node_count := sn;
             swing_node_ip_addresses_and_fault_domains :=
               t_swing_node_ip_addresses_and_fault_domains tpl;
             clustering_node_ocid := t_clustering_node_ocid tpl;
             storage_uris := t_object_storage_uris tpl;
             soft_capacity_limit := t_soft_capacity_limit tpl;
             permanent_disk_count := t_permanent_disk_count tpl;
             floating_ips := t_floating_ip_addresses tpl;
             netmask := t_netmask tpl;
             secret_ocid := t_secret_ocid tpl;
             cluster_node_count_secret_id := t_cluster_node_count_secret_id tpl;
             provisioner_complete_secret_id := t_provisioner_complete_secret_id tpl;
             deployed_permanent_disk_count_secret_id :=
               t_deployed_permanent_disk_count_secret_id tpl;
             cluster_soft_capacity_limit_secret_id :=
               t_cluster_soft_capacity_limit_secret_id tpl |}
  | _, _ => raise ValueError
  end.

(** [run_command]: a non-zero exit becomes a [ProvisioningError]; a
    timeout of the subprocess is not handled here. *)
Definition run_command (cmd : string) (timeout : option Z) : M CompletedProcess :=
  r <- call (Run cmd timeout) ;;
  match r with
  | Completed out err => ret {| stdout := out; stderr := err |}
  | CalledProcessError rc _ _ => raise (ProvisioningError (CommandFailed rc cmd))
  | TimeoutExpired => raise SubprocessTimeout
  | _ => raise OtherError
  end.

Definition qq (args : string) : string :=
  "./qq --host " ++ clustering_node_ip_address tpl ++ " " ++ args.

(** [qq_command(args, timeout)] *)
Definition qq_command_within (args : string) (timeout : Z) : M CompletedProcess :=
  run_command (qq args) (Some timeout).

(** [qq_command(args)], with the default [timeout=300] *)
Definition qq_command (args : string) : M CompletedProcess :=
  qq_command_within args 300.

Definition update_secret_cmd (secret_id value : string) : string :=
  "/root/bin/oci vault secret update-base64 --secret-id " ++ secret_id ++ " "
  ++ "--secret-content-content " ++ quoted ("$(echo " ++ value ++ " | base64)")
  ++ " --auth instance_principal".

Definition update_secret (secret_id value : string) : M unit :=
  run_command (update_secret_cmd secret_id value) None ;; ret tt.

Definition install_oci_cli : M unit :=
  run_command
    ("curl -L https://raw.githubusercontent.com/oracle/oci-cli/master/scripts/install/"
     ++ "install.sh | bash -s -- --accept-all-defaults") (Some 600) ;;
  ret tt.

(** [requests.get(url, headers=..., verify=..., timeout=...)] *)
Definition requests_get (url : string) (headers : list (string * string))
    (timeout : option Z) : M (Z * string) :=
  r <- call (HttpGet url headers timeout) ;;
  match r with
  | Response status content => ret (status, content)
  | RequestFailed => raise RequestException
  | _ => raise OtherError
  end.

(** The [while True] of [wait_for_qfsd_installation], for one node. *)
Fixpoint wait_for_qfsd_on (fuel : nat) (ip : string) : M unit :=
  match fuel with
  | O => spin
  | S fuel' =>
      up <- try_except
              (response <- requests_get
                             ("https://" ++ ip ++ ":8000/v1/node/state") [] (Some 60) ;;
               ret (fst response =? 200))
              is_request_exception
              (ret false) ;;
      if up then ret tt
      else sleep 10 ;; wait_for_qfsd_on fuel' ip
  end.

Definition wait_for_qfsd_installation (fuel : nat) (addresses : string) : M unit :=
  for_each (Py.split addresses) (wait_for_qfsd_on fuel).

Fixpoint first_revision_line (lines : list string) : string :=
  match lines with
  | [] => ""
  | line :: rest =>
      if Py.contains "revision_id" line then Py.keep_digits_and_dots line
      else first_revision_line rest
  end.

Definition get_qfsd_version (ip : string) : M string :=
  result <- qq_command ("--host " ++ ip ++ " version") ;;
  ret (first_revision_line (Py.split_sep "010" (stdout result))).

Definition download_qq_client : M unit :=
  response <- requests_get
                ("https://" ++ clustering_node_ip_address tpl ++ "/static/qq") [] None ;;
  perform (WriteBytes "qq" (snd response)) ;;
  perform (Chmod "qq" 511).

(** How the body of the survey loop files one node by the output of
    [node_state_get]. *)
Definition classify (ip out : string) (s : Survey) : Survey :=
  if Py.contains "ACTIVE" out then
    {| in_quorum_nodes := (in_quorum_nodes s ++ [ip])%list;
       unconfigured_nodes := unconfigured_nodes s;
       removed_nodes := removed_nodes s;
       out_of_quorum_nodes := out_of_quorum_nodes s |}
  else if Py.contains "UNCONFIGURED" out then
    {| in_quorum_nodes := in_quorum_nodes s;
       unconfigured_nodes := (unconfigured_nodes s ++ [ip])%list;
       removed_nodes := removed_nodes s;
       out_of_quorum_nodes := out_of_quorum_nodes s |}
  else if Py.contains "REMOVED" out then
    {| in_quorum_nodes := in_quorum_nodes s;
       unconfigured_nodes := unconfigured_nodes s;
       removed_nodes := (removed_nodes s ++ [ip])%list;
       out_of_quorum_nodes := out_of_quorum_nodes s |}
  else
    {| in_quorum_nodes := in_quorum_nodes s;
       unconfigured_nodes := unconfigured_nodes s;
       removed_nodes := removed_nodes s;
       out_of_quorum_nodes := (out_of_quorum_nodes s ++ [ip])%list |}.

Definition mark_out_of_quorum (ip : string) (s : Survey) : Survey :=
  {| in_quorum_nodes := in_quorum_nodes s;
     unconfigured_nodes := unconfigured_nodes s;
     removed_nodes := removed_nodes s;
     out_of_quorum_nodes := (out_of_quorum_nodes s ++ [ip])%list |}.

(** The [for ip in ...] loop of [survey_node_state]. *)
Fixpoint survey_nodes (qfsd_version : string) (ips : list string) (s : Survey)
  : M Survey :=
  match ips with
  | [] => ret s
  | ip :: rest =>
      node_version <- get_qfsd_version ip ;;
      if negb (node_version =? qfsd_version)%string
      then raise (ProvisioningError (WrongRevision ip node_version qfsd_version))
      else
        s' <- try_except
                (quorum_result <- qq_command ("--host " ++ ip ++ " node_state_get") ;;
                 ret (classify ip (stdout quorum_result) s))
                is_provisioning_error
                (ret (mark_out_of_quorum ip s)) ;;
        survey_nodes qfsd_version rest s'
  end.

Definition survey_node_state (qfsd_version addresses : string)
  : M (list string * list string) :=
  s <- survey_nodes qfsd_version (Py.split addresses) empty_survey ;;
  ret (in_quorum_nodes s, out_of_quorum_nodes s).

Fixpoint wait_for_new_quorum (fuel : nat) : M unit :=
  match fuel with
  | O => spin
  | S fuel' =>
      formed <- try_except
                  (result <- qq_command_within "node_state_get" 60 ;;
                   ret (Py.contains "ACTIVE" (stdout result)))
                  is_provisioning_error
                  (ret false) ;;
      if formed then ret tt
      else sleep 10 ;; wait_for_new_quorum fuel'
  end.

(** The JSON text [apply_initial_floating_ips] submits. *)
Definition network_config_text (flips_json netmask : string) : string :=
  Py.join nl
    [ "{";
      "        " ++ quoted "frontend_networks" ++ ": [";
      "            {";
      "                " ++ quoted "id" ++ ": 1,";
      "                " ++ quoted "name" ++ ": " ++ quoted "default" ++ ",";
      "                " ++ quoted "addresses" ++ ": {";
      "                    " ++ quoted "type" ++ ": " ++ quoted "HOST" ++ ",";
      "                    " ++ quoted "host_addresses" ++ ": {";
      "                        " ++ quoted "floating_ip_ranges" ++ ": [" ++ flips_json ++ "],";
      "                        " ++ quoted "netmask" ++ ": " ++ quoted netmask;
      "                    }";
      "                }";
      "            }";
      "        ]";
      "    }" ].

Definition put_network_args (flips : list string) (netmask : string) : string :=
  "raw --content-type application/json PUT /v3/network <<< '"
  ++ network_config_text (Py.join ", " (map quoted flips)) netmask ++ "'".

(** The [while True] that ends [apply_initial_floating_ips]. *)
Fixpoint wait_for_floating_addresses (fuel : nat) : M unit :=
  match fuel with
  | O => spin
  | S fuel' =>
      applied <- try_except
                   (result <- qq_command "raw GET /v3/network/status" ;;
                    ret (Py.contains "floating_addresses" (stdout result)))
                   is_provisioning_error
                   (ret false) ;;
      if applied then ret tt
      else sleep 10 ;; wait_for_floating_addresses fuel'
  end.

Definition apply_initial_floating_ips (fuel : nat) (flips : list string)
    (netmask : string) : M unit :=
  match flips with
  | [] => ret tt
  | _ :: _ =>
      qq_command (put_network_args flips netmask) ;;
      wait_for_floating_addresses fuel
  end.

(** [floating_ip_addresses.split(",") if floating_ip_addresses else []] *)
Definition declared_flips (floating_ip_addresses : string) : list string :=
  if (floating_ip_addresses =? "")%string then []
  else Py.split_sep "," floating_ip_addresses.

(** [current_config["frontend_networks"][0]["addresses"]["host_addresses"]
    ["floating_ip_ranges"]] *)
Definition current_floating_ip_ranges (current_config : json) : Exn + json :=
  match Json.item current_config "frontend_networks" with
  | inl e => inl e
  | inr nets =>
  match Json.first nets with
  | inl e => inl e
  | inr net =>
  match Json.item net "addresses" with
  | inl e => inl e
  | inr addresses =>
  match Json.item addresses "host_addresses" with
  | inl e => inl e
  | inr host => Json.item host "floating_ip_ranges"
  end end end end.

(** The same path, assigned to: the document after
    [current_config[...][0][...][...]["floating_ip_ranges"] = v]. *)
Definition assign_floating_ip_ranges (current_config v : json) : Exn + json :=
  match Json.item current_config "frontend_networks" with
  | inl e => inl e
  | inr nets =>
  match Json.first nets with
  | inl e => inl e
  | inr net =>
  match Json.item net "addresses" with
  | inl e => inl e
  | inr addresses =>
  match Json.item addresses "host_addresses" with
  | inl e => inl e
  | inr host =>
  match Json.set_item host "floating_ip_ranges" v with
  | inl e => inl e
  | inr host' =>
  match Json.set_item addresses "host_addresses" host' with
  | inl e => inl e
  | inr addresses' =>
  match Json.set_item net "addresses" addresses' with
  | inl e => inl e
  | inr net' =>
  match Json.set_first nets net' with
  | inl e => inl e
  | inr nets' => Json.set_item current_config "frontend_networks" nets'
  end end end end end end end end.

(** [len(current_config["frontend_networks"][0].get("addresses", {})
    .get("host_addresses", {}).get("floating_ip_ranges", []))] *)
Definition count_floating_ip_ranges (current_config : json) : Exn + Z :=
  match Json.item current_config "frontend_networks" with
  | inl e => inl e
  | inr nets =>
  match Json.first nets with
  | inl e => inl e
  | inr net =>
  match Json.get net "addresses" (JObj []) with
  | inl e => inl e
  | inr addresses =>
  match Json.get addresses "host_addresses" (JObj []) with
  | inl e => inl e
  | inr host =>
  match Json.get host "floating_ip_ranges" (JArr []) with
  | inl e => inl e
  | inr ranges => Json.len ranges
  end end end end end.

Definition read_json (path : string) : M json :=
  r <- call (ReadJson path) ;;
  match r with
  | Loaded doc => ret doc
  | _ => raise OtherError
  end.

Definition write_json (path : string) (doc : json) : M unit :=
  perform (WriteJson path doc).

(** [int(qfsd_version.replace(".", "")[:3])] *)
Definition revision_prefix (qfsd_version : string) : option Z :=
  Py.int (Py.take 3 (Py.replace "." "" qfsd_version)).

(** What [maybe_update_floating_ips] does once it has loaded the current
    network configuration. *)
Definition update_floating_ips (fuel : nat) (current_config : json)
    (new_flips : list string) (netmask : string) : M unit :=
  nets <- lift (Json.get current_config "frontend_networks" (JArr [])) ;;
  frontend_networks_length <- lift (Json.len nets) ;;
  floating_ip_count <-
    (if 0 <? frontend_networks_length
     then lift (count_floating_ip_ranges current_config)
     else ret 0) ;;
  if (frontend_networks_length =? 0) || (floating_ip_count =? 0)
  then apply_initial_floating_ips fuel new_flips netmask
  else
    current_flips <- lift (current_floating_ip_ranges current_config) ;;
    if negb (Json.eq_strings current_flips new_flips)
    then
      updated <-
        (match new_flips with
         | [] => lift (Json.set_item current_config "frontend_networks" (JArr []))
         | _ :: _ => lift (assign_floating_ip_ranges current_config
                             (Json.strings new_flips))
         end) ;;
      write_json "network_config.json" updated ;;
      qq_command "network_v3_put_config --file network_config.json" ;;
      wait_for_new_quorum fuel
    else ret tt.

Definition maybe_update_floating_ips (fuel : nat)
    (clustering_node_ip_address floating_ip_addresses netmask qfsd_version : string)
  : M unit :=
  if (qfsd_version =? "")%string then ret tt
  else
    match revision_prefix qfsd_version with
    | None => raise ValueError
    | Some revision =>
        if revision <? 751 then ret tt
        else
          qq_command "network_v3_get_config -o network_config.json" ;;
          current_config <- read_json "network_config.json" ;;
          update_floating_ips fuel current_config
            (declared_flips floating_ip_addresses) netmask
    end.

Definition modify_membership_args (new_node_membership : list string) : string :=
  Py.join " "
    [ "modify_object_backed_cluster_membership";
      "--node-ips-and-fault-domains " ++ Py.join " " new_node_membership;
      "--batch" ].

(** [len(node_data["membership"]["node_ips_and_fault_domains"])] of the
    output of [get_object_backed_nodes]. *)
Definition reported_node_count (out : string) : Exn + Z :=
  match json_loads (Py.replace "'" dq out) with
  | None => inl JSONDecodeError
  | Some node_data =>
  match Json.item node_data "membership" with
  | inl e => inl e
  | inr membership =>
  match Json.item membership "node_ips_and_fault_domains" with
  | inl e => inl e
  | inr nodes => Json.len nodes
  end end end.

(** The [while True] of [update_cluster_membership]. *)
Fixpoint wait_for_membership (fuel : nat) (node_count swing_node_count : Z) : M unit :=
  match fuel with
  | O => spin
  | S fuel' =>
      in_effect <- try_except
                     (result <- qq_command "get_object_backed_nodes" ;;
                      current_node_count <- lift (reported_node_count (stdout result)) ;;
                      ret (current_node_count =? node_count + swing_node_count))
                     is_membership_poll_error
                     (ret false) ;;
      if in_effect then ret tt
      else sleep 10 ;; wait_for_membership fuel' node_count swing_node_count
  end.

Definition update_cluster_membership (fuel : nat) (node_count swing_node_count : Z)
    (node_ips_and_fault_domains swing_node_ips_and_fault_domains
     cluster_node_count_secret_id : string) : M unit :=
  let ips_and_fault_domains := Py.split node_ips_and_fault_domains in
  let swing_ips_and_fault_domains := Py.split swing_node_ips_and_fault_domains in
  let new_node_membership :=
    (Py.slice_to node_count ips_and_fault_domains ++ swing_ips_and_fault_domains)%list in
  qq_command (modify_membership_args new_node_membership) ;;
  wait_for_new_quorum fuel ;;
  wait_for_membership fuel node_count swing_node_count ;;
  update_secret cluster_node_count_secret_id
    (Py.str (Py.len new_node_membership - Py.len swing_ips_and_fault_domains)).

Definition create_cluster_args (config : ProvisioningConfig) (new_nodes : list string)
  : string :=
  Py.join " "
    [ "create_object_backed_cluster";
      "--cluster-name " ++ cluster_name config;
      "--admin-password " ++ admin_password config;
      "--host-instance-id " ++ clustering_node_ocid config;
      "--accept-eula";
      "--usable-capacity-clamp " ++ soft_capacity_limit config ++ "TB";
      "--product-type " ++ product_type config;
      "--object-storage-uris " ++ storage_uris config;
      "--node-ips-and-fault-domains " ++ Py.join " " new_nodes;
      "--key-vault " ++ secret_ocid config ].

Definition login_args (config : ProvisioningConfig) : string :=
  "login -u admin -p " ++ admin_password config.

Definition recv_timeout_args : string :=
  "raw --content-type application/json PUT "
  ++ "/v1/tunables/s3_object_client_socket_recv_timeout_ms <<< '{"
  ++ quoted "configured_value" ++ ": " ++ quoted "10000" ++ "}'".

Definition monitoring_args : string :=
  "set_monitoring_conf --mq-host staging-missionq.qumulo.com "
  ++ "--nexus-host api.spog-staging.qumulo.com".

Definition create_cluster (fuel : nat) (config : ProvisioningConfig) : M unit :=
  if node_count config =? 0 then ret tt
  else
    let ips_and_fault_domains := Py.split (node_ips_and_fault_domains config) in
    let flips := declared_flips (floating_ips config) in
    let new_nodes := Py.slice_to (node_count config) ips_and_fault_domains in
    qq_command (create_cluster_args config new_nodes) ;;
    (* Record cluster metadata in secrets *)
    update_secret (cluster_node_count_secret_id config) (Py.str (Py.len new_nodes)) ;;
    update_secret (deployed_permanent_disk_count_secret_id config)
      (permanent_disk_count config) ;;
    update_secret (cluster_soft_capacity_limit_secret_id config)
      (soft_capacity_limit config) ;;
    qq_command (login_args config) ;;
    qq_command recv_timeout_args ;;
    (if (dev_environment config =? "true")%string
     then qq_command monitoring_args ;; ret tt
     else ret tt) ;;
    apply_initial_floating_ips fuel flips (netmask config) ;;
    qq_command "raw POST /v1/debug/quorum/abandon" ;;
    wait_for_new_quorum fuel.

(** The test that guards a change of the node count:
    [(provision_swing_pool and len(in_quorum_swing_nodes) == 0) or
     (not provision_swing_pool and len(in_quorum_swing_nodes) > 0)] *)
Definition swing_state_changes (provision_swing_pool : Py.value)
    (in_quorum_swing_nodes : list string) : bool :=
  (Py.truthy provision_swing_pool && (Py.len in_quorum_swing_nodes =? 0))
  || (negb (Py.truthy provision_swing_pool) && (0 <? Py.len in_quorum_swing_nodes)).

(** "Node add/remove" in [handle_existing_cluster]. *)
Definition node_add_remove (fuel : nat) (in_quorum_nodes in_quorum_swing_nodes : list string)
    (provision_swing_pool : Py.value) (config : ProvisioningConfig) : M unit :=
  if negb (Py.len in_quorum_nodes =? node_count config) then
    if swing_state_changes provision_swing_pool in_quorum_swing_nodes
    then raise (ProvisioningError NodeCountAndSwingState)
    else
      update_cluster_membership fuel
        (node_count config)
        (if Py.truthy provision_swing_pool then swing_node_count config else 0)
        (node_ips_and_fault_domains config)
        (if Py.truthy provision_swing_pool
         then swing_node_ip_addresses_and_fault_domains config else "")
        (cluster_node_count_secret_id config)
  else if Py.eq_str provision_swing_pool "true"
          && negb (Py.len in_quorum_swing_nodes =? swing_node_count config) then
    update_cluster_membership fuel
      (node_count config)
      (swing_node_count config)
      (node_ips_and_fault_domains config)
      (swing_node_ip_addresses_and_fault_domains config)
      (cluster_node_count_secret_id config)
  else if Py.eq_str provision_swing_pool "false"
          && (0 <? Py.len in_quorum_swing_nodes) then
    update_cluster_membership fuel
      (node_count config)
      0
      (node_ips_and_fault_domains config)
      ""
      (cluster_node_count_secret_id config)
  else ret tt.

(** "Bucket add" in [handle_existing_cluster]. *)
Definition bucket_add (fuel : nat) (config : ProvisioningConfig) : M unit :=
  current_bucket_result <- qq_command "get_object_storage_uris" ;;
  let current_bucket_json := Py.replace "'" dq (stdout current_bucket_result) in
  match json_loads current_bucket_json with
  | None => raise JSONDecodeError
  | Some buckets =>
      current_bucket_count <- lift (Json.len buckets) ;;
      let storage_uri_list := Py.split (storage_uris config) in
      if current_bucket_count <? Py.len storage_uri_list then
        qq_command ("add_object_storage_uris --uris " ++ storage_uris config) ;;
        wait_for_new_quorum fuel
      else ret tt
  end.

Definition get_secret_cmd (secret_id : string) : string :=
  "/root/bin/oci secrets secret-bundle get --secret-id " ++ secret_id
  ++ " --auth instance_principal".

Definition capacity_clamp_args (config : ProvisioningConfig) : string :=
  "capacity_clamp_set --clamp " ++ soft_capacity_limit config ++ "TB".

(** [base64.b64decode(secret_data["data"]["secret-bundle-content"]["content"])
    .decode()] of the output of the secret-bundle query. *)
Definition secret_content (out : string) : Exn + string :=
  match json_loads out with
  | None => inl JSONDecodeError
  | Some secret_data =>
  match Json.item secret_data "data" with
  | inl e => inl e
  | inr data =>
  match Json.item data "secret-bundle-content" with
  | inl e => inl e
  | inr bundle =>
  match Json.item bundle "content" with
  | inl e => inl e
  | inr (JStr encoded_content) =>
      match b64decode encoded_content with
      | Some text => inr text
      | None => inl ValueError
      end
  | inr _ => inl TypeError
  end end end end.

(** "Capacity increase" in [handle_existing_cluster]. *)
Definition capacity_increase (fuel : nat) (config : ProvisioningConfig) : M unit :=
  result <- run_command (get_secret_cmd (cluster_soft_capacity_limit_secret_id config)) None ;;
  current_capacity_in_tb <- lift (secret_content (stdout result)) ;;
  match Py.int current_capacity_in_tb, Py.int (soft_capacity_limit config) with
  | Some current, Some declared =>
      if current <? declared then
        qq_command (capacity_clamp_args config) ;;
        wait_for_new_quorum fuel ;;
        (* Update secret with new capacity *)
        update_secret (cluster_soft_capacity_limit_secret_id config)
          (soft_capacity_limit config)
      else ret tt
  | _, _ => raise ValueError
  end.

Definition handle_existing_cluster (fuel : nat)
    (in_quorum_nodes in_quorum_swing_nodes : list string)
    (provision_swing_pool : Py.value) (config : ProvisioningConfig)
    (clustering_node_ip_address qfsd_version : string) : M unit :=
  qq_command (login_args config) ;;
  node_add_remove fuel in_quorum_nodes in_quorum_swing_nodes provision_swing_pool config ;;
  bucket_add fuel config ;;
  capacity_increase fuel config ;;
  (* Floating IP update on versions >= 7.5.1 *)
  maybe_update_floating_ips fuel clustering_node_ip_address
    (floating_ips config) (netmask config) qfsd_version.

Definition signal_complete (config : ProvisioningConfig) : M unit :=
  update_secret (provisioner_complete_secret_id config) "true".

Definition shutdown_instance (config : ProvisioningConfig) : M unit :=
  if (dev_environment config =? "true")%string then ret tt
  else
    instance_metadata <- requests_get "http://169.254.169.254/opc/v2/instance/"
                           [("Authorization", "Bearer Oracle")] (Some 30) ;;
    match json_loads (snd instance_metadata) with
    | None => raise JSONDecodeError
    | Some doc =>
        instance_id <- lift (Json.item doc "id") ;;
        run_command
          ("/root/bin/oci compute instance action --instance-id "
           ++ match instance_id with JStr s => s | other => py_repr other end
           ++ " --action STOP --auth instance_principal") None ;;
        ret tt
    end.

(** The choice between bootstrap and reconcile at the end of [main]. *)
Definition create_or_reconcile (fuel : nat)
    (in_quorum_nodes in_quorum_swing_nodes : list string)
    (config : ProvisioningConfig) (qfsd_version : string) : M unit :=
  match in_quorum_nodes, in_quorum_swing_nodes with
  | [], [] => create_cluster fuel config
  | _, _ =>
      handle_existing_cluster fuel in_quorum_nodes in_quorum_swing_nodes
        (Py.VStr (provision_swing_pool tpl)) config
        (clustering_node_ip_address tpl) qfsd_version
  end.

(** Everything [main] does before it reads the configuration: readiness
    probes and the two surveys.  Returns the revision and the in-quorum
    nodes of the two pools. *)
Definition survey_pools (fuel : nat) : M (string * list string * list string) :=
  perform (Chdir "/root") ;;
  install_oci_cli ;;
  wait_for_qfsd_installation fuel (cluster_node_ip_addresses tpl) ;;
  (if (provision_swing_pool tpl =? "true")%string
      && (0 <? Py.len (Py.split (swing_node_ip_addresses tpl)))
   then wait_for_qfsd_installation fuel (swing_node_ip_addresses tpl)
   else ret tt) ;;
  download_qq_client ;;
  qfsd_version <- get_qfsd_version (clustering_node_ip_address tpl) ;;
  primary <- survey_node_state qfsd_version (cluster_node_ip_addresses tpl) ;;
  match snd primary with
  | _ :: _ => raise (ProvisioningError (OutOfQuorumNodes (snd primary)))
  | [] =>
      swing <- (if 0 <? Py.len (Py.split (swing_node_ip_addresses tpl))
                then survey_node_state qfsd_version (swing_node_ip_addresses tpl)
                else ret ([], [])) ;;
      match snd swing with
      | _ :: _ => raise (ProvisioningError (OutOfQuorumSwingNodes (snd swing)))
      | [] => ret (qfsd_version, fst primary, fst swing)
      end
  end.

Definition main (fuel : nat) : M unit :=
  surveyed <- survey_pools fuel ;;
  let '(qfsd_version, in_quorum_nodes, in_quorum_swing_nodes) := surveyed in
  config <- create_provisioning_config ;;
  create_or_reconcile fuel in_quorum_nodes in_quorum_swing_nodes config qfsd_version ;;
  signal_complete config ;;
  shutdown_instance config.

(** ** Vocabulary for the properties *)

Definition history_of {A} (r : Res A) : History :=
  match r with
  | Ret _ h | Raise _ h | Spin h => h
  end.

(** What a run that started at history [h] added to it. *)
Definition events_since {A} (h : History) (r : Res A) : History :=
  skipn (length h) (history_of r).

Definition issued {A} (c : Call) (h : History) (r : Res A) : Prop :=
  In c (map fst (events_since h r)).

(** The shell commands of a history, oldest first. *)
Definition commands (h : History) : list string :=
  flat_map (fun ev => match fst ev with Run cmd _ => [cmd] | _ => [] end) h.

(** One attempt of a polling loop that runs [cmd] and looks for [marker]
    in its output; a failed command counts as "not yet". *)
Definition probe (cmd : string) (timeout : option Z) (marker : string) : M bool :=
  try_except
    (result <- run_command cmd timeout ;;
     ret (Py.contains marker (stdout result)))
    is_provisioning_error
    (ret false).

(** The shape shared by the script's [while True] loops. *)
Fixpoint poll (fuel : nat) (attempt : M bool) : M unit :=
  match fuel with
  | O => spin
  | S fuel' =>
      ok <- attempt ;;
      if ok then ret tt else sleep 10 ;; poll fuel' attempt
  end.

Definition confirms (marker : string) (r : Reply) : bool :=
  match r with
  | Completed out _ => Py.contains marker out
  | _ => false
  end.

Definition not_yet (marker : string) (r : Reply) : bool :=
  match r with
  | Completed out _ => negb (Py.contains marker out)
  | CalledProcessError _ _ _ => true
  | _ => false
  end.

(** One unsuccessful attempt at history [h], and the sleep after it. *)
Definition retry_events (c : Call) (h : History) : History :=
  [ (c, env h c); (Sleep 10, env (h ++ [(c, env h c)])%list (Sleep 10)) ].

(** [waiting c marker h h1]: from [h], some attempts of [c] that did not
    show [marker], each followed by a sleep, lead to [h1]. *)
Inductive waiting (c : Call) (marker : string) : History -> History -> Prop :=
| waiting_done h : waiting c marker h h
| waiting_retry h h1 :
    not_yet marker (env h c) = true ->
    waiting c marker (h ++ retry_events c h)%list h1 ->
    waiting c marker h h1.

(** [settles c marker h h']: polling [c] from [h] eventually sees [marker],
    at which point the history is [h']. *)
Definition settles (c : Call) (marker : string) (h h' : History) : Prop :=
  exists h1, waiting c marker h h1
             /\ confirms marker (env h1 c) = true
             /\ h' = (h1 ++ [(c, env h1 c)])%list.

(** Events a polling loop on [c] can add: attempts and sleeps. *)
Definition poll_event (c : Call) (ev : Event) : Prop := fst ev = c \/ fst ev = Sleep 10.

(** [emits P m]: whatever happens, [m] only adds calls that satisfy [P]. *)
Definition emits {A} (P : Call -> Prop) (m : M A) : Prop :=
  forall h, exists evs,
    history_of (m h) = (h ++ evs)%list /\ Forall (fun ev => P (fst ev)) evs.

(** The gate as the specification words it: the revision string with every
    non-digit character stripped, read as an integer. *)
Definition spec_revision_number (qfsd_version : string) : option Z :=
  Py.int (Py.replace "." "" (Py.keep_digits_and_dots qfsd_version)).

Definition get_network_config : Call :=
  Run (qq "network_v3_get_config -o network_config.json") (Some 300).
Definition put_network_config : Call :=
  Run (qq "network_v3_put_config --file network_config.json") (Some 300).

(** The calls by which [apply_initial_floating_ips] touches the network
    configuration or waits for it. *)
Definition initial_flips_call (c : Call) : Prop :=
  c = Run (qq "raw GET /v3/network/status") (Some 300)
  \/ exists flips netmask, c = Run (qq (put_network_args flips netmask)) (Some 300).

(** The test [frontend_networks_length == 0 or floating_ip_count == 0] holds
    for the loaded configuration. *)
Definition no_floating_ips_configured (current_config : json) : Prop :=
  exists nets n,
    Json.get current_config "frontend_networks" (JArr []) = inr nets
    /\ Json.len nets = inr n
    /\ (n = 0 \/ (0 < n /\ count_floating_ip_ranges current_config = inr 0)).

(** The calls [create_cluster] can make. *)
Inductive bootstrap_call (config : ProvisioningConfig) : Call -> Prop :=
| bc_create nodes : bootstrap_call config (Run (qq (create_cluster_args config nodes)) (Some 300))
| bc_secret id value : bootstrap_call config (Run (update_secret_cmd id value) None)
| bc_login : bootstrap_call config (Run (qq (login_args config)) (Some 300))
| bc_recv_timeout : bootstrap_call config (Run (qq recv_timeout_args) (Some 300))
| bc_monitoring : bootstrap_call config (Run (qq monitoring_args) (Some 300))
| bc_put_network flips nm :
    bootstrap_call config (Run (qq (put_network_args flips nm)) (Some 300))
| bc_network_status :
    bootstrap_call config (Run (qq "raw GET /v3/network/status") (Some 300))
| bc_abandon : bootstrap_call config (Run (qq "raw POST /v1/debug/quorum/abandon") (Some 300))
| bc_quorum : bootstrap_call config (Run (qq "node_state_get") (Some 60))
| bc_sleep : bootstrap_call config (Sleep 10).

(** The calls [handle_existing_cluster] can make. *)
Inductive reconcile_call (config : ProvisioningConfig) : Call -> Prop :=
| rc_login : reconcile_call config (Run (qq (login_args config)) (Some 300))
| rc_modify nodes :
    reconcile_call config (Run (qq (modify_membership_args nodes)) (Some 300))
| rc_nodes : reconcile_call config (Run (qq "get_object_backed_nodes") (Some 300))
| rc_secret id value : reconcile_call config (Run (update_secret_cmd id value) None)
| rc_uris : reconcile_call config (Run (qq "get_object_storage_uris") (Some 300))
| rc_add_uris :
    reconcile_call config
      (Run (qq ("add_object_storage_uris --uris " ++ storage_uris config)) (Some 300))
| rc_get_secret id : reconcile_call config (Run (get_secret_cmd id) None)
| rc_clamp : reconcile_call config (Run (qq (capacity_clamp_args config)) (Some 300))
| rc_get_network :
    reconcile_call config
      (Run (qq "network_v3_get_config -o network_config.json") (Some 300))
| rc_read : reconcile_call config (ReadJson "network_config.json")
| rc_write doc : reconcile_call config (WriteJson "network_config.json" doc)
| rc_put_config :
    reconcile_call config
      (Run (qq "network_v3_put_config --file network_config.json") (Some 300))
| rc_put_network flips nm :
    reconcile_call config (Run (qq (put_network_args flips nm)) (Some 300))
| rc_network_status :
    reconcile_call config (Run (qq "raw GET /v3/network/status") (Some 300))
| rc_quorum : reconcile_call config (Run (qq "node_state_get") (Some 60))
| rc_sleep : reconcile_call config (Sleep 10).

Definition version_call (ip : string) : Call :=
  Run (qq ("--host " ++ ip ++ " version")) (Some 300).
Definition state_call (ip : string) : Call :=
  Run (qq ("--host " ++ ip ++ " node_state_get")) (Some 300).

(** All the nodes a survey has filed so far. *)
Definition surveyed (s : Survey) : list string :=
  (in_quorum_nodes s ++ (unconfigured_nodes s ++ removed_nodes s)
   ++ out_of_quorum_nodes s)%list.

(** Replies to [node_state_get] by the list they send a node to. *)
Definition in_quorum_reply (r : Reply) : Prop :=
  exists out err, r = Completed out err /\ Py.contains "ACTIVE" out = true.

Definition set_aside_reply (r : Reply) : Prop :=
  exists out err,
    r = Completed out err /\ Py.contains "ACTIVE" out = false
    /\ (Py.contains "UNCONFIGURED" out = true \/ Py.contains "REMOVED" out = true).

Definition out_of_quorum_reply (r : Reply) : Prop :=
  (exists rc out err, r = CalledProcessError rc out err)
  \/ exists out err,
       r = Completed out err /\ Py.contains "ACTIVE" out = false
       /\ Py.contains "UNCONFIGURED" out = false /\ Py.contains "REMOVED" out = false.

(** Among the events [evs], node [ip] answered [node_state_get] with a
    reply of kind [P]. *)
Definition state_reply (ip : string) (evs : History) (P : Reply -> Prop) : Prop :=
  exists r, In (state_call ip, r) evs /\ P r.

(** Filing node [ip] on reply [r] turns survey [s] into [s']. *)
Definition files (ip : string) (r : Reply) (s s' : Survey) : Prop :=
  Permutation (surveyed s') (surveyed s ++ [ip])
  /\ (forall x, In x (in_quorum_nodes s') ->
        In x (in_quorum_nodes s) \/ (x = ip /\ in_quorum_reply r))
  /\ (forall x, In x (unconfigured_nodes s' ++ removed_nodes s') ->
        In x (unconfigured_nodes s ++ removed_nodes s) \/ (x = ip /\ set_aside_reply r))
  /\ (forall x, In x (out_of_quorum_nodes s') ->
        In x (out_of_quorum_nodes s) \/ (x = ip /\ out_of_quorum_reply r)).

(** The three calls of capacity convergence. *)
Definition read_capacity (config : ProvisioningConfig) : Call :=
  Run (get_secret_cmd (cluster_soft_capacity_limit_secret_id config)) None.
Definition clamp_capacity (config : ProvisioningConfig) : Call :=
  Run (qq (capacity_clamp_args config)) (Some 300).
Definition record_capacity (config : ProvisioningConfig) : Call :=
  Run (update_secret_cmd (cluster_soft_capacity_limit_secret_id config)
         (soft_capacity_limit config)) None.

(** At history [h] the secret store holds the capacity limit [c]. *)
Definition recorded_capacity (config : ProvisioningConfig) (h : History) (c : Z) : Prop :=
  exists out err text,
    env h (read_capacity config) = Completed out err
    /\ secret_content out = inr text /\ Py.int text = Some c.

(** [wanted] occur in [trace] in this order, possibly with other commands
    between them. *)
Fixpoint in_order (wanted trace : list string) : bool :=
  match wanted, trace with
  | [], _ => true
  | _ :: _, [] => false
  | w :: ws, t :: ts => if (w =? t)%string then in_order ws ts else in_order wanted ts
  end.

(** The first six calls of a bootstrap that creates the cluster from
    [nodes]. *)
Definition bootstrap_prefix (config : ProvisioningConfig) (nodes : list string)
  : list Call :=
  [ Run (qq (create_cluster_args config nodes)) (Some 300);
    Run (update_secret_cmd (cluster_node_count_secret_id config)
           (Py.str (Py.len nodes))) None;
    Run (update_secret_cmd (deployed_permanent_disk_count_secret_id config)
           (permanent_disk_count config)) None;
    Run (update_secret_cmd (cluster_soft_capacity_limit_secret_id config)
           (soft_capacity_limit config)) None;
    Run (qq (login_args config)) (Some 300);
    Run (qq recv_timeout_args) (Some 300) ].

Definition completed (ev : Event) : Prop := exists out err, snd ev = Completed out err.

Definition quorum_poll : Call := Run (qq "node_state_get") (Some 60).
Definition network_status_poll : Call := Run (qq "raw GET /v3/network/status") (Some 300).

(** Every shell command the script runs exits with status 0. *)
Definition commands_succeed : Prop :=
  forall h cmd timeout, exists out err, env h (Run cmd timeout) = Completed out err.

(** Once the call [c] has been made, polling the quorum state eventually
    shows [ACTIVE]. *)
Definition quorum_forms_after (c : Call) : Prop :=
  forall h, In c (map fst h) -> exists h', settles quorum_poll "ACTIVE" h h'.

(** From any point on, polling the network status eventually shows floating
    addresses. *)
Definition floating_addresses_appear : Prop :=
  forall h, exists h', settles network_status_poll "floating_addresses" h h'.

(** ** Vocabulary for the further properties *)

(** [retrying attempt h h1]: from [h], some rounds in which [attempt]
    answered "not yet", each followed by the 10 s sleep, lead to [h1]. *)
Inductive retrying (attempt : M bool) : History -> History -> Prop :=
| retrying_done h : retrying attempt h h
| retrying_again h h1 h2 :
    attempt h = Ret false h1 ->
    retrying attempt (h1 ++ [(Sleep 10, env h1 (Sleep 10))])%list h2 ->
    retrying attempt h h2.

Definition nodes_poll : Call := Run (qq "get_object_backed_nodes") (Some 300).

(** One round of the [while True] of [update_cluster_membership]. *)
Definition membership_attempt (node_count swing_node_count : Z) : M bool :=
  try_except
    (result <- qq_command "get_object_backed_nodes" ;;
     current_node_count <- lift (reported_node_count (stdout result)) ;;
     ret (current_node_count =? node_count + swing_node_count))
    is_membership_poll_error
    (ret false).

Definition node_state_url (ip : string) : string :=
  "https://" ++ ip ++ ":8000/v1/node/state".

Definition readiness_probe (ip : string) : Call :=
  HttpGet (node_state_url ip) [] (Some 60).

(** One round of the [while True] of [wait_for_qfsd_installation]. *)
Definition readiness_attempt (ip : string) : M bool :=
  try_except
    (response <- requests_get (node_state_url ip) [] (Some 60) ;;
     ret (fst response =? 200))
    is_request_exception
    (ret false).

(** [current_config["frontend_networks"][0]["addresses"]["host_addresses"][k]] *)
Definition host_addresses_item (current_config : json) (k : string) : Exn + json :=
  match Json.item current_config "frontend_networks" with
  | inl e => inl e
  | inr nets =>
  match Json.first nets with
  | inl e => inl e
  | inr net =>
  match Json.item net "addresses" with
  | inl e => inl e
  | inr addresses =>
  match Json.item addresses "host_addresses" with
  | inl e => inl e
  | inr host => Json.item host k
  end end end end.

(** [current_config["frontend_networks"][0][k]] *)
Definition first_network_item (current_config : json) (k : string) : Exn + json :=
  match Json.item current_config "frontend_networks" with
  | inl e => inl e
  | inr nets =>
  match Json.first nets with
  | inl e => inl e
  | inr net => Json.item net k
  end end.

(** [current_config["frontend_networks"][1:]] when it is a list *)
Definition other_networks (current_config : json) : option (list json) :=
  match Json.item current_config "frontend_networks" with
  | inr (JArr (_ :: others)) => Some others
  | _ => None
  end.

(** The membership change [update_cluster_membership] submits. *)
Definition modify_membership (node_count : Z)
    (node_ips_and_fault_domains swing_node_ips_and_fault_domains : string) : Call :=
  Run (qq (modify_membership_args
             (Py.slice_to node_count (Py.split node_ips_and_fault_domains)
              ++ Py.split swing_node_ips_and_fault_domains)%list)) (Some 300).

(** Writing the number [n] to the secret [secret_id]. *)
Definition record_node_count (secret_id : string) (n : Z) : Call :=
  Run (update_secret_cmd secret_id (Py.str n)) None.

(** A reply to [get_object_backed_nodes] after which the loop of
    [update_cluster_membership] sleeps and asks again. *)
Definition membership_pending (node_count swing_node_count : Z) (r : Reply) : bool :=
  match r with
  | Completed out _ =>
      match reported_node_count out with
      | inr k => negb (k =? node_count + swing_node_count)
      | inl e => is_membership_poll_error e
      end
  | CalledProcessError _ _ _ => true
  | _ => false
  end.

(** [membership_in_effect n sn h h']: asking for the membership from [h]
    on, rounds that were each followed by a sleep lead to a reply that
    reports [n + sn] nodes, at which point the history is [h']. *)
Definition membership_in_effect (node_count swing_node_count : Z) (h h' : History) : Prop :=
  exists h1 out err,
    retrying (membership_attempt node_count swing_node_count) h h1
    /\ env h1 nodes_poll = Completed out err
    /\ reported_node_count out = inr (node_count + swing_node_count)
    /\ h' = (h1 ++ [(nodes_poll, Completed out err)])%list.

Definition list_buckets : Call := Run (qq "get_object_storage_uris") (Some 300).

Definition add_buckets (config : ProvisioningConfig) : Call :=
  Run (qq ("add_object_storage_uris --uris " ++ storage_uris config)) (Some 300).

Definition install_oci_cli_call : Call :=
  Run ("curl -L https://raw.githubusercontent.com/oracle/oci-cli/master/scripts/install/"
       ++ "install.sh | bash -s -- --accept-all-defaults") (Some 600).

Definition download_qq_call : Call :=
  HttpGet ("https://" ++ clustering_node_ip_address tpl ++ "/static/qq") [] None.

(** The calls [main] can make up to the end of the surveys. *)
Inductive preliminary_call : Call -> Prop :=
| pc_chdir : preliminary_call (Chdir "/root")
| pc_install : preliminary_call install_oci_cli_call
| pc_readiness ip : preliminary_call (readiness_probe ip)
| pc_sleep : preliminary_call (Sleep 10)
| pc_download : preliminary_call download_qq_call
| pc_write_qq content : preliminary_call (WriteBytes "qq" content)
| pc_chmod_qq : preliminary_call (Chmod "qq" 511)
| pc_version ip : preliminary_call (version_call ip)
| pc_state ip : preliminary_call (state_call ip).

(** The calls that change the cluster or the secret store. *)
Inductive changing_call : Call -> Prop :=
| cc_secret id value : changing_call (Run (update_secret_cmd id value) None)
| cc_create config nodes :
    changing_call (Run (qq (create_cluster_args config nodes)) (Some 300))
| cc_modify nodes : changing_call (Run (qq (modify_membership_args nodes)) (Some 300))
| cc_add_uris uris : changing_call (Run (qq ("add_object_storage_uris --uris " ++ uris)) (Some 300))
| cc_clamp config : changing_call (Run (qq (capacity_clamp_args config)) (Some 300))
| cc_put_config : changing_call put_network_config
| cc_put_network flips nm : changing_call (Run (qq (put_network_args flips nm)) (Some 300))
| cc_recv_timeout : changing_call (Run (qq recv_timeout_args) (Some 300))
| cc_monitoring : changing_call (Run (qq monitoring_args) (Some 300))
| cc_abandon : changing_call (Run (qq "raw POST /v1/debug/quorum/abandon") (Some 300)).

(** What [main] does before the surveys: it installs the OCI client, waits
    for the nodes, fetches [qq] and asks the clustering node for its
    revision. *)
Definition prepare (fuel : nat) : M string :=
  perform (Chdir "/root") ;;
  install_oci_cli ;;
  wait_for_qfsd_installation fuel (cluster_node_ip_addresses tpl) ;;
  (if (provision_swing_pool tpl =? "true")%string
      && (0 <? Py.len (Py.split (swing_node_ip_addresses tpl)))
   then wait_for_qfsd_installation fuel (swing_node_ip_addresses tpl)
   else ret tt) ;;
  download_qq_client ;;
  get_qfsd_version (clustering_node_ip_address tpl).

Definition completion_call (config : ProvisioningConfig) : Call :=
  Run (update_secret_cmd (provisioner_complete_secret_id config) "true") None.

Definition metadata_call : Call :=
  HttpGet "http://169.254.169.254/opc/v2/instance/" [("Authorization", "Bearer Oracle")]
    (Some 30).

Definition stop_call (instance_id : json) : Call :=
  Run ("/root/bin/oci compute instance action --instance-id "
       ++ match instance_id with JStr s => s | other => py_repr other end
       ++ " --action STOP --auth instance_principal") None.

(** The events of waiting for node [ip]: probes and sleeps, then the probe
    that node [ip] answers with status 200. *)
Definition came_up (ip : string) (segment : History) : Prop :=
  exists evs content,
    segment = (evs ++ [(readiness_probe ip, Response 200 content)])%list
    /\ Forall (fun ev => fst ev = readiness_probe ip \/ fst ev = Sleep 10) evs.

(** The polls of the three waiting loops: when one fails it is repeated. *)
Definition retried_poll (c : Call) : Prop :=
  c = quorum_poll \/ c = network_status_poll \/ c = nodes_poll.

(** An event that is no failure: a shell command that exited with status 0,
    a failed poll of a waiting loop, or a call that is no shell command. *)
Definition clean (ev : Event) : Prop :=
  match ev with
  | (Run _ _, Completed _ _) => True
  | (Run cmd timeout, CalledProcessError _ _ _) => retried_poll (Run cmd timeout)
  | (Run _ _, _) => False
  | _ => True
  end.

(** [careful m]: when [m] returns, every event it added is clean. *)
Definition careful {A} (m : M A) : Prop :=
  forall h a h', m h = Ret a h' ->
    exists evs, h' = (h ++ evs)%list /\ Forall clean evs.

Fixpoint all_chars (p : ascii -> bool) (s : string) : bool :=
  match s with
  | "" => true
  | String c rest => p c && all_chars p rest
  end.

Definition digit_or_dot (c : ascii) : bool := Py.is_digit c || Ascii.eqb c ".".

Definition has_digit (s : string) : bool :=
  negb (all_chars (fun c => negb (Py.is_digit c)) s).

(** The command that creates the cluster from the declared addresses. *)
Definition create_call (config : ProvisioningConfig) : Call :=
  Run (qq (create_cluster_args config
             (Py.slice_to (node_count config)
                (Py.split (node_ips_and_fault_domains config))))) (Some 300).

Definition login_call (config : ProvisioningConfig) : Call :=
  Run (qq (login_args config)) (Some 300).

(** The calls of a reconcile that finds nothing to do: all of them read. *)
Definition steady_calls (config : ProvisioningConfig) : list Call :=
  [ login_call config; list_buckets; read_capacity config; get_network_config;
    ReadJson "network_config.json" ].

Definition write_config (doc : json) : Call := WriteJson "network_config.json" doc.

(** [resubmits doc h r]: the run [r], started at [h], first writes [doc] to
    the scratch file.  If the write fails the run raises there; otherwise its
    next call submits the file with [network_v3_put_config].  The run returns
    only after that command has completed and a quorum poll has then shown
    ACTIVE. *)
Definition resubmits (doc : json) (h : History) (r : Res unit) : Prop :=
  let written := env h (write_config doc) in
  let h1 := (h ++ [(write_config doc, written)])%list in
  (exists rest, history_of r = (h1 ++ rest)%list)
  /\ (written <> Done -> r = Raise OtherError h1)
  /\ (written = Done ->
        exists rest,
          history_of r
          = (h1 ++ (put_network_config, env h1 put_network_config) :: rest)%list)
  /\ (forall h', r = Ret tt h' ->
        exists o e,
          written = Done
          /\ env h1 put_network_config = Completed o e
          /\ settles quorum_poll "ACTIVE"
               (h1 ++ [(put_network_config, Completed o e)])%list h').

(** ** How single calls and polling loops run *)

Lemma run_command_run cmd timeout h :
  run_command cmd timeout h =
  let r := env h (Run cmd timeout) in
  let h' := (h ++ [(Run cmd timeout, r)])%list in
  match r with
  | Completed out err => Ret {| stdout := out; stderr := err |} h'
  | CalledProcessError rc _ _ => Raise (ProvisioningError (CommandFailed rc cmd)) h'
  | TimeoutExpired => Raise SubprocessTimeout h'
  | _ => Raise OtherError h'
  end.
Proof.
  unfold run_command, bind, call; cbn.
  destruct (env h (Run cmd timeout)); reflexivity.
Qed.

Lemma run_command_extends cmd timeout h :
  exists r, history_of (run_command cmd timeout h) = (h ++ [(Run cmd timeout, r)])%list.
Proof.
  rewrite run_command_run; cbn.
  exists (env h (Run cmd timeout)).
  destruct (env h (Run cmd timeout)); reflexivity.
Qed.

Lemma run_command_completed cmd timeout h out err :
  env h (Run cmd timeout) = Completed out err ->
  run_command cmd timeout h =
  Ret {| stdout := out; stderr := err |} (h ++ [(Run cmd timeout, Completed out err)])%list.
Proof. intros E. rewrite run_command_run; cbn. rewrite E. reflexivity. Qed.

Lemma not_yet_not_confirms marker r : not_yet marker r = true -> confirms marker r = false.
Proof.
  destruct r; cbn; try reflexivity; try discriminate.
  intros H. apply negb_true_iff in H. exact H.
Qed.

Lemma probe_run cmd timeout marker h :
  probe cmd timeout marker h =
  let r := env h (Run cmd timeout) in
  let h' := (h ++ [(Run cmd timeout, r)])%list in
  if confirms marker r then Ret true h'
  else if not_yet marker r then Ret false h'
  else match r with
       | TimeoutExpired => Raise SubprocessTimeout h'
       | _ => Raise OtherError h'
       end.
Proof.
  unfold probe, try_except, bind. rewrite run_command_run; cbn.
  destruct (env h (Run cmd timeout)); cbn; try reflexivity.
  unfold ret. destruct (Py.contains marker stdout0); reflexivity.
Qed.

Lemma sleep_run seconds h :
  sleep seconds h = Ret tt (h ++ [(Sleep seconds, env h (Sleep seconds))])%list.
Proof. reflexivity. Qed.

Lemma wait_for_new_quorum_poll fuel h :
  wait_for_new_quorum fuel h = poll fuel (probe (qq "node_state_get") (Some 60) "ACTIVE") h.
Proof.
  revert h. induction fuel as [|fuel IH]; intros h; [reflexivity|].
  cbn [wait_for_new_quorum poll]. unfold bind.
  change (try_except _ is_provisioning_error (ret false) h)
    with (probe (qq "node_state_get") (Some 60) "ACTIVE" h).
  destruct (probe _ _ _ h) as [[|] h1|e h1|h1]; try reflexivity.
  rewrite !sleep_run. apply IH.
Qed.

Lemma wait_for_floating_addresses_poll fuel h :
  wait_for_floating_addresses fuel h =
  poll fuel (probe (qq "raw GET /v3/network/status") (Some 300) "floating_addresses") h.
Proof.
  revert h. induction fuel as [|fuel IH]; intros h; [reflexivity|].
  cbn [wait_for_floating_addresses poll]. unfold bind.
  change (try_except _ is_provisioning_error (ret false) h)
    with (probe (qq "raw GET /v3/network/status") (Some 300) "floating_addresses" h).
  destruct (probe _ _ _ h) as [[|] h1|e h1|h1]; try reflexivity.
  rewrite !sleep_run. apply IH.
Qed.

Section Polling.

Variables (cmd : string) (timeout : option Z) (marker : string).
Let c := Run cmd timeout.
Let loop fuel := poll fuel (probe cmd timeout marker).

Lemma retry_events_poll h : Forall (poll_event c) (retry_events c h).
Proof.
  unfold retry_events.
  constructor; [left; reflexivity|]. constructor; [right; reflexivity|]. constructor.
Qed.

Lemma poll_step fuel h :
  loop (S fuel) h =
  let r := env h c in
  let h' := (h ++ [(c, r)])%list in
  if confirms marker r then Ret tt h'
  else if not_yet marker r then loop fuel (h ++ retry_events c h)%list
  else match r with
       | TimeoutExpired => Raise SubprocessTimeout h'
       | _ => Raise OtherError h'
       end.
Proof.
  unfold loop; cbn [poll]. unfold bind at 1. rewrite probe_run. cbn zeta.
  fold c. destruct (confirms marker (env h c)); [reflexivity|].
  destruct (not_yet marker (env h c)).
  - unfold bind. rewrite sleep_run. unfold retry_events.
    rewrite <- app_assoc. reflexivity.
  - destruct (env h c); reflexivity.
Qed.

Lemma poll_settles h h' :
  settles c marker h h' ->
  exists n, forall fuel, (n <= fuel)%nat -> loop fuel h = Ret tt h'.
Proof.
  intros (h1 & W & C & ->). induction W as [h|h h1 N W IH].
  - exists 1%nat. intros [|fuel] L; [lia|]. rewrite poll_step; cbn zeta.
    rewrite C. reflexivity.
  - destruct (IH C) as [n Hn]. exists (S n). intros [|fuel] L; [lia|].
    rewrite poll_step; cbn zeta. rewrite (not_yet_not_confirms _ _ N), N.
    apply Hn. lia.
Qed.

Lemma poll_returns fuel h h' :
  loop fuel h = Ret tt h' -> settles c marker h h'.
Proof.
  revert h. induction fuel as [|fuel IH]; intros h; [discriminate|].
  rewrite poll_step; cbn zeta.
  destruct (confirms marker (env h c)) eqn:C.
  - intros [= <-]. exists h. split; [constructor|]. split; [exact C|reflexivity].
  - destruct (not_yet marker (env h c)) eqn:N.
    + intros E. destruct (IH _ E) as (h1 & W & C1 & ->).
      exists h1. split; [|split; [exact C1|reflexivity]].
      eapply waiting_retry; eauto.
    + destruct (env h c); discriminate.
Qed.

Lemma poll_events fuel h :
  exists evs, history_of (loop fuel h) = (h ++ evs)%list /\ Forall (poll_event c) evs.
Proof.
  revert h. induction fuel as [|fuel IH]; intros h.
  - exists []. cbn. rewrite app_nil_r. auto.
  - rewrite poll_step; cbn zeta.
    assert (One : forall r, Forall (poll_event c) [(c, r)]).
    { intros r. constructor; [left; reflexivity|constructor]. }
    destruct (confirms marker (env h c)); [eexists; split; [reflexivity|apply One]|].
    destruct (not_yet marker (env h c)).
    + destruct (IH (h ++ retry_events c h)%list) as (evs & E & F).
      exists (retry_events c h ++ evs)%list. rewrite E, app_assoc. split; [reflexivity|].
      apply Forall_app. split; [|exact F].
      apply retry_events_poll.
    + destruct (env h c); eexists; (split; [reflexivity|apply One]).
Qed.

Lemma waiting_events h h1 :
  waiting c marker h h1 -> exists evs, h1 = (h ++ evs)%list /\ Forall (poll_event c) evs.
Proof.
  induction 1 as [h|h h1 N W (evs & -> & F)].
  - exists []. rewrite app_nil_r. auto.
  - exists (retry_events c h ++ evs)%list. rewrite app_assoc. split; [reflexivity|].
    apply Forall_app. split; [|exact F].
    apply retry_events_poll.
Qed.

(** A settled poll ends with an attempt whose output shows the marker. *)
Lemma settles_events h h' :
  settles c marker h h' ->
  exists evs out err,
    h' = (h ++ evs ++ [(c, Completed out err)])%list
    /\ Forall (poll_event c) evs /\ Py.contains marker out = true.
Proof.
  intros (h1 & W & C & ->). destruct (waiting_events _ _ W) as (evs & -> & F).
  destruct (env (h ++ evs)%list c) as [out err| | | | | | |] eqn:E; try discriminate.
  exists evs, out, err. rewrite <- app_assoc. auto.
Qed.

End Polling.

(** ** Which calls a computation can make *)

Lemma skipn_app_exact {A} (l l' : list A) : skipn (length l) (l ++ l') = l'.
Proof. induction l; cbn; auto. Qed.

Lemma events_since_app {A} h evs (r : Res A) :
  history_of r = (h ++ evs)%list -> events_since h r = evs.
Proof. unfold events_since. intros ->. apply skipn_app_exact. Qed.

Lemma events_since_same {A} h (r : Res A) : history_of r = h -> events_since h r = [].
Proof. intros E. apply events_since_app. rewrite app_nil_r. exact E. Qed.

Lemma emits_ret {A} P (a : A) : emits P (ret a).
Proof. intros h. exists []. cbn. rewrite app_nil_r. auto. Qed.

Lemma emits_raise {A} P e : emits P (@raise A e).
Proof. intros h. exists []. cbn. rewrite app_nil_r. auto. Qed.

Lemma emits_spin {A} P : emits P (@spin A).
Proof. intros h. exists []. cbn. rewrite app_nil_r. auto. Qed.

Lemma emits_bind {A B} P (m : M A) (k : A -> M B) :
  emits P m -> (forall a, emits P (k a)) -> emits P (bind m k).
Proof.
  intros Hm Hk h. unfold bind. destruct (Hm h) as (evs & E & F).
  destruct (m h) as [a h1|e h1|h1]; cbn in E; subst h1.
  - destruct (Hk a (h ++ evs)%list) as (evs' & E' & F').
    exists (evs ++ evs')%list. rewrite E', app_assoc. split; [reflexivity|].
    apply Forall_app; auto.
  - exists evs; auto.
  - exists evs; auto.
Qed.

Lemma emits_try_except {A} P (m : M A) caught handler :
  emits P m -> emits P handler -> emits P (try_except m caught handler).
Proof.
  intros Hm Hh h. unfold try_except. destruct (Hm h) as (evs & E & F).
  destruct (m h) as [a h1|e h1|h1]; cbn in E; subst h1.
  - exists evs; auto.
  - destruct (caught e).
    + destruct (Hh (h ++ evs)%list) as (evs' & E' & F').
      exists (evs ++ evs')%list. rewrite E', app_assoc. split; [reflexivity|].
      apply Forall_app; auto.
    + exists evs; auto.
  - exists evs; auto.
Qed.

Lemma emits_lift {A} P (x : Exn + A) : emits P (lift x).
Proof. destruct x; [apply emits_raise|apply emits_ret]. Qed.

Lemma emits_call P c : P c -> emits P (call c).
Proof. intros Pc h. exists [(c, env h c)]. split; [reflexivity|]. repeat constructor. exact Pc. Qed.

Lemma emits_sleep P n : P (Sleep n) -> emits P (sleep n).
Proof. intros H. apply emits_bind; [apply emits_call, H|intros; apply emits_ret]. Qed.

Lemma emits_run_command P cmd timeout : P (Run cmd timeout) -> emits P (run_command cmd timeout).
Proof.
  intros H. apply emits_bind; [apply emits_call, H|].
  intros []; first [apply emits_ret|apply emits_raise].
Qed.

Lemma emits_poll P fuel attempt : emits P attempt -> P (Sleep 10) -> emits P (poll fuel attempt).
Proof.
  intros Ha Hs. induction fuel as [|fuel IH]; [apply emits_spin|].
  cbn [poll]. apply emits_bind; [exact Ha|]. intros [|]; [apply emits_ret|].
  apply emits_bind; [apply emits_sleep, Hs|intros; exact IH].
Qed.

Lemma emits_ext {A} P (m m' : M A) : (forall h, m h = m' h) -> emits P m' -> emits P m.
Proof. intros E H h. rewrite E. apply H. Qed.

Lemma emits_probe P cmd timeout marker :
  P (Run cmd timeout) -> emits P (probe cmd timeout marker).
Proof.
  intros H. apply emits_try_except; [|apply emits_ret].
  apply emits_bind; [apply emits_run_command, H|intros; apply emits_ret].
Qed.

Lemma emits_wait_for_new_quorum P fuel :
  P quorum_poll -> P (Sleep 10) -> emits P (wait_for_new_quorum fuel).
Proof.
  intros Hp Hs. eapply emits_ext; [apply wait_for_new_quorum_poll|].
  apply emits_poll; [apply emits_probe, Hp|exact Hs].
Qed.

Lemma emits_wait_for_floating_addresses P fuel :
  P network_status_poll -> P (Sleep 10) -> emits P (wait_for_floating_addresses fuel).
Proof.
  intros Hp Hs. eapply emits_ext; [apply wait_for_floating_addresses_poll|].
  apply emits_poll; [apply emits_probe, Hp|exact Hs].
Qed.

Lemma emits_weaken {A} (P Q : Call -> Prop) (m : M A) :
  (forall c, P c -> Q c) -> emits P m -> emits Q m.
Proof.
  intros I H h. destruct (H h) as (evs & E & F). exists evs. split; [exact E|].
  eapply Forall_impl; [|exact F]. intros ev; apply I.
Qed.

(** The first call of a run is issued, whatever follows. *)
Lemma issued_first {A} cmd timeout (k : CompletedProcess -> M A) h :
  (forall a, emits (fun _ => True) (k a)) ->
  issued (Run cmd timeout) h (bind (run_command cmd timeout) k h).
Proof.
  intros Hk. unfold issued, bind. rewrite run_command_run; cbn zeta.
  assert (Hd : forall (r : Res A) rep evs,
                 history_of r = (h ++ (Run cmd timeout, rep) :: evs)%list ->
                 In (Run cmd timeout) (map fst (events_since h r))).
  { intros r rep evs E. rewrite (events_since_app h _ r E). left; reflexivity. }
  destruct (env h (Run cmd timeout)) eqn:R;
    try (eapply Hd with (evs := []); reflexivity).
  match goal with |- context [k ?a ?h1] => destruct (Hk a h1) as (evs & E & _) end.
  eapply Hd. rewrite E, <- app_assoc. reflexivity.
Qed.

Lemma not_issued_same {A} c h (r : Res A) : history_of r = h -> ~ issued c h r.
Proof. intros E. unfold issued. rewrite (events_since_same _ _ E). intros []. Qed.

Lemma bind_assoc {A B C} (m : M A) (k : A -> M B) (k' : B -> M C) h :
  bind (bind m k) k' h = bind m (fun a => bind (k a) k') h.
Proof. unfold bind. destruct (m h); reflexivity. Qed.

(** A run that begins with a shell command records it first, whatever
    follows. *)
Lemma run_command_then {A} cmd timeout (k : CompletedProcess -> M A) h :
  (forall a, emits (fun _ => True) (k a)) ->
  exists rep rest,
    history_of (bind (run_command cmd timeout) k h)
    = (h ++ (Run cmd timeout, rep) :: rest)%list.
Proof.
  intros Hk. unfold bind. rewrite run_command_run; cbn zeta.
  destruct (env h (Run cmd timeout)) eqn:R;
    try (eexists _, []; reflexivity).
  match goal with |- context [k ?a ?h1] => destruct (Hk a h1) as (evs & E & _) end.
  eexists _, evs. rewrite E, <- app_assoc. reflexivity.
Qed.

Ltac emits_step :=
  lazymatch goal with
  | |- emits _ (ret _) => apply emits_ret
  | |- emits _ (raise _) => apply emits_raise
  | |- emits _ spin => apply emits_spin
  | |- emits _ (lift _) => apply emits_lift
  | |- emits _ (bind _ _) => apply emits_bind; [|intros ?]
  | |- emits _ (try_except _ _ _) => apply emits_try_except
  | |- emits _ (run_command _ _) => apply emits_run_command
  | |- emits _ (qq_command _) => apply emits_run_command
  | |- emits _ (update_secret _ _) => unfold update_secret
  | |- emits _ (sleep _) => apply emits_sleep
  | |- emits _ (call _) => apply emits_call
  | |- emits _ (perform _) => unfold perform
  | |- emits _ (read_json _) => unfold read_json
  | |- emits _ (write_json _ _) => unfold write_json
  | |- emits _ (wait_for_new_quorum _) => apply emits_wait_for_new_quorum
  | |- emits _ (wait_for_floating_addresses _) => apply emits_wait_for_floating_addresses
  | |- emits _ (if ?b then _ else _) => destruct b
  | |- emits _ (match ?x with _ => _ end) => destruct x
  end.

Ltac emits_any := repeat emits_step; try exact I.

Lemma apply_initial_floating_ips_extends fuel flips netmask :
  emits (fun _ => True) (apply_initial_floating_ips fuel flips netmask).
Proof. unfold apply_initial_floating_ips. emits_any. Qed.

Lemma update_floating_ips_extends fuel current_config new_flips netmask :
  emits (fun _ => True) (update_floating_ips fuel current_config new_flips netmask).
Proof.
  unfold update_floating_ips. emits_any.
  apply apply_initial_floating_ips_extends.
Qed.

Lemma app_cons_neq {A} (l l' : list A) x : (l ++ x :: l')%list <> l.
Proof.
  intros E. apply (f_equal (@length A)) in E. rewrite length_app in E. cbn in E. lia.
Qed.

Lemma append_inj_l (s a b : string) : (s ++ a = s ++ b)%string -> a = b.
Proof. induction s; cbn; intros E; [exact E|]. injection E. auto. Qed.

Lemma qq_inj a b : qq a = qq b -> a = b.
Proof.
  unfold qq. intros E. apply append_inj_l in E. apply append_inj_l in E.
  apply (append_inj_l " ") in E. exact E.
Qed.

(** Once the revision gate is passed, the run starts by fetching the
    network configuration. *)
Lemma maybe_update_floating_ips_attempt fuel cna fips nm qv n h :
  qv <> "" -> revision_prefix qv = Some n -> 751 <= n ->
  maybe_update_floating_ips fuel cna fips nm qv h =
  (qq_command "network_v3_get_config -o network_config.json" ;;
   current_config <- read_json "network_config.json" ;;
   update_floating_ips fuel current_config (declared_flips fips) nm) h.
Proof.
  intros Hne Hrev Hge. unfold maybe_update_floating_ips. rewrite Hrev.
  destruct (String.eqb_spec qv ""); [contradiction|].
  destruct (Z.ltb_spec n 751); [lia|reflexivity].
Qed.

(** Whatever the revision string: the convergence is attempted exactly when
    the string is not empty and [revision_prefix] is at least 751, and skipped
    without a call exactly when it is empty or the prefix is below 751. *)
Lemma maybe_update_floating_ips_gate fuel cna fips nm qv h :
  let r := maybe_update_floating_ips fuel cna fips nm qv h in
  (issued get_network_config h r
   <-> qv <> "" /\ exists n, revision_prefix qv = Some n /\ 751 <= n)
  /\ (r = Ret tt h
      <-> qv = "" \/ exists n, revision_prefix qv = Some n /\ n < 751).
Proof.
  cbn zeta.
  assert (Att : forall n, qv <> "" -> revision_prefix qv = Some n -> 751 <= n ->
     issued get_network_config h (maybe_update_floating_ips fuel cna fips nm qv h)).
  { intros n H1 H2 H3. rewrite (maybe_update_floating_ips_attempt _ _ _ _ _ _ _ H1 H2 H3).
    apply issued_first. intros a. emits_any. apply update_floating_ips_extends. }
  assert (Grow : forall n, qv <> "" -> revision_prefix qv = Some n -> 751 <= n ->
     maybe_update_floating_ips fuel cna fips nm qv h <> Ret tt h).
  { intros n H1 H2 H3 E. specialize (Att n H1 H2 H3). rewrite E in Att.
    revert Att. apply not_issued_same. reflexivity. }
  unfold maybe_update_floating_ips in *.
  destruct (String.eqb_spec qv "") as [->|Hne].
  - split; split.
    + intros H. exfalso. revert H. apply not_issued_same. reflexivity.
    + intros [H _]. contradiction.
    + auto.
    + reflexivity.
  - destruct (revision_prefix qv) as [n|] eqn:Hrev.
    + destruct (Z.ltb_spec n 751) as [Hlt|Hge].
      * split; split.
        -- intros H. exfalso. revert H. apply not_issued_same. reflexivity.
        -- intros (_ & m & [= <-] & Hm). lia.
        -- intros _. right. eauto.
        -- reflexivity.
      * split; split.
        -- intros _. split; [exact Hne|eauto].
        -- intros _. eapply Att; eauto.
        -- intros E. exfalso. eapply Grow; eauto.
        -- intros [->|(m & [= <-] & Hm)]; [contradiction|lia].
    + split; split.
      * intros H. exfalso. revert H. apply not_issued_same. reflexivity.
      * intros (_ & m & [=] & _).
      * discriminate.
      * intros [->|(m & [=] & _)]. contradiction.
Qed.

Lemma digit_cases c :
  Py.is_digit c = true ->
  In c ["0"; "1"; "2"; "3"; "4"; "5"; "6"; "7"; "8"; "9"]%char.
Proof.
  destruct c as [[] [] [] [] [] [] [] []]; vm_compute; intros H;
    try discriminate H; repeat first [left; reflexivity | right].
Qed.

(** For a revision [a.b.c...] with single-digit major and minor, the prefix
    is the number written [abc]. *)
Lemma revision_prefix_digits a b c rest :
  Py.is_digit a = true -> Py.is_digit b = true -> Py.is_digit c = true ->
  revision_prefix (String a (String "." (String b (String "." (String c rest)))))
  = Some (100 * Py.digit_val a + 10 * Py.digit_val b + Py.digit_val c).
Proof.
  intros Ha Hb Hc.
  apply digit_cases in Ha. apply digit_cases in Hb. apply digit_cases in Hc.
  cbn [In] in Ha, Hb, Hc.
  repeat match goal with
         | H : _ \/ _ |- _ => destruct H as [H|H]
         | H : False |- _ => destruct H
         end; subst; reflexivity.
Qed.

(** C7 (as amended): for a revision [a.b.c...] whose major and minor are
    single digits, floating-IP convergence is attempted exactly when the
    number written with its first three digits is at least 751, and skipped
    silently, with no call and no error, exactly when that number is below
    751; the digits after the third play no part.  An empty revision is
    skipped silently too. *)
Theorem floating_ip_revision_gate fuel cna fips nm a b c rest h :
  Py.is_digit a = true -> Py.is_digit b = true -> Py.is_digit c = true ->
  let qv := String a (String "." (String b (String "." (String c rest)))) in
  let r := maybe_update_floating_ips fuel cna fips nm qv h in
  let n := 100 * Py.digit_val a + 10 * Py.digit_val b + Py.digit_val c in
  revision_prefix qv = Some n
  /\ (issued get_network_config h r <-> 751 <= n)
  /\ (r = Ret tt h <-> n < 751)
  /\ maybe_update_floating_ips fuel cna fips nm "" h = Ret tt h.
Proof.
  intros Ha Hb Hc qv r n.
  pose proof (revision_prefix_digits a b c rest Ha Hb Hc) as Hp. fold qv n in Hp.
  destruct (maybe_update_floating_ips_gate fuel cna fips nm qv h) as [G1 G2].
  fold r in G1, G2.
  assert (Hne : qv <> "") by discriminate.
  split; [exact Hp|]. split; [|split; [|reflexivity]].
  - rewrite G1. split.
    + intros (_ & m & Hm & Hge). congruence.
    + intros Hge. split; [exact Hne|]. exists n. auto.
  - rewrite G2. split.
    + intros [E|(m & Hm & Hlt)]; [contradiction|congruence].
    + intros Hlt. right. exists n. auto.
Qed.


Lemma update_floating_ips_initial fuel current_config new_flips nm h :
  no_floating_ips_configured current_config ->
  update_floating_ips fuel current_config new_flips nm h =
  apply_initial_floating_ips fuel new_flips nm h.
Proof.
  intros (nets & n & Hg & Hl & Hn). unfold update_floating_ips, bind.
  rewrite Hg; cbn [lift ret]. rewrite Hl; cbn [lift ret].
  destruct Hn as [->|[Hpos Hc]]; [reflexivity|].
  destruct (Z.ltb_spec 0 n); [|lia]. rewrite Hc; cbn [lift ret].
  rewrite orb_true_r. reflexivity.
Qed.

Lemma run_qq_inj a b t t' : Run (qq a) t = Run (qq b) t' -> a = b.
Proof.
  intros E.
  apply (f_equal (fun c => match c with Run cmd _ => cmd | _ => "" end)) in E.
  apply qq_inj. exact E.
Qed.

(** Telling the script's calls apart. *)
Ltac differ E :=
  first
    [ discriminate E
    | apply run_qq_inj in E;
      unfold create_cluster_args, login_args, recv_timeout_args, monitoring_args,
        put_network_args, modify_membership_args, capacity_clamp_args, Py.join in E;
      cbn in E; discriminate E
    | unfold update_secret_cmd, get_secret_cmd in E; cbn in E; discriminate E ].

Ltac not_initial_flips_call :=
  let E := fresh "E" in
  intros [E|(? & ? & E)]; differ E.

Lemma create_cluster_spares_network fuel config :
  floating_ips config = "" ->
  emits (fun c => ~ initial_flips_call c) (create_cluster fuel config).
Proof.
  intros Hf. unfold create_cluster. rewrite Hf. cbn [declared_flips String.eqb].
  unfold apply_initial_floating_ips.
  repeat emits_step; try not_initial_flips_call.
Qed.

(** C10: with an empty declared floating-IP list, applying the initial
    floating-IP configuration returns at once, for every netmask, history
    and loop bound, having made no call.  So a reconcile that takes the
    apply-initial path with nothing declared makes no call either, and a
    bootstrap with nothing declared never submits a network configuration
    nor polls the network status. *)
Theorem empty_floating_ips_noop fuel nm h :
  apply_initial_floating_ips fuel [] nm h = Ret tt h
  /\ (forall current_config,
        no_floating_ips_configured current_config ->
        update_floating_ips fuel current_config (declared_flips "") nm h = Ret tt h)
  /\ (forall config,
        floating_ips config = "" ->
        emits (fun c => ~ initial_flips_call c) (create_cluster fuel config)).
Proof.
  split; [reflexivity|]. split.
  - intros cfg H. rewrite update_floating_ips_initial by exact H. reflexivity.
  - intros config. apply create_cluster_spares_network.
Qed.

(** ** The two paths and their calls *)

Lemma bucket_add_extends fuel config : emits (fun _ => True) (bucket_add fuel config).
Proof. unfold bucket_add. emits_any. Qed.

Lemma capacity_increase_extends fuel config :
  emits (fun _ => True) (capacity_increase fuel config).
Proof. unfold capacity_increase. emits_any. Qed.

Lemma maybe_update_floating_ips_extends fuel cna fips nm qv :
  emits (fun _ => True) (maybe_update_floating_ips fuel cna fips nm qv).
Proof.
  unfold maybe_update_floating_ips. emits_any. apply update_floating_ips_extends.
Qed.

Lemma emits_wait_for_membership P fuel node_count swing_node_count :
  P (Run (qq "get_object_backed_nodes") (Some 300)) -> P (Sleep 10) ->
  emits P (wait_for_membership fuel node_count swing_node_count).
Proof.
  intros Hp Hs. induction fuel as [|fuel IH]; [apply emits_spin|].
  cbn [wait_for_membership]. repeat emits_step; auto.
Qed.

Lemma emits_update_cluster_membership P fuel n sn ips swing_ips secret_id :
  (forall nodes, P (Run (qq (modify_membership_args nodes)) (Some 300))) ->
  P (Run (qq "get_object_backed_nodes") (Some 300)) ->
  (forall value, P (Run (update_secret_cmd secret_id value) None)) ->
  P quorum_poll -> P (Sleep 10) ->
  emits P (update_cluster_membership fuel n sn ips swing_ips secret_id).
Proof.
  intros H1 H2 H3 H4 H5. unfold update_cluster_membership.
  repeat emits_step; auto. apply emits_wait_for_membership; auto.
Qed.

Lemma create_cluster_calls fuel config :
  emits (bootstrap_call config) (create_cluster fuel config).
Proof.
  unfold create_cluster, apply_initial_floating_ips.
  repeat emits_step; constructor.
Qed.

Lemma handle_existing_cluster_calls fuel inq inqs psp config cna qv :
  emits (reconcile_call config) (handle_existing_cluster fuel inq inqs psp config cna qv).
Proof.
  unfold handle_existing_cluster.
  apply emits_bind; [apply emits_run_command; constructor|intros _].
  apply emits_bind.
  { unfold node_add_remove.
    repeat emits_step;
      apply emits_update_cluster_membership; intros; constructor. }
  intros _. apply emits_bind.
  { unfold bucket_add. repeat emits_step; constructor. }
  intros _. apply emits_bind.
  { unfold capacity_increase. repeat emits_step; constructor. }
  intros _. unfold maybe_update_floating_ips, update_floating_ips, apply_initial_floating_ips.
  repeat emits_step; constructor.
Qed.

Lemma reconcile_never_creates config c :
  reconcile_call config c ->
  forall config' nodes, c <> Run (qq (create_cluster_args config' nodes)) (Some 300).
Proof.
  intros H config' nodes E. destruct H; differ E.
Qed.

Lemma bootstrap_never_reconciles config c :
  bootstrap_call config c ->
  c <> Run (qq "get_object_storage_uris") (Some 300)
  /\ (forall id, c <> Run (get_secret_cmd id) None)
  /\ (forall nodes, c <> Run (qq (modify_membership_args nodes)) (Some 300))
  /\ c <> get_network_config.
Proof.
  intros H. split; [|split; [|split]].
  - intros E. destruct H; differ E.
  - intros id' E. destruct H; differ E.
  - intros nodes' E. destruct H; differ E.
  - intros E. unfold get_network_config in E. destruct H; differ E.
Qed.

(** C3 (as amended): once the surveys have returned and the configuration
    has been built, [main] runs bootstrap when neither pool has a node in
    quorum and reconcile when some pool has one: the run is that of
    [create_cluster] in the first case, which never makes reconcile's
    queries or membership changes, and that of [handle_existing_cluster]
    in the second, which never issues a create-cluster command.  When the
    preparation or a survey raises, [main] stops with that error where the
    surveys stopped, before the choice. *)
Theorem bootstrap_or_reconcile fuel inq inqs config qv h :
  let choice := create_or_reconcile fuel inq inqs config qv in
  (inq = [] /\ inqs = [] ->
     choice h = create_cluster fuel config h
     /\ emits (fun c => c <> Run (qq "get_object_storage_uris") (Some 300)
                        /\ (forall id, c <> Run (get_secret_cmd id) None)
                        /\ (forall nodes, c <> Run (qq (modify_membership_args nodes)) (Some 300))
                        /\ c <> get_network_config) choice)
  /\ (inq <> [] \/ inqs <> [] ->
     choice h = handle_existing_cluster fuel inq inqs (Py.VStr (provision_swing_pool tpl))
                  config (clustering_node_ip_address tpl) qv h
     /\ emits (fun c => forall config' nodes,
                 c <> Run (qq (create_cluster_args config' nodes)) (Some 300)) choice)
  /\ (forall h0,
        survey_pools fuel h0 = Ret (qv, inq, inqs) h ->
        create_provisioning_config h = Ret config h ->
        main fuel h0 = (choice ;; signal_complete config ;; shutdown_instance config) h)
  /\ (forall h0 e h',
        survey_pools fuel h0 = Raise e h' -> main fuel h0 = Raise e h').
Proof.
  cbn zeta. split; [|split; [|split]].
  - intros [-> ->]. split; [reflexivity|].
    eapply emits_weaken; [apply bootstrap_never_reconciles|].
    apply create_cluster_calls.
  - intros H.
    assert (E : create_or_reconcile fuel inq inqs config qv =
                handle_existing_cluster fuel inq inqs (Py.VStr (provision_swing_pool tpl))
                  config (clustering_node_ip_address tpl) qv).
    { destruct inq; [destruct inqs|]; try reflexivity. destruct H; contradiction. }
    rewrite E. split; [reflexivity|].
    eapply emits_weaken; [apply reconcile_never_creates|].
    apply handle_existing_cluster_calls.
  - intros h0 Hs Hc. unfold main, bind at 1. rewrite Hs.
    unfold bind at 1. rewrite Hc. reflexivity.
  - intros h0 e h' Hs. unfold main, bind at 1. rewrite Hs. reflexivity.
Qed.

(** C1 (the code departs from the claim): with the swing pool disabled the
    script receives the string "false", which counts as true in the guard of
    the node-count change; with no swing node in quorum and a node count to
    change, reconcile stops right after logging in and never issues the
    membership replacement. *)
Theorem node_count_change_refused_without_swing fuel inq config cna qv h out err :
  Py.len inq <> node_count config ->
  env h (Run (qq (login_args config)) (Some 300)) = Completed out err ->
  handle_existing_cluster fuel inq [] (Py.VStr "false") config cna qv h =
  Raise (ProvisioningError NodeCountAndSwingState)
    (h ++ [(Run (qq (login_args config)) (Some 300), Completed out err)])%list.
Proof.
  intros Hne Hlogin. unfold handle_existing_cluster, qq_command, qq_command_within.
  unfold bind at 1. rewrite (run_command_completed _ _ _ _ _ Hlogin).
  unfold bind at 1, node_add_remove.
  destruct (Z.eqb_spec (Py.len inq) (node_count config)); [contradiction|].
  reflexivity.
Qed.

(** The guard does fire as intended when the swing pool is requested and no
    swing node is in quorum. *)
Lemma swing_activation_with_count_change_refused fuel inq config cna qv h out err :
  Py.len inq <> node_count config ->
  env h (Run (qq (login_args config)) (Some 300)) = Completed out err ->
  handle_existing_cluster fuel inq [] (Py.VStr "true") config cna qv h =
  Raise (ProvisioningError NodeCountAndSwingState)
    (h ++ [(Run (qq (login_args config)) (Some 300), Completed out err)])%list.
Proof.
  intros Hne Hlogin. unfold handle_existing_cluster, qq_command, qq_command_within.
  unfold bind at 1. rewrite (run_command_completed _ _ _ _ _ Hlogin).
  unfold bind at 1, node_add_remove.
  destruct (Z.eqb_spec (Py.len inq) (node_count config)); [contradiction|].
  reflexivity.
Qed.

(** With a proper boolean the same guard lets the change through. *)
Lemma node_count_change_allowed_with_bool fuel inq config h :
  Py.len inq <> node_count config ->
  node_add_remove fuel inq [] (Py.VBool false) config h =
  update_cluster_membership fuel (node_count config) 0
    (node_ips_and_fault_domains config) "" (cluster_node_count_secret_id config) h.
Proof.
  intros Hne. unfold node_add_remove.
  destruct (Z.eqb_spec (Py.len inq) (node_count config)); [contradiction|].
  reflexivity.
Qed.

(** C2 (the code departs from the claim): when the swing pool is not
    requested (the string "false") while a swing node is in quorum and the
    node count differs, the guard does not fire: reconcile goes on to replace
    the membership, swing addresses included. *)
Theorem swing_drain_with_count_change_not_refused fuel inq ip rest0 config cna qv h out err :
  Py.len inq <> node_count config ->
  env h (Run (qq (login_args config)) (Some 300)) = Completed out err ->
  swing_state_changes (Py.VStr "false") (ip :: rest0) = false
  /\ node_add_remove fuel inq (ip :: rest0) (Py.VStr "false") config =
     update_cluster_membership fuel (node_count config) (swing_node_count config)
       (node_ips_and_fault_domains config)
       (swing_node_ip_addresses_and_fault_domains config)
       (cluster_node_count_secret_id config)
  /\ exists rep rest,
       history_of (handle_existing_cluster fuel inq (ip :: rest0) (Py.VStr "false")
                     config cna qv h)
       = (h ++ (Run (qq (login_args config)) (Some 300), Completed out err)
            :: (Run (qq (modify_membership_args
                           (Py.slice_to (node_count config)
                              (Py.split (node_ips_and_fault_domains config))
                            ++ Py.split (swing_node_ip_addresses_and_fault_domains config))))
                    (Some 300), rep)
            :: rest)%list.
Proof.
  intros Hne Hlogin.
  assert (G : swing_state_changes (Py.VStr "false") (ip :: rest0) = false).
  { unfold swing_state_changes, Py.len. cbn [Py.truthy String.eqb Ascii.eqb Bool.eqb negb length].
    cbn [andb orb]. rewrite orb_false_r. apply Z.eqb_neq. lia. }
  assert (N : node_add_remove fuel inq (ip :: rest0) (Py.VStr "false") config =
     update_cluster_membership fuel (node_count config) (swing_node_count config)
       (node_ips_and_fault_domains config)
       (swing_node_ip_addresses_and_fault_domains config)
       (cluster_node_count_secret_id config)).
  { unfold node_add_remove. rewrite G.
    destruct (Z.eqb_spec (Py.len inq) (node_count config)); [contradiction|].
    reflexivity. }
  split; [exact G|]. split; [exact N|].
  unfold handle_existing_cluster, qq_command, qq_command_within.
  unfold bind at 1. rewrite (run_command_completed _ _ _ _ _ Hlogin).
  rewrite N. unfold update_cluster_membership, qq_command, qq_command_within.
  rewrite bind_assoc.
  match goal with
  | |- context [bind (run_command ?cmd ?t) ?k ?h1] =>
      destruct (run_command_then cmd t k h1) as (rep & rest & E)
  end.
  { intros a. apply emits_bind.
    - repeat emits_step; try exact I. apply emits_wait_for_membership; exact I.
    - intros _. apply emits_bind; [apply bucket_add_extends|intros _].
      apply emits_bind; [apply capacity_increase_extends|intros _].
      apply maybe_update_floating_ips_extends. }
  exists rep, rest. rewrite E, <- app_assoc. reflexivity.
Qed.

(** ** The survey *)

Lemma get_qfsd_version_run ip h :
  get_qfsd_version ip h =
  let r := env h (version_call ip) in
  let h' := (h ++ [(version_call ip, r)])%list in
  match r with
  | Completed out _ => Ret (first_revision_line (Py.split_sep "010" out)) h'
  | CalledProcessError rc _ _ =>
      Raise (ProvisioningError (CommandFailed rc (qq ("--host " ++ ip ++ " version")))) h'
  | TimeoutExpired => Raise SubprocessTimeout h'
  | _ => Raise OtherError h'
  end.
Proof.
  unfold get_qfsd_version, qq_command, qq_command_within, bind.
  rewrite run_command_run; cbn zeta. unfold version_call.
  destruct (env h (Run (qq ("--host " ++ ip ++ " version")) (Some 300))); reflexivity.
Qed.

(** Asking a node for its revision records exactly that one call and
    either returns a revision or raises. *)
Lemma get_qfsd_version_outcome ip h :
  let h' := (h ++ [(version_call ip, env h (version_call ip))])%list in
  (exists v, get_qfsd_version ip h = Ret v h')
  \/ (exists e, get_qfsd_version ip h = Raise e h').
Proof.
  rewrite get_qfsd_version_run; cbn zeta.
  destruct (env h (version_call ip)); eauto.
Qed.

Lemma survey_nodes_step qv ip rest s h :
  survey_nodes qv (ip :: rest) s h =
  match get_qfsd_version ip h with
  | Ret v h1 =>
      if negb (v =? qv)%string
      then Raise (ProvisioningError (WrongRevision ip v qv)) h1
      else
        let r := env h1 (state_call ip) in
        let h2 := (h1 ++ [(state_call ip, r)])%list in
        match r with
        | Completed out _ => survey_nodes qv rest (classify ip out s) h2
        | CalledProcessError _ _ _ => survey_nodes qv rest (mark_out_of_quorum ip s) h2
        | TimeoutExpired => Raise SubprocessTimeout h2
        | _ => Raise OtherError h2
        end
  | Raise e h1 => Raise e h1
  | Spin h1 => Spin h1
  end.
Proof.
  cbn [survey_nodes]. unfold bind at 1.
  destruct (get_qfsd_version ip h) as [v h1|e h1|h1]; try reflexivity.
  destruct (negb (v =? qv)%string); [reflexivity|].
  unfold bind, try_except, qq_command, qq_command_within.
  rewrite run_command_run; cbn zeta. unfold state_call.
  destruct (env h1 (Run (qq ("--host " ++ ip ++ " node_state_get")) (Some 300)));
    reflexivity.
Qed.

Lemma survey_nodes_app qv pre post s h :
  survey_nodes qv (pre ++ post) s h =
  match survey_nodes qv pre s h with
  | Ret s1 h1 => survey_nodes qv post s1 h1
  | Raise e h1 => Raise e h1
  | Spin h1 => Spin h1
  end.
Proof.
  revert s h. induction pre as [|ip pre IH]; intros s h; [reflexivity|].
  rewrite <- app_comm_cons, !survey_nodes_step.
  destruct (get_qfsd_version ip h) as [v h1|e h1|h1]; try reflexivity.
  destruct (negb (v =? qv)%string); [reflexivity|]. cbn zeta.
  destruct (env h1 (state_call ip)); try reflexivity; apply IH.
Qed.

Lemma survey_nodes_extends qv ips s : emits (fun _ => True) (survey_nodes qv ips s).
Proof.
  revert s. induction ips as [|ip ips IH]; intros s; [apply emits_ret|].
  cbn [survey_nodes]. unfold get_qfsd_version. repeat emits_step; try exact I; apply IH.
Qed.

Lemma survey_node_state_run qv addrs h :
  survey_node_state qv addrs h =
  match survey_nodes qv (Py.split addrs) empty_survey h with
  | Ret s h1 => Ret (in_quorum_nodes s, out_of_quorum_nodes s) h1
  | Raise e h1 => Raise e h1
  | Spin h1 => Spin h1
  end.
Proof. reflexivity. Qed.

(** C9: in a survey, once the nodes before [ip] have been filed, the
    revision of [ip] is asked first.  If the command fails, or the revision it
    yields is not the reference one, the whole survey raises there and then:
    the state of [ip] is never queried and no list is returned.  Only when the
    revision matches is the next call the state query for [ip]. *)
Theorem survey_checks_revision_first qv addrs pre ip post h s1 h1 :
  Py.split addrs = (pre ++ ip :: post)%list ->
  survey_nodes qv pre empty_survey h = Ret s1 h1 ->
  let h2 := (h1 ++ [(version_call ip, env h1 (version_call ip))])%list in
  ((exists v, get_qfsd_version ip h1 = Ret v h2)
   \/ (exists e, get_qfsd_version ip h1 = Raise e h2))
  /\ (forall v, get_qfsd_version ip h1 = Ret v h2 -> v <> qv ->
        survey_node_state qv addrs h
        = Raise (ProvisioningError (WrongRevision ip v qv)) h2)
  /\ (forall e, get_qfsd_version ip h1 = Raise e h2 ->
        survey_node_state qv addrs h = Raise e h2)
  /\ (get_qfsd_version ip h1 = Ret qv h2 ->
        exists rest,
          history_of (survey_node_state qv addrs h)
          = (h2 ++ (state_call ip, env h2 (state_call ip)) :: rest)%list).
Proof.
  intros Hsplit Hpre h2. split; [apply get_qfsd_version_outcome|].
  assert (E : survey_node_state qv addrs h =
              match survey_nodes qv (ip :: post) s1 h1 with
              | Ret s h' => Ret (in_quorum_nodes s, out_of_quorum_nodes s) h'
              | Raise e h' => Raise e h'
              | Spin h' => Spin h'
              end).
  { rewrite survey_node_state_run, Hsplit, survey_nodes_app, Hpre. reflexivity. }
  rewrite E, survey_nodes_step. split; [|split].
  - intros v Hv Hne. rewrite Hv.
    destruct (String.eqb_spec v qv); [contradiction|]. reflexivity.
  - intros e He. rewrite He. reflexivity.
  - intros Hv. rewrite Hv, String.eqb_refl. cbn [negb]. cbn zeta.
    assert (X : forall s' r, exists rest,
              history_of
                (match survey_nodes qv post s' (h2 ++ [(state_call ip, r)])%list with
                 | Ret s h' => Ret (in_quorum_nodes s, out_of_quorum_nodes s) h'
                 | Raise e h' => Raise e h'
                 | Spin h' => Spin h'
                 end) = (h2 ++ (state_call ip, r) :: rest)%list).
    { intros s' r.
      destruct (survey_nodes_extends qv post s' (h2 ++ [(state_call ip, r)])%list)
        as (evs & Ev & _).
      exists evs. rewrite <- app_assoc in Ev. cbn [app] in Ev.
      destruct (survey_nodes qv post s' _); exact Ev. }
    destruct (env h2 (state_call ip)) eqn:R;
      try (exists []; reflexivity); apply X.
Qed.

Ltac perm_snoc :=
  unfold surveyed; cbn [in_quorum_nodes unconfigured_nodes removed_nodes out_of_quorum_nodes];
  repeat rewrite <- app_assoc; cbn [app];
  repeat apply Permutation_app_head;
  first [ reflexivity | rewrite ?app_assoc; apply Permutation_cons_append ].

Lemma in_snoc {A} (x y : A) l : In x (l ++ [y])%list -> In x l \/ x = y.
Proof. intros H. apply in_app_or in H. destruct H as [H|[H|[]]]; auto. Qed.

Lemma classify_files ip out err s : files ip (Completed out err) s (classify ip out s).
Proof.
  unfold classify, files.
  destruct (Py.contains "ACTIVE" out) eqn:A;
    [|destruct (Py.contains "UNCONFIGURED" out) eqn:U;
      [|destruct (Py.contains "REMOVED" out) eqn:R]];
    cbn [in_quorum_nodes unconfigured_nodes removed_nodes out_of_quorum_nodes].
  - split; [perm_snoc|]. split; [|split]; auto.
    intros x H. apply in_snoc in H. destruct H; auto.
    right. split; [assumption|]. exists out, err. auto.
  - split; [perm_snoc|]. split; [|split]; auto.
    intros x H. rewrite <- app_assoc in H. apply in_app_or in H.
    destruct H as [H|[H|H]].
    + left. apply in_or_app. auto.
    + right. split; [auto|]. exists out, err. auto.
    + left. apply in_or_app. auto.
  - split; [perm_snoc|]. split; [|split]; auto.
    intros x H. rewrite app_assoc in H. apply in_snoc in H. destruct H; auto.
    right. split; [assumption|]. exists out, err. auto.
  - split; [perm_snoc|]. split; [|split]; auto.
    intros x H. apply in_snoc in H. destruct H; auto.
    right. split; [assumption|]. right. exists out, err. auto.
Qed.

Lemma mark_out_of_quorum_files ip rc out err s :
  files ip (CalledProcessError rc out err) s (mark_out_of_quorum ip s).
Proof.
  unfold mark_out_of_quorum, files.
  cbn [in_quorum_nodes unconfigured_nodes removed_nodes out_of_quorum_nodes].
  split; [perm_snoc|]. split; [|split]; auto.
  intros x H. apply in_snoc in H. destruct H; auto.
  right. split; [assumption|]. left. eauto.
Qed.

Lemma state_reply_later ip evs evs' P :
  state_reply ip evs' P -> state_reply ip (evs ++ evs')%list P.
Proof. intros (r & Hin & HP). exists r. split; [apply in_or_app; auto|exact HP]. Qed.

(** What a survey that returns has filed, and on which replies. *)
Lemma survey_nodes_files qv ips s h s' h' :
  survey_nodes qv ips s h = Ret s' h' ->
  exists evs,
    h' = (h ++ evs)%list
    /\ Permutation (surveyed s') (surveyed s ++ ips)
    /\ (forall x, In x (in_quorum_nodes s') ->
          In x (in_quorum_nodes s) \/ state_reply x evs in_quorum_reply)
    /\ (forall x, In x (unconfigured_nodes s' ++ removed_nodes s') ->
          In x (unconfigured_nodes s ++ removed_nodes s)
          \/ state_reply x evs set_aside_reply)
    /\ (forall x, In x (out_of_quorum_nodes s') ->
          In x (out_of_quorum_nodes s) \/ state_reply x evs out_of_quorum_reply).
Proof.
  revert s h. induction ips as [|ip ips IH]; intros s h.
  - intros [= <- <-]. exists []. rewrite !app_nil_r. repeat split; auto.
  - rewrite survey_nodes_step.
    destruct (get_qfsd_version_outcome ip h) as [[v Hv]|[e He]];
      [rewrite Hv|rewrite He; discriminate].
    destruct (negb (v =? qv)%string); [discriminate|]. cbn zeta.
    set (h1 := (h ++ [(version_call ip, env h (version_call ip))])%list).
    assert (Step : forall r s1,
              env h1 (state_call ip) = r -> files ip r s s1 ->
              survey_nodes qv ips s1 (h1 ++ [(state_call ip, r)])%list = Ret s' h' ->
              exists evs,
                h' = (h ++ evs)%list
                /\ Permutation (surveyed s') (surveyed s ++ ip :: ips)
                /\ (forall x, In x (in_quorum_nodes s') ->
                      In x (in_quorum_nodes s) \/ state_reply x evs in_quorum_reply)
                /\ (forall x, In x (unconfigured_nodes s' ++ removed_nodes s') ->
                      In x (unconfigured_nodes s ++ removed_nodes s)
                      \/ state_reply x evs set_aside_reply)
                /\ (forall x, In x (out_of_quorum_nodes s') ->
                      In x (out_of_quorum_nodes s) \/ state_reply x evs out_of_quorum_reply)).
    { intros r s1 Hr (Fp & Fi & Fa & Fo) Hrest.
      destruct (IH _ _ Hrest) as (evs & -> & Pp & Pi & Pa & Po).
      exists ([(version_call ip, env h (version_call ip)); (state_call ip, r)] ++ evs)%list.
      assert (Here : forall P, P r ->
                state_reply ip
                  ([(version_call ip, env h (version_call ip)); (state_call ip, r)] ++ evs)%list
                  P).
      { intros P HP. exists r. split; [right; left; reflexivity|exact HP]. }
      split; [unfold h1; rewrite <- !app_assoc; reflexivity|].
      split.
      { eapply Permutation_trans; [exact Pp|].
        change (ip :: ips) with ([ip] ++ ips)%list. rewrite app_assoc.
        apply Permutation_app_tail. exact Fp. }
      split; [|split]; intros x Hx.
      - destruct (Pi x Hx) as [H1|H1]; [|right; apply state_reply_later; exact H1].
        destruct (Fi x H1) as [H2|[-> H2]]; [left; exact H2|right; apply Here; exact H2].
      - destruct (Pa x Hx) as [H1|H1]; [|right; apply state_reply_later; exact H1].
        destruct (Fa x H1) as [H2|[-> H2]]; [left; exact H2|right; apply Here; exact H2].
      - destruct (Po x Hx) as [H1|H1]; [|right; apply state_reply_later; exact H1].
        destruct (Fo x H1) as [H2|[-> H2]]; [left; exact H2|right; apply Here; exact H2]. }
    destruct (env h1 (state_call ip)) eqn:R; try discriminate.
    + apply Step; [reflexivity|apply classify_files].
    + apply Step; [reflexivity|apply mark_out_of_quorum_files].
Qed.

Lemma NoDup_app_disjoint {A} (l l' : list A) x :
  NoDup (l ++ l') -> In x l -> In x l' -> False.
Proof.
  induction l as [|a l IH]; cbn; [contradiction|].
  intros N [->|Hin] Hin'.
  - inversion N as [|? ? Hn _]; subst. apply Hn. apply in_or_app. auto.
  - inversion N; subst. auto.
Qed.

(** C4 (as amended): a survey that returns has filed every probed address
    exactly once, in one of three groups: in quorum, out of quorum, or set
    aside (unconfigured or removed).  It returns only the first two, which are
    disjoint when the addresses are distinct; the addresses set aside, whose
    state query answered UNCONFIGURED or REMOVED without ACTIVE, are in
    neither returned list. *)
Theorem survey_partition qv addrs h inq ooq h' :
  survey_node_state qv addrs h = Ret (inq, ooq) h' ->
  exists aside evs,
    h' = (h ++ evs)%list
    /\ Permutation (inq ++ aside ++ ooq) (Py.split addrs)
    /\ (forall ip, In ip inq -> state_reply ip evs in_quorum_reply)
    /\ (forall ip, In ip aside -> state_reply ip evs set_aside_reply)
    /\ (forall ip, In ip ooq -> state_reply ip evs out_of_quorum_reply)
    /\ (NoDup (Py.split addrs) ->
        forall ip, In ip (Py.split addrs) ->
          (In ip inq /\ ~ In ip ooq /\ ~ In ip aside)
          \/ (In ip ooq /\ ~ In ip inq /\ ~ In ip aside)
          \/ (In ip aside /\ ~ In ip inq /\ ~ In ip ooq)).
Proof.
  rewrite survey_node_state_run.
  destruct (survey_nodes qv (Py.split addrs) empty_survey h) as [s h1|e h1|h1] eqn:E;
    try discriminate.
  intros [= <- <- <-].
  destruct (survey_nodes_files _ _ _ _ _ _ E) as (evs & -> & Pp & Pi & Pa & Po).
  cbn [empty_survey in_quorum_nodes unconfigured_nodes removed_nodes
       out_of_quorum_nodes surveyed app] in *.
  exists (unconfigured_nodes s ++ removed_nodes s)%list, evs.
  split; [reflexivity|]. split; [exact Pp|].
  split; [intros ip H; destruct (Pi ip H) as [[]|]; assumption|].
  split; [intros ip H; destruct (Pa ip H) as [[]|]; assumption|].
  split; [intros ip H; destruct (Po ip H) as [[]|]; assumption|].
  intros N ip Hin.
  assert (N' : NoDup (surveyed s)).
  { eapply Permutation_NoDup; [apply Permutation_sym; exact Pp|exact N]. }
  assert (Hin' : In ip (surveyed s)).
  { eapply Permutation_in; [apply Permutation_sym; exact Pp|exact Hin]. }
  unfold surveyed in *.
  set (a := (unconfigured_nodes s ++ removed_nodes s)%list) in *.
  assert (D1 : forall x, In x (in_quorum_nodes s) -> In x (a ++ out_of_quorum_nodes s) -> False).
  { intros x. apply NoDup_app_disjoint. exact N'. }
  assert (D2 : forall x, In x a -> In x (out_of_quorum_nodes s) -> False).
  { intros x. apply NoDup_app_disjoint. eapply NoDup_app_remove_l. exact N'. }
  apply in_app_or in Hin'. destruct Hin' as [H|H].
  - left. split; [exact H|]. split; intros H'; apply (D1 ip H); apply in_or_app; auto.
  - apply in_app_or in H. destruct H as [H|H].
    + right; right. split; [exact H|]. split; intros H'.
      * apply (D1 ip H'). apply in_or_app; auto.
      * apply (D2 ip H H').
    + right; left. split; [exact H|]. split; intros H'.
      * apply (D1 ip H'). apply in_or_app; auto.
      * apply (D2 ip H' H).
Qed.

(** ** Capacity convergence *)

Lemma issued_iff {A} c h evs (r : Res A) :
  history_of r = (h ++ evs)%list -> (issued c h r <-> In c (map fst evs)).
Proof. intros E. unfold issued. rewrite (events_since_app _ _ _ E). reflexivity. Qed.

Lemma update_secret_run secret_id value h :
  let c := Run (update_secret_cmd secret_id value) None in
  history_of (update_secret secret_id value h) = (h ++ [(c, env h c)])%list
  /\ forall out err, env h c = Completed out err ->
       update_secret secret_id value h = Ret tt (h ++ [(c, Completed out err)])%list.
Proof.
  cbn zeta. unfold update_secret, bind. rewrite run_command_run; cbn zeta.
  destruct (env h (Run (update_secret_cmd secret_id value) None)) eqn:R;
    (split; [reflexivity|]); intros out err [=]; subst; reflexivity.
Qed.

Lemma capacity_increase_run fuel config h :
  capacity_increase fuel config h =
  let read := Run (get_secret_cmd (cluster_soft_capacity_limit_secret_id config)) None in
  let h1 := (h ++ [(read, env h read)])%list in
  match env h read with
  | Completed out _ =>
      match secret_content out with
      | inl e => Raise e h1
      | inr current_capacity_in_tb =>
          match Py.int current_capacity_in_tb, Py.int (soft_capacity_limit config) with
          | Some current, Some declared =>
              if current <? declared
              then (qq_command (capacity_clamp_args config) ;;
                    wait_for_new_quorum fuel ;;
                    update_secret (cluster_soft_capacity_limit_secret_id config)
                      (soft_capacity_limit config)) h1
              else Ret tt h1
          | _, _ => Raise ValueError h1
          end
      end
  | CalledProcessError rc _ _ =>
      Raise (ProvisioningError
               (CommandFailed rc
                  (get_secret_cmd (cluster_soft_capacity_limit_secret_id config)))) h1
  | TimeoutExpired => Raise SubprocessTimeout h1
  | _ => Raise OtherError h1
  end.
Proof.
  unfold capacity_increase. unfold bind at 1. rewrite run_command_run; cbn zeta.
  destruct (env h _) eqn:R; try reflexivity.
  unfold bind at 1. cbn [stdout].
  destruct (secret_content stdout0) as [e|cur]; [reflexivity|]. cbn [lift ret].
  destruct (Py.int cur) as [c|]; [|reflexivity].
  destruct (Py.int (soft_capacity_limit config)) as [d|]; [|reflexivity].
  destruct (c <? d); reflexivity.
Qed.

(** The three steps of a capacity increase, started at [h1]. *)
Lemma raise_capacity_run fuel config h1 :
  let clamp := Run (qq (capacity_clamp_args config)) (Some 300) in
  let h2 := (h1 ++ [(clamp, env h1 clamp)])%list in
  (qq_command (capacity_clamp_args config) ;;
   wait_for_new_quorum fuel ;;
   update_secret (cluster_soft_capacity_limit_secret_id config)
     (soft_capacity_limit config)) h1
  = match env h1 clamp with
    | Completed _ _ =>
        match wait_for_new_quorum fuel h2 with
        | Ret _ h3 =>
            update_secret (cluster_soft_capacity_limit_secret_id config)
              (soft_capacity_limit config) h3
        | Raise e h3 => Raise e h3
        | Spin h3 => Spin h3
        end
    | CalledProcessError rc _ _ =>
        Raise (ProvisioningError (CommandFailed rc (qq (capacity_clamp_args config)))) h2
    | TimeoutExpired => Raise SubprocessTimeout h2
    | _ => Raise OtherError h2
    end.
Proof.
  cbn zeta. unfold qq_command, qq_command_within. unfold bind at 1.
  rewrite run_command_run; cbn zeta.
  destruct (env h1 _) eqn:R; reflexivity.
Qed.

Lemma raise_capacity_events fuel config h1 :
  exists evs,
    history_of
      ((qq_command (capacity_clamp_args config) ;;
        wait_for_new_quorum fuel ;;
        update_secret (cluster_soft_capacity_limit_secret_id config)
          (soft_capacity_limit config)) h1)
    = (h1 ++ (clamp_capacity config, env h1 (clamp_capacity config)) :: evs)%list
    /\ (In (record_capacity config) (map fst evs) ->
        exists out err polls o e rep,
          env h1 (clamp_capacity config) = Completed out err
          /\ evs = (polls ++ [(quorum_poll, Completed o e); (record_capacity config, rep)])%list
          /\ Py.contains "ACTIVE" o = true
          /\ Forall (poll_event quorum_poll) polls).
Proof.
  rewrite raise_capacity_run; cbn zeta. fold (clamp_capacity config).
  destruct (env h1 (clamp_capacity config)) as [out err| | | | | | |] eqn:R;
    try (exists []; split; [reflexivity|intros []]).
  set (h2 := (h1 ++ [(clamp_capacity config, Completed out err)])%list).
  destruct (wait_for_new_quorum fuel h2) as [[] h3|e h3|h3] eqn:W.
  - rewrite wait_for_new_quorum_poll in W. apply poll_returns in W.
    destruct (settles_events _ _ _ _ _ W) as (polls & o & e & -> & F & C).
    destruct (update_secret_run (cluster_soft_capacity_limit_secret_id config)
                (soft_capacity_limit config)
                (h2 ++ polls ++ [(Run (qq "node_state_get") (Some 60), Completed o e)])%list)
      as [Hh _].
    cbn zeta in Hh. rewrite Hh.
    eexists. split.
    + unfold h2. rewrite <- !app_assoc. cbn [app]. reflexivity.
    + intros _. exists out, err, polls, o, e. eexists.
      split; [reflexivity|]. split; [reflexivity|split; [exact C|exact F]].
  - pose proof (poll_events (qq "node_state_get") (Some 60) "ACTIVE" fuel h2) as (evs & E & F).
    rewrite <- wait_for_new_quorum_poll, W in E. cbn [history_of] in E. subst h3.
    exists evs. split; [unfold h2; rewrite <- app_assoc; reflexivity|].
    intros Hin. exfalso. apply in_map_iff in Hin. destruct Hin as (ev & E1 & E2).
    rewrite Forall_forall in F. destruct (F ev E2) as [E3|E3];
      rewrite E1 in E3; unfold record_capacity in E3; differ E3.
  - pose proof (poll_events (qq "node_state_get") (Some 60) "ACTIVE" fuel h2) as (evs & E & F).
    rewrite <- wait_for_new_quorum_poll, W in E. cbn [history_of] in E. subst h3.
    exists evs. split; [unfold h2; rewrite <- app_assoc; reflexivity|].
    intros Hin. exfalso. apply in_map_iff in Hin. destruct Hin as (ev & E1 & E2).
    rewrite Forall_forall in F. destruct (F ev E2) as [E3|E3];
      rewrite E1 in E3; unfold record_capacity in E3; differ E3.
Qed.

(** With enough iterations allowed, a capacity increase whose commands
    succeed and whose quorum forms runs to its end. *)
Lemma raise_capacity_completes config h1 h3 o1 e1 o3 e3 :
  env h1 (clamp_capacity config) = Completed o1 e1 ->
  settles quorum_poll "ACTIVE"
    (h1 ++ [(clamp_capacity config, Completed o1 e1)])%list h3 ->
  env h3 (record_capacity config) = Completed o3 e3 ->
  exists n, forall fuel, (n <= fuel)%nat ->
    (qq_command (capacity_clamp_args config) ;;
     wait_for_new_quorum fuel ;;
     update_secret (cluster_soft_capacity_limit_secret_id config)
       (soft_capacity_limit config)) h1
    = Ret tt (h3 ++ [(record_capacity config, Completed o3 e3)])%list.
Proof.
  intros Hc Hs Hr. destruct (poll_settles _ _ _ _ _ Hs) as [n Hn].
  exists n. intros fuel L. rewrite raise_capacity_run; cbn zeta.
  fold (clamp_capacity config). rewrite Hc.
  rewrite wait_for_new_quorum_poll, (Hn fuel L).
  apply update_secret_run. exact Hr.
Qed.

(** C6: capacity convergence issues the capacity-clamp-set command exactly
    when the declared soft capacity limit, read as an integer, strictly
    exceeds the limit read from the secret store.  When it is equal or lower
    the run ends after that read: no command touches the cluster or the
    secret store.  Whenever the secret store is updated, the clamp command has
    completed and a quorum poll has shown ACTIVE before it; and with commands
    that succeed and a quorum that forms, a higher declared limit is carried
    through to the update. *)
Theorem capacity_convergence fuel config h :
  let r := capacity_increase fuel config h in
  let declared := Py.int (soft_capacity_limit config) in
  (issued (clamp_capacity config) h r
   <-> exists c d, recorded_capacity config h c /\ declared = Some d /\ c < d)
  /\ (forall c d, recorded_capacity config h c -> declared = Some d -> d <= c ->
        r = Ret tt (h ++ [(read_capacity config, env h (read_capacity config))])%list)
  /\ (issued (record_capacity config) h r ->
        exists rd out err polls o e rep,
          events_since h r
          = ((read_capacity config, rd) :: (clamp_capacity config, Completed out err)
             :: polls ++ [(quorum_poll, Completed o e); (record_capacity config, rep)])%list
          /\ Py.contains "ACTIVE" o = true
          /\ Forall (poll_event quorum_poll) polls)
  /\ (forall c d h1 h3 o1 e1 o3 e3,
        recorded_capacity config h c -> declared = Some d -> c < d ->
        h1 = (h ++ [(read_capacity config, env h (read_capacity config))])%list ->
        env h1 (clamp_capacity config) = Completed o1 e1 ->
        settles quorum_poll "ACTIVE"
          (h1 ++ [(clamp_capacity config, Completed o1 e1)])%list h3 ->
        env h3 (record_capacity config) = Completed o3 e3 ->
        exists n, forall fuel', (n <= fuel')%nat ->
          capacity_increase fuel' config h
          = Ret tt (h3 ++ [(record_capacity config, Completed o3 e3)])%list).
Proof.
  cbn zeta.
  assert (Quiet : forall r : Res unit,
            history_of r = (h ++ [(read_capacity config, env h (read_capacity config))])%list ->
            ~ issued (clamp_capacity config) h r /\ ~ issued (record_capacity config) h r).
  { intros r E. split; rewrite (issued_iff _ _ _ _ E); cbn;
      intros [E1|[]]; unfold read_capacity, clamp_capacity, record_capacity in E1; differ E1. }
  split; [|split; [|split]].
  - (* the clamp command is issued exactly on a strict increase *)
    rewrite capacity_increase_run; cbn zeta. fold (read_capacity config).
    unfold recorded_capacity.
    destruct (env h (read_capacity config)) as [out err| | | | | | |] eqn:R;
      try (split; [intros H; exfalso; revert H; apply Quiet; reflexivity
                  |intros (c & d & (o & e & t & [=] & _) & _)]).
    destruct (secret_content out) as [ex|text] eqn:S.
    { split; [intros H; exfalso; revert H; apply Quiet; reflexivity|].
      intros (c & d & (o & e & t & [= <- <-] & S' & _) & _). congruence. }
    destruct (Py.int text) as [c|] eqn:Ic.
    2:{ split; [intros H; exfalso; revert H; apply Quiet; reflexivity|].
        intros (c & d & (o & e & t & [= <- <-] & S' & I') & _). congruence. }
    destruct (Py.int (soft_capacity_limit config)) as [d|] eqn:Id.
    2:{ split; [intros H; exfalso; revert H; apply Quiet; reflexivity|].
        intros (c' & d & _ & [=] & _). }
    destruct (Z.ltb_spec c d) as [Hlt|Hge].
    + split; [intros _; exists c, d; split; [exists out, err, text; auto|auto]|].
      intros _.
      destruct (raise_capacity_events fuel config
                  (h ++ [(read_capacity config, Completed out err)])%list)
        as (evs & E & _).
      rewrite <- app_assoc in E. rewrite (issued_iff _ _ _ _ E). cbn. auto.
    + split; [intros H; exfalso; revert H; apply Quiet; reflexivity|].
      intros (c' & d' & (o & e & t & [= <- <-] & S' & I') & [= <-] & Hlt).
      assert (c' = c) by congruence. lia.
  - (* equal or lower: nothing beyond the read *)
    intros c d (out & err & text & R & S & Ic) Id Hle.
    rewrite capacity_increase_run; cbn zeta. fold (read_capacity config).
    rewrite R, S, Ic, Id. destruct (Z.ltb_spec c d); [lia|reflexivity].
  - (* the secret store is updated only after the clamp and an ACTIVE poll *)
    rewrite capacity_increase_run; cbn zeta. fold (read_capacity config).
    destruct (env h (read_capacity config)) as [out err| | | | | | |] eqn:R;
      try (intros H; exfalso; revert H; apply Quiet; reflexivity).
    destruct (secret_content out) as [ex|text];
      [intros H; exfalso; revert H; apply Quiet; reflexivity|].
    destruct (Py.int text) as [c|];
      [|intros H; exfalso; revert H; apply Quiet; reflexivity].
    destruct (Py.int (soft_capacity_limit config)) as [d|];
      [|intros H; exfalso; revert H; apply Quiet; reflexivity].
    destruct (c <? d); [|intros H; exfalso; revert H; apply Quiet; reflexivity].
    destruct (raise_capacity_events fuel config
                (h ++ [(read_capacity config, Completed out err)])%list)
      as (evs & E & Hev).
    rewrite <- app_assoc in E. cbn [app] in E.
    rewrite (issued_iff _ _ _ _ E), (events_since_app _ _ _ E). cbn [map fst].
    intros [E1|[E1|Hin]].
    + unfold read_capacity, record_capacity in E1. differ E1.
    + unfold clamp_capacity, record_capacity in E1. differ E1.
    + destruct (Hev Hin) as (o1 & e1 & polls & o & e & rep & Hc & -> & Ha & F).
      exists (Completed out err), o1, e1, polls, o, e, rep.
      rewrite Hc. auto.
  - (* progress *)
    intros c d h1 h3 o1 e1 o3 e3 (out & err & text & R & S & Ic) Id Hlt -> Hc Hs Hr.
    destruct (raise_capacity_completes config _ _ _ _ _ _ Hc Hs Hr) as [n Hn].
    exists n. intros fuel' L.
    rewrite capacity_increase_run; cbn zeta. fold (read_capacity config).
    rewrite R in *. rewrite S, Ic, Id. destruct (Z.ltb_spec c d); [|lia].
    apply Hn, L.
Qed.

(** ** Floating-IP convergence *)

Lemma maybe_update_floating_ips_loaded fuel cna fips nm qv n h out err current_config :
  qv <> "" -> revision_prefix qv = Some n -> 751 <= n ->
  env h get_network_config = Completed out err ->
  env (h ++ [(get_network_config, Completed out err)])%list
    (ReadJson "network_config.json") = Loaded current_config ->
  maybe_update_floating_ips fuel cna fips nm qv h =
  update_floating_ips fuel current_config (declared_flips fips) nm
    (h ++ [(get_network_config, Completed out err);
           (ReadJson "network_config.json", Loaded current_config)])%list.
Proof.
  intros H1 H2 H3 Hget Hread.
  rewrite (maybe_update_floating_ips_attempt _ _ _ _ _ _ _ H1 H2 H3).
  unfold qq_command, qq_command_within. unfold bind at 1.
  unfold get_network_config in *. rewrite (run_command_completed _ _ _ _ _ Hget).
  unfold bind at 1, read_json, bind at 1, call. rewrite Hread.
  rewrite <- app_assoc. reflexivity.
Qed.

(** A document whose floating-IP ranges can be read has the expected
    nesting. *)
Lemma current_floating_ip_ranges_path current_config ranges :
  current_floating_ip_ranges current_config = inr ranges ->
  exists top others net addresses host,
    current_config = JObj top
    /\ Json.lookup "frontend_networks" top = Some (JArr (JObj net :: others))
    /\ Json.lookup "addresses" net = Some (JObj addresses)
    /\ Json.lookup "host_addresses" addresses = Some (JObj host)
    /\ Json.lookup "floating_ip_ranges" host = Some ranges.
Proof.
  unfold current_floating_ip_ranges.
  destruct current_config as [| | | | |top]; try discriminate. cbn [Json.item].
  destruct (Json.lookup "frontend_networks" top) as [nets|] eqn:E1; [|discriminate].
  destruct nets as [| | |str|[|net others]|]; try discriminate.
  { destruct str; discriminate. }
  cbn [Json.first].
  destruct net as [| | | | |net]; try discriminate. cbn [Json.item].
  destruct (Json.lookup "addresses" net) as [addresses|] eqn:E2; [|discriminate].
  destruct addresses as [| | | | |addresses]; try discriminate. cbn [Json.item].
  destruct (Json.lookup "host_addresses" addresses) as [host|] eqn:E3; [|discriminate].
  destruct host as [| | | | |host]; try discriminate. cbn [Json.item].
  destruct (Json.lookup "floating_ip_ranges" host) as [r|] eqn:E4; [|discriminate].
  intros [= <-]. exists top, others, net, addresses, host. auto.
Qed.

Lemma len_pos {A} (x : A) l : 0 < Py.len (x :: l).
Proof. unfold Py.len. cbn [length]. lia. Qed.

(** With readable ranges, the two counts [update_floating_ips] computes. *)
Lemma update_floating_ips_counted fuel current_config ranges k new_flips nm h :
  current_floating_ip_ranges current_config = inr ranges ->
  Json.len ranges = inr k ->
  update_floating_ips fuel current_config new_flips nm h =
  if k =? 0 then apply_initial_floating_ips fuel new_flips nm h
  else if negb (Json.eq_strings ranges new_flips)
       then (updated <-
               (match new_flips with
                | [] => lift (Json.set_item current_config "frontend_networks" (JArr []))
                | _ :: _ => lift (assign_floating_ip_ranges current_config
                                    (Json.strings new_flips))
                end) ;;
             write_json "network_config.json" updated ;;
             qq_command "network_v3_put_config --file network_config.json" ;;
             wait_for_new_quorum fuel) h
       else Ret tt h.
Proof.
  intros Hr Hk.
  destruct (current_floating_ip_ranges_path _ _ Hr)
    as (top & others & net & addresses & host & -> & E1 & E2 & E3 & E4).
  unfold update_floating_ips, bind.
  cbn [Json.get]. rewrite E1. cbn [lift ret Json.len].
  pose proof (len_pos (JObj net) others) as Hpos.
  destruct (Z.ltb_spec 0 (Py.len (JObj net :: others))); [|lia].
  destruct (Z.eqb_spec (Py.len (JObj net :: others)) 0); [lia|].
  unfold count_floating_ip_ranges. cbn [Json.item]. rewrite E1. cbn [Json.first Json.get].
  rewrite E2. cbn [Json.get]. rewrite E3. cbn [Json.get]. rewrite E4, Hk.
  cbn [lift ret orb]. destruct (k =? 0); [reflexivity|].
  rewrite Hr. cbn [lift ret].
  destruct (negb (Json.eq_strings ranges new_flips)); reflexivity.
Qed.

Lemma same_strings_length items l :
  Json.same_strings items l = true -> length items = length l.
Proof.
  revert l. induction items as [|j items IH]; intros [|t l]; cbn; try discriminate; auto.
  - destruct j; discriminate.
  - destruct j; try discriminate. intros H. apply andb_prop in H. f_equal. apply IH, H.
Qed.

(** Ranges are compared as ordered lists of strings. *)
Lemma eq_strings_literal l l' : Json.eq_strings (Json.strings l) l' = true <-> l = l'.
Proof.
  unfold Json.eq_strings, Json.strings. revert l'.
  induction l as [|s l IH]; intros [|t l']; cbn; split; try discriminate; auto.
  - intros H. apply andb_prop in H. destruct H as [H1 H2].
    apply String.eqb_eq in H1. apply IH in H2. congruence.
  - intros [= -> ->]. rewrite String.eqb_refl. apply IH. reflexivity.
Qed.

(** The apply-initial path never rewrites the stored configuration: it
    neither dumps a document nor submits one with [network_v3_put_config]. *)
Lemma apply_initial_floating_ips_no_replace fuel flips nm :
  emits (fun c => c <> put_network_config /\ forall path doc, c <> WriteJson path doc)
    (apply_initial_floating_ips fuel flips nm).
Proof.
  unfold apply_initial_floating_ips, put_network_config.
  repeat emits_step; (split; [intros E; differ E|intros path doc E; discriminate E]).
Qed.

(** Writing a configuration back and submitting it, call by call. *)
Lemma resubmit_run fuel doc h :
  resubmits doc h
    ((write_json "network_config.json" doc ;;
      qq_command "network_v3_put_config --file network_config.json" ;;
      wait_for_new_quorum fuel) h).
Proof.
  unfold resubmits. cbn zeta.
  set (h1 := (h ++ [(write_config doc, env h (write_config doc))])%list).
  assert (Run_ :
    (write_json "network_config.json" doc ;;
     qq_command "network_v3_put_config --file network_config.json" ;;
     wait_for_new_quorum fuel) h
    = match env h (write_config doc) with
      | Done =>
          match env h1 put_network_config with
          | Completed o e =>
              poll fuel (probe (qq "node_state_get") (Some 60) "ACTIVE")
                (h1 ++ [(put_network_config, Completed o e)])%list
          | CalledProcessError rc _ _ =>
              Raise (ProvisioningError
                       (CommandFailed rc
                          (qq "network_v3_put_config --file network_config.json")))
                (h1 ++ [(put_network_config, env h1 put_network_config)])%list
          | TimeoutExpired =>
              Raise SubprocessTimeout
                (h1 ++ [(put_network_config, env h1 put_network_config)])%list
          | _ => Raise OtherError
                   (h1 ++ [(put_network_config, env h1 put_network_config)])%list
          end
      | _ => Raise OtherError h1
      end).
  { unfold write_json, perform, write_config in *. unfold bind at 1. unfold bind at 1.
    unfold call at 1. fold h1.
    destruct (env h (WriteJson "network_config.json" doc)) eqn:W; try reflexivity.
    cbn [ret]. unfold qq_command, qq_command_within, bind. rewrite run_command_run; cbn zeta.
    unfold put_network_config.
    destruct (env h1 (Run _ (Some 300))) eqn:R; try reflexivity.
    apply wait_for_new_quorum_poll. }
  rewrite Run_. clear Run_. split; [|split; [|split]].
  - destruct (env h (write_config doc)); try (exists []; rewrite app_nil_r; reflexivity).
    destruct (env h1 put_network_config) as [o e| | | | | | |];
      try (eexists; reflexivity).
    destruct (poll_events (qq "node_state_get") (Some 60) "ACTIVE" fuel
                (h1 ++ [(put_network_config, Completed o e)])%list) as (evs & E & _).
    rewrite E. exists ((put_network_config, Completed o e) :: evs).
    rewrite <- app_assoc. reflexivity.
  - intros Hw. destruct (env h (write_config doc)); try reflexivity. contradiction.
  - intros ->.
    destruct (env h1 put_network_config) as [o e| | | | | | |];
      try (exists []; reflexivity).
    destruct (poll_events (qq "node_state_get") (Some 60) "ACTIVE" fuel
                (h1 ++ [(put_network_config, Completed o e)])%list) as (evs & E & _).
    rewrite E. exists evs. rewrite <- app_assoc. reflexivity.
  - intros h' E.
    destruct (env h (write_config doc)); try discriminate E.
    destruct (env h1 put_network_config) as [o e| | | | | | |]; try discriminate E.
    exists o, e. split; [reflexivity|]. split; [reflexivity|].
    exact (poll_returns _ _ _ _ _ _ E).
Qed.

(** C8: floating-IP convergence, once past the revision gate with the
    current configuration loaded.  (1) If the existing range equals the
    declared list, compared as ordered lists of strings, nothing more is done.
    (2) If the existing range is not empty and nothing is declared, the
    document with no frontend network left is written to the scratch file as
    the next call and, the write done, submitted with
    [network_v3_put_config] as the call after it; a failed write raises
    without submitting, and the run returns only once the submission has
    completed and a quorum poll has shown ACTIVE.
    (3) If there is no frontend network or its range is empty, the run is that
    of the apply-initial path, which never dumps or submits a replacement
    configuration. *)
Theorem floating_ip_convergence fuel cna fips nm qv n h out err current_config :
  qv <> "" -> revision_prefix qv = Some n -> 751 <= n ->
  env h get_network_config = Completed out err ->
  env (h ++ [(get_network_config, Completed out err)])%list
    (ReadJson "network_config.json") = Loaded current_config ->
  let h2 := (h ++ [(get_network_config, Completed out err);
                   (ReadJson "network_config.json", Loaded current_config)])%list in
  let r := maybe_update_floating_ips fuel cna fips nm qv h in
  let new_flips := declared_flips fips in
  (forall ranges,
     current_floating_ip_ranges current_config = inr ranges ->
     Json.eq_strings ranges new_flips = true ->
     r = Ret tt h2)
  /\ (forall l l', Json.eq_strings (Json.strings l) l' = true <-> l = l')
  /\ (forall ranges k,
        current_floating_ip_ranges current_config = inr ranges ->
        Json.len ranges = inr k -> 0 < k -> new_flips = [] ->
        exists top,
          current_config = JObj top
          /\ Json.lookup "frontend_networks"
               (Json.assign "frontend_networks" (JArr []) top) = Some (JArr [])
          /\ r = (write_json "network_config.json"
                    (JObj (Json.assign "frontend_networks" (JArr []) top)) ;;
                  qq_command "network_v3_put_config --file network_config.json" ;;
                  wait_for_new_quorum fuel) h2
          /\ resubmits (JObj (Json.assign "frontend_networks" (JArr []) top)) h2 r)
  /\ (no_floating_ips_configured current_config ->
        r = apply_initial_floating_ips fuel new_flips nm h2
        /\ emits (fun c => c <> put_network_config
                           /\ forall path doc, c <> WriteJson path doc)
             (apply_initial_floating_ips fuel new_flips nm)).
Proof.
  intros H1 H2 H3 Hget Hread h2 r new_flips.
  assert (Er : r = update_floating_ips fuel current_config new_flips nm h2).
  { apply (maybe_update_floating_ips_loaded _ _ _ _ _ _ _ _ _ _ H1 H2 H3 Hget Hread). }
  rewrite Er. split; [|split; [|split]].
  - intros ranges Hr Heq.
    destruct ranges as [| | | |items|]; try discriminate Heq.
    rewrite (update_floating_ips_counted _ _ _ (Py.len items) _ _ _ Hr eq_refl).
    rewrite Heq. cbn [negb]. cbn in Heq. apply same_strings_length in Heq.
    destruct (Z.eqb_spec (Py.len items) 0) as [Hz|]; [|reflexivity].
    destruct items; [|pose proof (len_pos j items); lia].
    destruct new_flips; [reflexivity|discriminate Heq].
  - apply eq_strings_literal.
  - intros ranges k Hr Hk Hpos Hnil.
    destruct (current_floating_ip_ranges_path _ _ Hr)
      as (top & others & net & addresses & host & Hcfg & E1 & _).
    exists top. split; [exact Hcfg|]. split.
    { clear. induction top as [|[k' v] top IH]; cbn; [reflexivity|].
      destruct (String.eqb_spec k' "frontend_networks") as [->|Hne]; cbn.
      - reflexivity.
      - destruct (String.eqb_spec k' "frontend_networks"); [contradiction|exact IH]. }
    rewrite (update_floating_ips_counted _ _ _ _ _ _ _ Hr Hk), Hnil.
    destruct (Z.eqb_spec k 0); [lia|].
    assert (Hne : Json.eq_strings ranges [] = false).
    { destruct ranges as [| | | |[|j items]|]; try reflexivity.
      - cbn in Hk. injection Hk as <-. lia.
      - destruct j; reflexivity. }
    rewrite Hne. cbn [negb]. subst current_config.
    split; [reflexivity|]. apply resubmit_run.
  - intros Hno. split; [apply update_floating_ips_initial; exact Hno|].
    apply apply_initial_floating_ips_no_replace.
Qed.


(** ** Bootstrap *)

Section Cooperative.

Hypothesis Hok : commands_succeed.

Lemma run_ok {A} cmd timeout (k : CompletedProcess -> M A) h :
  exists out err,
    bind (run_command cmd timeout) k h
    = k {| stdout := out; stderr := err |} (h ++ [(Run cmd timeout, Completed out err)])%list.
Proof.
  destruct (Hok h cmd timeout) as (out & err & E). exists out, err.
  unfold bind. rewrite (run_command_completed _ _ _ _ _ E). reflexivity.
Qed.

Lemma update_secret_ok {A} secret_id value (k : unit -> M A) h :
  exists out err,
    bind (update_secret secret_id value) k h
    = k tt (h ++ [(Run (update_secret_cmd secret_id value) None, Completed out err)])%list.
Proof.
  unfold update_secret. destruct (Hok h (update_secret_cmd secret_id value) None)
    as (out & err & E).
  exists out, err. unfold bind. rewrite (run_command_completed _ _ _ _ _ E). reflexivity.
Qed.

Lemma wait_for_new_quorum_ok h :
  (exists h', settles quorum_poll "ACTIVE" h h') ->
  exists n polls o e,
    (forall fuel, (n <= fuel)%nat ->
       wait_for_new_quorum fuel h
       = Ret tt (h ++ polls ++ [(quorum_poll, Completed o e)])%list)
    /\ Py.contains "ACTIVE" o = true.
Proof.
  intros (h' & S).
  destruct (settles_events _ _ _ _ _ S) as (polls & o & e & -> & _ & C).
  destruct (poll_settles _ _ _ _ _ S) as (n & Hn).
  exists n, polls, o, e. split; [|exact C].
  intros fuel L. rewrite wait_for_new_quorum_poll. apply Hn, L.
Qed.

Lemma in_calls_app c (h evs : History) : In c (map fst h) -> In c (map fst (h ++ evs)).
Proof. intros H. rewrite map_app. apply in_or_app. auto. Qed.

Lemma apply_initial_floating_ips_ok flips nm h :
  floating_addresses_appear ->
  exists n evs, forall fuel, (n <= fuel)%nat ->
    apply_initial_floating_ips fuel flips nm h = Ret tt (h ++ evs)%list.
Proof.
  intros Hf. unfold apply_initial_floating_ips. destruct flips as [|ip flips].
  - exists 0%nat, []. intros fuel _. rewrite app_nil_r. reflexivity.
  - destruct (Hok h (qq (put_network_args (ip :: flips) nm)) (Some 300)) as (out & err & E).
    destruct (Hf (h ++ [(Run (qq (put_network_args (ip :: flips) nm)) (Some 300),
                         Completed out err)])%list) as (h' & S).
    destruct (settles_events _ _ _ _ _ S) as (polls & o & e & -> & _ & _).
    destruct (poll_settles _ _ _ _ _ S) as (n & Hn).
    eexists n, _. intros fuel L.
    unfold qq_command, qq_command_within, bind.
    rewrite (run_command_completed _ _ _ _ _ E).
    rewrite wait_for_floating_addresses_poll, (Hn fuel L).
    rewrite <- app_assoc. reflexivity.
Qed.


End Cooperative.

(** ** Polling loops in general *)

Section Loops.

Variable attempt : M bool.

Lemma poll_unfold fuel h :
  poll (S fuel) attempt h =
  match attempt h with
  | Ret true h1 => Ret tt h1
  | Ret false h1 => poll fuel attempt (h1 ++ [(Sleep 10, env h1 (Sleep 10))])%list
  | Raise e h1 => Raise e h1
  | Spin h1 => Spin h1
  end.
Proof.
  cbn [poll]. unfold bind at 1. destruct (attempt h) as [[|] h1|e h1|h1]; reflexivity.
Qed.

Lemma poll_ret_inv fuel h h' :
  poll fuel attempt h = Ret tt h' ->
  exists h1, retrying attempt h h1 /\ attempt h1 = Ret true h'.
Proof.
  revert h. induction fuel as [|fuel IH]; intros h; [discriminate|].
  rewrite poll_unfold. destruct (attempt h) as [[|] h1|e h1|h1] eqn:A; try discriminate.
  - intros [= <-]. exists h. split; [constructor|exact A].
  - intros E. destruct (IH _ E) as (h2 & R & T). exists h2. split; [|exact T].
    eapply retrying_again; eauto.
Qed.

Lemma poll_raise_inv fuel h e h' :
  poll fuel attempt h = Raise e h' ->
  exists h1, retrying attempt h h1 /\ attempt h1 = Raise e h'.
Proof.
  revert h. induction fuel as [|fuel IH]; intros h; [discriminate|].
  rewrite poll_unfold. destruct (attempt h) as [[|] h1|e1 h1|h1] eqn:A; try discriminate.
  - intros E. destruct (IH _ E) as (h2 & R & T). exists h2. split; [|exact T].
    eapply retrying_again; eauto.
  - intros [= <- <-]. exists h. split; [constructor|exact A].
Qed.

Lemma poll_completes h h1 h' :
  retrying attempt h h1 -> attempt h1 = Ret true h' ->
  exists n, forall fuel, (n <= fuel)%nat -> poll fuel attempt h = Ret tt h'.
Proof.
  intros R T. induction R as [h|h h1 h2 A R IH].
  - exists 1%nat. intros [|fuel] L; [lia|]. rewrite poll_unfold, T. reflexivity.
  - destruct (IH T) as [n Hn]. exists (S n). intros [|fuel] L; [lia|].
    rewrite poll_unfold, A. apply Hn. lia.
Qed.

Lemma retrying_events P h h1 :
  emits P attempt -> P (Sleep 10) -> retrying attempt h h1 ->
  exists evs, h1 = (h ++ evs)%list /\ Forall (fun ev => P (fst ev)) evs.
Proof.
  intros Ha Hs R. induction R as [h|h h1 h2 A R (evs & -> & F)].
  - exists []. rewrite app_nil_r. auto.
  - destruct (Ha h) as (evs0 & E0 & F0). rewrite A in E0. cbn [history_of] in E0. subst h1.
    exists (evs0 ++ (Sleep 10, env (h ++ evs0)%list (Sleep 10)) :: evs)%list.
    split.
    + rewrite <- !app_assoc. reflexivity.
    + apply Forall_app. split; [exact F0|]. constructor; [exact Hs|exact F].
Qed.

End Loops.

Lemma wait_for_membership_poll fuel n sn h :
  wait_for_membership fuel n sn h = poll fuel (membership_attempt n sn) h.
Proof.
  revert h. induction fuel as [|fuel IH]; intros h; [reflexivity|].
  rewrite poll_unfold. cbn [wait_for_membership]. unfold bind at 1.
  change (try_except _ is_membership_poll_error (ret false) h)
    with (membership_attempt n sn h).
  destruct (membership_attempt n sn h) as [[|] h1|e h1|h1]; try reflexivity.
  unfold bind. rewrite sleep_run. apply IH.
Qed.

Lemma wait_for_qfsd_on_poll fuel ip h :
  wait_for_qfsd_on fuel ip h = poll fuel (readiness_attempt ip) h.
Proof.
  revert h. induction fuel as [|fuel IH]; intros h; [reflexivity|].
  rewrite poll_unfold. cbn [wait_for_qfsd_on]. unfold bind at 1.
  change (try_except _ is_request_exception (ret false) h)
    with (readiness_attempt ip h).
  destruct (readiness_attempt ip h) as [[|] h1|e h1|h1]; try reflexivity.
  unfold bind. rewrite sleep_run. apply IH.
Qed.

Section PollOutcome.

Variables (cmd : string) (timeout : option Z) (marker : string).

Lemma poll_probe_outcome fuel h :
  match poll fuel (probe cmd timeout marker) h with
  | Ret _ h' => settles (Run cmd timeout) marker h h'
  | Raise e h' =>
      is_provisioning_error e = false
      /\ exists h1,
           waiting (Run cmd timeout) marker h h1
           /\ h' = (h1 ++ [(Run cmd timeout, env h1 (Run cmd timeout))])%list
           /\ (forall out err, env h1 (Run cmd timeout) <> Completed out err)
           /\ (forall rc out err, env h1 (Run cmd timeout) <> CalledProcessError rc out err)
           /\ (e = SubprocessTimeout <-> env h1 (Run cmd timeout) = TimeoutExpired)
  | Spin h' => waiting (Run cmd timeout) marker h h'
  end.
Proof.
  revert h. induction fuel as [|fuel IH]; intros h.
  - cbn. constructor.
  - rewrite (poll_step cmd timeout marker fuel h); cbn zeta.
    destruct (confirms marker (env h (Run cmd timeout))) eqn:C.
    + exists h. split; [constructor|]. split; [exact C|reflexivity].
    + destruct (not_yet marker (env h (Run cmd timeout))) eqn:N.
      * specialize (IH (h ++ retry_events (Run cmd timeout) h)%list).
        destruct (poll fuel (probe cmd timeout marker) _) as [[] h'|e h'|h'].
        -- destruct IH as (h1 & W & C1 & ->). exists h1.
           split; [eapply waiting_retry; eauto|]. split; [exact C1|reflexivity].
        -- destruct IH as (Hp & h1 & W & E & R). split; [exact Hp|].
           exists h1. split; [eapply waiting_retry; eauto|]. split; [exact E|exact R].
        -- eapply waiting_retry; eauto.
      * destruct (env h (Run cmd timeout)) eqn:R; cbn in C, N;
          try discriminate N; try (rewrite C in N; discriminate N);
          (split; [reflexivity|]); exists h; rewrite R;
          (split; [constructor|]); (split; [reflexivity|]);
          (split; [discriminate|]); (split; [discriminate|]);
          split; try discriminate; reflexivity.
Qed.

End PollOutcome.

(** X1: [wait_for_new_quorum] returns only after a poll whose output shows
    ACTIVE; polls that exit with an error or show no ACTIVE are each followed
    by a 10 s sleep and another poll.  It never raises a [ProvisioningError]:
    the only way it raises is a poll that neither completes nor exits with an
    error, such as a poll the subprocess timeout cuts short, whose exception
    it lets through. *)
Theorem wait_for_new_quorum_outcome fuel h :
  match wait_for_new_quorum fuel h with
  | Ret _ h' => settles quorum_poll "ACTIVE" h h'
  | Raise e h' =>
      is_provisioning_error e = false
      /\ exists h1,
           waiting quorum_poll "ACTIVE" h h1
           /\ h' = (h1 ++ [(quorum_poll, env h1 quorum_poll)])%list
           /\ (forall out err, env h1 quorum_poll <> Completed out err)
           /\ (forall rc out err, env h1 quorum_poll <> CalledProcessError rc out err)
           /\ (e = SubprocessTimeout <-> env h1 quorum_poll = TimeoutExpired)
  | Spin h' => waiting quorum_poll "ACTIVE" h h'
  end.
Proof.
  rewrite wait_for_new_quorum_poll.
  apply (poll_probe_outcome (qq "node_state_get") (Some 60) "ACTIVE").
Qed.

(** ** Further properties of the floating-IP steps *)

Lemma split_on_not_nil sep cur s : Py.split_on sep cur s <> [].
Proof.
  revert cur. induction s as [|c s IH]; intros cur; cbn; [discriminate|].
  destruct (Ascii.eqb c sep); [discriminate|apply IH].
Qed.

Lemma declared_flips_nil s : declared_flips s = [] <-> s = "".
Proof.
  unfold declared_flips. destruct (String.eqb_spec s "") as [->|Hne].
  - split; reflexivity.
  - split; [|contradiction]. intros E. exfalso.
    exact (split_on_not_nil _ _ _ E).
Qed.

(** X2: with a non-empty list, [apply_initial_floating_ips] first submits
    the network configuration; if that command does not complete it raises at
    once without polling; it returns only after a poll of the network status
    has shown floating addresses, and does return, given enough rounds, when
    such a poll comes.  The declared list is empty only for the empty string. *)
Theorem apply_initial_floating_ips_submits fuel flips nm h :
  flips <> [] ->
  let put := Run (qq (put_network_args flips nm)) (Some 300) in
  let r := apply_initial_floating_ips fuel flips nm h in
  (exists rest, history_of r = (h ++ (put, env h put) :: rest)%list)
  /\ (forall h', r = Ret tt h' ->
        exists out err,
          env h put = Completed out err
          /\ settles network_status_poll "floating_addresses"
               (h ++ [(put, Completed out err)])%list h')
  /\ ((forall out err, env h put <> Completed out err) ->
        exists e, r = Raise e (h ++ [(put, env h put)])%list)
  /\ (forall out err h',
        env h put = Completed out err ->
        settles network_status_poll "floating_addresses"
          (h ++ [(put, Completed out err)])%list h' ->
        exists n, forall fuel', (n <= fuel')%nat ->
          apply_initial_floating_ips fuel' flips nm h = Ret tt h')
  /\ (forall s, declared_flips s = [] <-> s = "").
Proof.
  intros Hne put r.
  assert (Run_ : forall fuel',
            apply_initial_floating_ips fuel' flips nm h =
            match env h put with
            | Completed out err =>
                poll fuel' (probe (qq "raw GET /v3/network/status") (Some 300)
                              "floating_addresses")
                  (h ++ [(put, Completed out err)])%list
            | CalledProcessError rc _ _ =>
                Raise (ProvisioningError (CommandFailed rc (qq (put_network_args flips nm))))
                  (h ++ [(put, env h put)])%list
            | TimeoutExpired => Raise SubprocessTimeout (h ++ [(put, env h put)])%list
            | _ => Raise OtherError (h ++ [(put, env h put)])%list
            end).
  { intros fuel'. unfold apply_initial_floating_ips.
    destruct flips as [|ip flips']; [contradiction|].
    unfold qq_command, qq_command_within, bind. rewrite run_command_run; cbn zeta.
    fold put. destruct (env h put) eqn:R; try reflexivity.
    apply wait_for_floating_addresses_poll. }
  split; [|split; [|split; [|split]]].
  - unfold r. rewrite Run_.
    destruct (env h put) as [out err| | | | | | |] eqn:R; try (exists []; reflexivity).
    destruct (poll_events (qq "raw GET /v3/network/status") (Some 300) "floating_addresses"
                fuel (h ++ [(put, Completed out err)])%list) as (evs & E & _).
    exists evs. rewrite E, <- app_assoc. reflexivity.
  - intros h' E. unfold r in E. rewrite Run_ in E.
    destruct (env h put) as [out err| | | | | | |] eqn:R; try discriminate E.
    exists out, err. split; [reflexivity|].
    apply (poll_returns _ _ _ _ _ _ E).
  - intros Hnot. unfold r. rewrite Run_.
    destruct (env h put) as [out err| | | | | | |] eqn:R; eauto.
    exfalso. exact (Hnot out err eq_refl).
  - intros out err h' R S.
    destruct (poll_settles _ _ _ _ _ S) as [n Hn]. exists n. intros fuel' L.
    rewrite Run_, R. apply Hn, L.
  - apply declared_flips_nil.
Qed.

Lemma lookup_assign_same k v fields : Json.lookup k (Json.assign k v fields) = Some v.
Proof.
  induction fields as [|[k' v'] fields IH]; cbn.
  - rewrite String.eqb_refl. reflexivity.
  - destruct (String.eqb_spec k' k) as [->|Hne]; cbn.
    + rewrite String.eqb_refl. reflexivity.
    + destruct (String.eqb_spec k' k); [contradiction|exact IH].
Qed.

Lemma lookup_assign_other k k' v fields :
  k' <> k -> Json.lookup k' (Json.assign k v fields) = Json.lookup k' fields.
Proof.
  intros Hne. induction fields as [|[k0 v0] fields IH]; cbn.
  - destruct (String.eqb_spec k k'); [congruence|reflexivity].
  - destruct (String.eqb_spec k0 k) as [->|Hne0]; cbn.
    + destruct (String.eqb_spec k k'); [congruence|reflexivity].
    + destruct (String.eqb_spec k0 k'); [reflexivity|exact IH].
Qed.

(** The document a successful assignment of the floating-IP ranges yields. *)
Lemma assign_floating_ip_ranges_path current_config ranges v :
  current_floating_ip_ranges current_config = inr ranges ->
  exists top others net addresses host,
    current_config = JObj top
    /\ Json.lookup "frontend_networks" top = Some (JArr (JObj net :: others))
    /\ Json.lookup "addresses" net = Some (JObj addresses)
    /\ Json.lookup "host_addresses" addresses = Some (JObj host)
    /\ Json.lookup "floating_ip_ranges" host = Some ranges
    /\ assign_floating_ip_ranges current_config v
       = inr (JObj (Json.assign "frontend_networks"
                      (JArr (JObj (Json.assign "addresses"
                                     (JObj (Json.assign "host_addresses"
                                              (JObj (Json.assign "floating_ip_ranges" v host))
                                              addresses))
                                     net) :: others))
                      top)).
Proof.
  intros Hr.
  destruct (current_floating_ip_ranges_path _ _ Hr)
    as (top & others & net & addresses & host & -> & E1 & E2 & E3 & E4).
  exists top, others, net, addresses, host. repeat (split; [assumption || reflexivity|]).
  unfold assign_floating_ip_ranges. cbn [Json.item]. rewrite E1. cbn [Json.first Json.item].
  rewrite E2. cbn [Json.item]. rewrite E3. reflexivity.
Qed.

(** X4: assigning the floating-IP ranges in a configuration whose ranges can
    be read always succeeds; reading the ranges back from the result gives the
    assigned value, and nothing else moves: the other entries of
    [host_addresses] (the netmask among them), the other entries of the first
    frontend network, the further frontend networks and the other top-level
    entries are what they were. *)
Theorem assign_floating_ip_ranges_roundtrip current_config ranges v :
  current_floating_ip_ranges current_config = inr ranges ->
  exists updated,
    assign_floating_ip_ranges current_config v = inr updated
    /\ current_floating_ip_ranges updated = inr v
    /\ (forall k, k <> "floating_ip_ranges" ->
          host_addresses_item updated k = host_addresses_item current_config k)
    /\ (forall k, k <> "addresses" ->
          first_network_item updated k = first_network_item current_config k)
    /\ other_networks updated = other_networks current_config
    /\ (forall k, k <> "frontend_networks" ->
          Json.item updated k = Json.item current_config k).
Proof.
  intros Hr.
  destruct (assign_floating_ip_ranges_path _ _ v Hr)
    as (top & others & net & addresses & host & -> & E1 & E2 & E3 & E4 & Ea).
  eexists. split; [exact Ea|].
  unfold current_floating_ip_ranges, host_addresses_item, first_network_item, other_networks.
  cbn [Json.item]. rewrite !lookup_assign_same, E1. cbn [Json.first Json.item].
  rewrite !lookup_assign_same, E2. cbn [Json.item].
  rewrite !lookup_assign_same, E3. cbn [Json.item].
  rewrite !lookup_assign_same.
  split; [reflexivity|]. split; [|split; [|split]].
  - intros k Hk. rewrite lookup_assign_other by exact Hk. reflexivity.
  - intros k Hk. rewrite lookup_assign_other by exact Hk. reflexivity.
  - reflexivity.
  - intros k Hk. rewrite lookup_assign_other by exact Hk. reflexivity.
Qed.

(** X3: when the existing range is not empty and differs from a non-empty
    declared list, [update_floating_ips] takes the replace path: its first
    call writes the configuration with the declared list as its ranges to the
    scratch file; the write done, its next call submits the file with
    [network_v3_put_config], while a failed write raises without submitting;
    it returns only once the submission has completed and a quorum poll has
    shown ACTIVE.  It neither submits an initial configuration nor polls the
    network status. *)
Theorem update_floating_ips_replaces fuel current_config ranges k new_flips nm h :
  current_floating_ip_ranges current_config = inr ranges ->
  Json.len ranges = inr k -> 0 < k ->
  new_flips <> [] ->
  Json.eq_strings ranges new_flips = false ->
  exists updated,
    assign_floating_ip_ranges current_config (Json.strings new_flips) = inr updated
    /\ current_floating_ip_ranges updated = inr (Json.strings new_flips)
    /\ update_floating_ips fuel current_config new_flips nm h
       = (write_json "network_config.json" updated ;;
          qq_command "network_v3_put_config --file network_config.json" ;;
          wait_for_new_quorum fuel) h
    /\ resubmits updated h (update_floating_ips fuel current_config new_flips nm h)
    /\ emits (fun c => ~ initial_flips_call c)
         (write_json "network_config.json" updated ;;
          qq_command "network_v3_put_config --file network_config.json" ;;
          wait_for_new_quorum fuel).
Proof.
  intros Hr Hk Hpos Hne Hdiff.
  destruct (assign_floating_ip_ranges_path _ _ (Json.strings new_flips) Hr)
    as (top & others & net & addresses & host & Hcfg & E1 & E2 & E3 & E4 & Ea).
  assert (Eu : forall updated,
            assign_floating_ip_ranges current_config (Json.strings new_flips) = inr updated ->
            update_floating_ips fuel current_config new_flips nm h
            = (write_json "network_config.json" updated ;;
               qq_command "network_v3_put_config --file network_config.json" ;;
               wait_for_new_quorum fuel) h).
  { intros updated Eup.
    rewrite (update_floating_ips_counted _ _ _ _ _ _ _ Hr Hk), Hdiff.
    destruct (Z.eqb_spec k 0); [lia|]. cbn [negb].
    destruct new_flips as [|ip rest]; [contradiction|].
    unfold bind at 1. rewrite Eup. reflexivity. }
  eexists. split; [exact Ea|]. split; [|split; [|split]].
  - unfold current_floating_ip_ranges. cbn [Json.item].
    rewrite !lookup_assign_same. cbn [Json.first Json.item].
    rewrite !lookup_assign_same. cbn [Json.item].
    rewrite !lookup_assign_same. cbn [Json.item].
    rewrite !lookup_assign_same. reflexivity.
  - apply Eu, Ea.
  - rewrite (Eu _ Ea). apply resubmit_run.
  - repeat emits_step; not_initial_flips_call.
Qed.

(** ** Membership changes *)

Lemma membership_attempt_run n sn h :
  membership_attempt n sn h =
  let r := env h nodes_poll in
  let h' := (h ++ [(nodes_poll, r)])%list in
  match r with
  | Completed out _ =>
      match reported_node_count out with
      | inr k => Ret (k =? n + sn) h'
      | inl e => if is_membership_poll_error e then Ret false h' else Raise e h'
      end
  | CalledProcessError _ _ _ => Ret false h'
  | TimeoutExpired => Raise SubprocessTimeout h'
  | _ => Raise OtherError h'
  end.
Proof.
  unfold membership_attempt, try_except, qq_command, qq_command_within, nodes_poll.
  unfold bind at 1. rewrite run_command_run; cbn zeta.
  destruct (env h (Run (qq "get_object_backed_nodes") (Some 300))); try reflexivity.
  cbn [stdout]. unfold bind.
  destruct (reported_node_count stdout0) as [e|k]; reflexivity.
Qed.

Lemma membership_returns fuel n sn h h' :
  wait_for_membership fuel n sn h = Ret tt h' -> membership_in_effect n sn h h'.
Proof.
  rewrite wait_for_membership_poll. intros E.
  destruct (poll_ret_inv _ _ _ _ E) as (h1 & R & T).
  rewrite membership_attempt_run in T; cbn zeta in T.
  destruct (env h1 nodes_poll) as [out err| | | | | | |] eqn:Rp; try discriminate T.
  destruct (reported_node_count out) as [e|k] eqn:Rc.
  - destruct (is_membership_poll_error e); discriminate T.
  - injection T as Hk <-. apply Z.eqb_eq in Hk. subst k.
    exists h1, out, err. auto.
Qed.

Lemma membership_completes n sn h h' :
  membership_in_effect n sn h h' ->
  exists k, forall fuel, (k <= fuel)%nat -> wait_for_membership fuel n sn h = Ret tt h'.
Proof.
  intros (h1 & out & err & R & Rp & Rc & ->).
  assert (T : membership_attempt n sn h1
              = Ret true (h1 ++ [(nodes_poll, Completed out err)])%list).
  { rewrite membership_attempt_run; cbn zeta. rewrite Rp, Rc, Z.eqb_refl. reflexivity. }
  destruct (poll_completes _ _ _ _ R T) as [k Hk]. exists k. intros fuel L.
  rewrite wait_for_membership_poll. apply Hk, L.
Qed.

Lemma len_app_sub {A} (l l' : list A) : Py.len (l ++ l') - Py.len l' = Py.len l.
Proof. unfold Py.len. rewrite length_app. lia. Qed.

Lemma slice_to_len {A} n (l : list A) :
  0 <= n -> Py.len (Py.slice_to n l) = Z.min n (Py.len l).
Proof.
  intros Hn. unfold Py.slice_to. destruct (Z.leb_spec 0 n); [|lia].
  unfold Py.len. rewrite length_firstn. lia.
Qed.

Lemma update_cluster_membership_run fuel n sn nodes swing sid h :
  update_cluster_membership fuel n sn nodes swing sid h =
  (run_command (qq (modify_membership_args
                      (Py.slice_to n (Py.split nodes) ++ Py.split swing)%list)) (Some 300) ;;
   wait_for_new_quorum fuel ;;
   wait_for_membership fuel n sn ;;
   run_command (update_secret_cmd sid (Py.str (Py.len (Py.slice_to n (Py.split nodes))))) None ;;
   ret tt) h.
Proof.
  unfold update_cluster_membership. cbn zeta. rewrite len_app_sub. reflexivity.
Qed.

(** X5: [update_cluster_membership] returns only after this sequence: the
    membership command naming the first [node_count] primary addresses and
    all swing addresses completed; then a quorum poll showed ACTIVE; then
    [get_object_backed_nodes] reported [node_count + swing_node_count] nodes;
    then the node-count secret was written.  The number written counts the
    primary addresses named, swing nodes excluded: for a node count that is
    not negative it is the smaller of [node_count] and the number of declared
    primary addresses. *)
Theorem update_cluster_membership_order fuel n sn nodes swing sid h h' :
  update_cluster_membership fuel n sn nodes swing sid h = Ret tt h' ->
  exists recorded out err h1 h2 out' err',
    recorded = Py.len (Py.slice_to n (Py.split nodes))
    /\ (0 <= n -> recorded = Z.min n (Py.len (Py.split nodes)))
    /\ env h (modify_membership n nodes swing) = Completed out err
    /\ settles quorum_poll "ACTIVE"
         (h ++ [(modify_membership n nodes swing, Completed out err)])%list h1
    /\ membership_in_effect n sn h1 h2
    /\ env h2 (record_node_count sid recorded) = Completed out' err'
    /\ h' = (h2 ++ [(record_node_count sid recorded, Completed out' err')])%list.
Proof.
  rewrite update_cluster_membership_run. unfold modify_membership, record_node_count.
  unfold bind at 1. rewrite run_command_run; cbn zeta.
  destruct (env h (Run _ (Some 300))) as [out err| | | | | | |] eqn:R; try discriminate.
  unfold bind at 1.
  destruct (wait_for_new_quorum fuel _) as [[] h1|e h1|h1] eqn:Q; try discriminate.
  unfold bind at 1.
  destruct (wait_for_membership fuel n sn h1) as [[] h2|e h2|h2] eqn:W; try discriminate.
  unfold bind. rewrite run_command_run; cbn zeta.
  destruct (env h2 (Run _ None)) as [out' err'| | | | | | |] eqn:U; try discriminate.
  intros [= <-].
  exists (Py.len (Py.slice_to n (Py.split nodes))), out, err, h1, h2, out', err'.
  split; [reflexivity|]. split; [apply slice_to_len|]. split; [reflexivity|].
  split.
  { rewrite wait_for_new_quorum_poll in Q. exact (poll_returns _ _ _ _ _ _ Q). }
  split; [exact (membership_returns _ _ _ _ _ W)|]. split; [exact U|reflexivity].
Qed.

(** X6: conversely, when the membership command completes, the quorum then
    becomes ACTIVE, the reported membership then reaches the expected size
    and the secret update completes, [update_cluster_membership] returns,
    given enough rounds for its two loops, with exactly that history. *)
Theorem update_cluster_membership_completes n sn nodes swing sid h out err h1 h2 out' err' :
  env h (modify_membership n nodes swing) = Completed out err ->
  settles quorum_poll "ACTIVE"
    (h ++ [(modify_membership n nodes swing, Completed out err)])%list h1 ->
  membership_in_effect n sn h1 h2 ->
  env h2 (record_node_count sid (Py.len (Py.slice_to n (Py.split nodes))))
  = Completed out' err' ->
  exists k, forall fuel, (k <= fuel)%nat ->
    update_cluster_membership fuel n sn nodes swing sid h
    = Ret tt (h2 ++ [(record_node_count sid (Py.len (Py.slice_to n (Py.split nodes))),
                      Completed out' err')])%list.
Proof.
  unfold modify_membership, record_node_count. intros R Q W U.
  destruct (poll_settles _ _ _ _ _ Q) as [k1 H1].
  destruct (membership_completes _ _ _ _ W) as [k2 H2].
  exists (Nat.max k1 k2). intros fuel L.
  rewrite update_cluster_membership_run.
  unfold bind at 1. rewrite run_command_run; cbn zeta. rewrite R.
  unfold bind at 1. rewrite wait_for_new_quorum_poll, H1 by lia.
  unfold bind at 1. rewrite H2 by lia.
  unfold bind. rewrite run_command_run; cbn zeta. rewrite U. reflexivity.
Qed.

(** X7: the loop that waits for the new membership asks again, after a
    10 s sleep, whenever the query fails, its output cannot be decoded, lacks
    the membership entries, or reports another number of nodes.  It returns
    only on a reply that reports [node_count + swing_node_count] nodes, and
    it never raises a [ProvisioningError], [JSONDecodeError], [KeyError] or
    [IndexError]; other exceptions of a round pass through. *)
Theorem wait_for_membership_outcome fuel n sn h :
  (forall h0 h1,
     membership_attempt n sn h0 = Ret false h1 <->
     (membership_pending n sn (env h0 nodes_poll) = true
      /\ h1 = (h0 ++ [(nodes_poll, env h0 nodes_poll)])%list))
  /\ match wait_for_membership fuel n sn h with
     | Ret _ h' => membership_in_effect n sn h h'
     | Raise e h' =>
         is_membership_poll_error e = false
         /\ exists h1,
              retrying (membership_attempt n sn) h h1
              /\ h' = (h1 ++ [(nodes_poll, env h1 nodes_poll)])%list
              /\ membership_pending n sn (env h1 nodes_poll) = false
              /\ forall rc out err, env h1 nodes_poll <> CalledProcessError rc out err
     | Spin h' => retrying (membership_attempt n sn) h h'
     end.
Proof.
  split.
  - intros h0 h1. rewrite membership_attempt_run; cbn zeta. unfold membership_pending.
    destruct (env h0 nodes_poll) as [out err| | | | | | |];
      try (split; [discriminate|intros [? _]; discriminate]).
    + destruct (reported_node_count out) as [e|k].
      * destruct (is_membership_poll_error e).
        -- split; [intros [= <-]; auto|intros [_ ->]; reflexivity].
        -- split; [discriminate|intros [? _]; discriminate].
      * destruct (k =? n + sn).
        -- split; [discriminate|intros [? _]; discriminate].
        -- split; [intros [= <-]; auto|intros [_ ->]; reflexivity].
    + split; [intros [= <-]; auto|intros [_ ->]; reflexivity].
  - destruct (wait_for_membership fuel n sn h) as [[] h'|e h'|h'] eqn:W.
    + exact (membership_returns _ _ _ _ _ W).
    + rewrite wait_for_membership_poll in W.
      destruct (poll_raise_inv _ _ _ _ _ W) as (h1 & R & T).
      rewrite membership_attempt_run in T; cbn zeta in T.
      unfold membership_pending.
      destruct (env h1 nodes_poll) as [out err| | | | | | |] eqn:Rp; try discriminate T;
        try (injection T as <- <-; split; [reflexivity|]; exists h1; rewrite Rp;
             repeat split; auto; discriminate).
      destruct (reported_node_count out) as [e1|k] eqn:Rc; [|discriminate T].
      destruct (is_membership_poll_error e1) eqn:Pe; [discriminate T|].
      injection T as <- <-. split; [exact Pe|]. exists h1. rewrite Rp, Rc.
      split; [exact R|]. split; [reflexivity|]. split; [exact Pe|discriminate].
    + rewrite wait_for_membership_poll in W. clear -W.
      revert h W. induction fuel as [|fuel IH]; intros h W.
      * cbn [poll] in W. unfold spin in W. injection W as <-. constructor.
      * rewrite poll_unfold in W.
        destruct (membership_attempt n sn h) as [[|] h1|e h1|h1] eqn:A; try discriminate W.
        -- eapply retrying_again; [exact A|]. apply IH, W.
        -- exfalso. rewrite membership_attempt_run in A; cbn zeta in A.
           destruct (env h nodes_poll); try discriminate A.
           destruct (reported_node_count stdout0); try discriminate A.
           destruct (is_membership_poll_error e); discriminate A.
Qed.

(** ** Swing pool and buckets *)

(** X8: when the primary pool already has the declared number of nodes in
    quorum, the swing pool decides.  With the flag "true" and a number of
    swing nodes in quorum other than the declared one, the membership becomes
    the first [node_count] primary addresses followed by all swing addresses;
    with the flag "false" and some swing node in quorum, it becomes the
    primary addresses alone and the loop waits for [node_count] nodes; in
    every other case, and always when the flag is a real boolean, nothing is
    done. *)
Theorem swing_pool_transitions fuel inq inqs psp config h :
  Py.len inq = node_count config ->
  let r := node_add_remove fuel inq inqs (Py.VStr psp) config h in
  (psp = "true" -> Py.len inqs <> swing_node_count config ->
     r = update_cluster_membership fuel (node_count config) (swing_node_count config)
           (node_ips_and_fault_domains config)
           (swing_node_ip_addresses_and_fault_domains config)
           (cluster_node_count_secret_id config) h
     /\ issued (modify_membership (node_count config) (node_ips_and_fault_domains config)
                  (swing_node_ip_addresses_and_fault_domains config)) h r)
  /\ (psp = "false" -> inqs <> [] ->
     r = update_cluster_membership fuel (node_count config) 0
           (node_ips_and_fault_domains config) ""
           (cluster_node_count_secret_id config) h
     /\ issued (Run (qq (modify_membership_args
                           (Py.slice_to (node_count config)
                              (Py.split (node_ips_and_fault_domains config)))))
                  (Some 300)) h r)
  /\ ((psp = "true" -> Py.len inqs = swing_node_count config) ->
      (psp = "false" -> inqs = []) ->
      r = Ret tt h)
  /\ (forall b, node_add_remove fuel inq inqs (Py.VBool b) config h = Ret tt h).
Proof.
  intros Hn. cbn zeta. unfold node_add_remove. rewrite Hn, Z.eqb_refl. cbn [negb].
  assert (First : forall n sn nodes swing sid,
            issued (modify_membership n nodes swing) h
              (update_cluster_membership fuel n sn nodes swing sid h)).
  { intros. rewrite update_cluster_membership_run. unfold modify_membership.
    apply issued_first. intros _. repeat emits_step; try exact I.
    apply emits_wait_for_membership; exact I. }
  split; [|split; [|split]].
  - intros -> Hs. cbn [Py.eq_str]. rewrite String.eqb_refl.
    destruct (Z.eqb_spec (Py.len inqs) (swing_node_count config)); [contradiction|].
    cbn [negb andb]. split; [reflexivity|apply First].
  - intros -> Hs. cbn [Py.eq_str].
    change ("false" =? "true")%string with false. change ("false" =? "false")%string with true.
    destruct inqs as [|ip rest]; [contradiction|].
    assert (L : (0 <? Py.len (ip :: rest)) = true) by (apply Z.ltb_lt, len_pos).
    rewrite L. cbn [andb]. split; [reflexivity|].
    pose proof (First (node_count config) 0 (node_ips_and_fault_domains config) ""
                  (cluster_node_count_secret_id config)) as F.
    unfold modify_membership in F. change (Py.split "") with (@nil string) in F.
    rewrite app_nil_r in F. exact F.
  - intros Ht Hf. cbn [Py.eq_str].
    destruct (String.eqb_spec psp "true") as [E|_].
    + rewrite (Ht E), Z.eqb_refl. cbn [negb andb].
      subst psp. reflexivity.
    + cbn [andb]. destruct (String.eqb_spec psp "false") as [E|_]; [|reflexivity].
      rewrite (Hf E). reflexivity.
  - intros b. reflexivity.
Qed.

Lemma bucket_add_run fuel config h out err buckets count :
  env h list_buckets = Completed out err ->
  json_loads (Py.replace "'" dq out) = Some buckets ->
  Json.len buckets = inr count ->
  bucket_add fuel config h =
  if count <? Py.len (Py.split (storage_uris config))
  then (run_command (qq ("add_object_storage_uris --uris " ++ storage_uris config)) (Some 300) ;;
        wait_for_new_quorum fuel) (h ++ [(list_buckets, Completed out err)])%list
  else Ret tt (h ++ [(list_buckets, Completed out err)])%list.
Proof.
  intros R J L. unfold bucket_add, qq_command, qq_command_within.
  unfold bind at 1. rewrite (run_command_completed _ _ _ _ _ R). cbn [stdout].
  rewrite J. unfold bind at 1. rewrite L. cbn [lift ret].
  destruct (count <? _); reflexivity.
Qed.

(** X9: bucket convergence only ever adds.  Once the cluster has listed its
    buckets, the add command, which passes the whole declared list, is issued
    exactly when the cluster uses fewer buckets than are declared; otherwise
    the step ends after the query.  When buckets are added the step returns
    only after the add command completed and a quorum poll showed ACTIVE, and
    it does return, given enough rounds, when that happens. *)
Theorem bucket_add_only_grows fuel config h out err buckets count :
  env h list_buckets = Completed out err ->
  json_loads (Py.replace "'" dq out) = Some buckets ->
  Json.len buckets = inr count ->
  let r := bucket_add fuel config h in
  let declared := Py.len (Py.split (storage_uris config)) in
  let h1 := (h ++ [(list_buckets, Completed out err)])%list in
  (issued (add_buckets config) h r <-> count < declared)
  /\ (declared <= count -> r = Ret tt h1)
  /\ (count < declared -> forall h', r = Ret tt h' ->
        exists o e,
          env h1 (add_buckets config) = Completed o e
          /\ settles quorum_poll "ACTIVE" (h1 ++ [(add_buckets config, Completed o e)])%list h')
  /\ (count < declared -> forall o e h',
        env h1 (add_buckets config) = Completed o e ->
        settles quorum_poll "ACTIVE" (h1 ++ [(add_buckets config, Completed o e)])%list h' ->
        exists k, forall fuel', (k <= fuel')%nat -> bucket_add fuel' config h = Ret tt h').
Proof.
  intros R J L. cbn zeta.
  split; [|split; [|split]].
  - rewrite (bucket_add_run _ _ _ _ _ _ _ R J L).
    destruct (Z.ltb_spec count (Py.len (Py.split (storage_uris config)))) as [Hlt|Hge].
    + split; [intros _; exact Hlt|intros _].
      match goal with
      | |- issued _ _ (bind (run_command ?cmd ?t) ?k ?h1) =>
          destruct (run_command_then cmd t k h1) as (rep & rest & E)
      end.
      { intros _. repeat emits_step; exact I. }
      rewrite <- app_assoc in E. rewrite (issued_iff _ _ _ _ E). cbn. right; left. reflexivity.
    + split; [|lia]. intros H. exfalso. revert H.
      rewrite (issued_iff _ h [(list_buckets, Completed out err)]) by reflexivity.
      cbn. intros [E|[]]. unfold list_buckets, add_buckets in E. differ E.
  - intros Hge. rewrite (bucket_add_run _ _ _ _ _ _ _ R J L).
    destruct (Z.ltb_spec count (Py.len (Py.split (storage_uris config)))); [lia|reflexivity].
  - intros Hlt h'. rewrite (bucket_add_run _ _ _ _ _ _ _ R J L).
    destruct (Z.ltb_spec count (Py.len (Py.split (storage_uris config)))); [|lia].
    unfold bind, add_buckets. rewrite run_command_run; cbn zeta.
    destruct (env _ (Run _ (Some 300))) as [o e| | | | | | |] eqn:Ra; try discriminate.
    intros W. exists o, e. split; [reflexivity|].
    rewrite wait_for_new_quorum_poll in W. exact (poll_returns _ _ _ _ _ _ W).
  - intros Hlt o e h' Ra S. destruct (poll_settles _ _ _ _ _ S) as [k Hk].
    exists k. intros fuel' Lk. rewrite (bucket_add_run _ _ _ _ _ _ _ R J L).
    destruct (Z.ltb_spec count (Py.len (Py.split (storage_uris config)))); [|lia].
    unfold bind. unfold add_buckets in Ra. rewrite (run_command_completed _ _ _ _ _ Ra).
    rewrite wait_for_new_quorum_poll. apply Hk, Lk.
Qed.

(** ** Before the decision: preparation and surveys *)

Lemma bind_ext {A B} (m : M A) (k k' : A -> M B) h :
  (forall a h', k a h' = k' a h') -> bind m k h = bind m k' h.
Proof. intros E. unfold bind. destruct (m h); auto. Qed.

Lemma emits_for_each {A} P (l : list A) body :
  (forall x, emits P (body x)) -> emits P (for_each l body).
Proof.
  intros Hb. induction l as [|x l IH]; [apply emits_ret|].
  cbn [for_each]. apply emits_bind; [apply Hb|intros _; exact IH].
Qed.

Lemma emits_readiness_attempt P ip :
  P (readiness_probe ip) -> emits P (readiness_attempt ip).
Proof.
  intros Hp. unfold readiness_attempt, requests_get.
  repeat emits_step; exact Hp.
Qed.

Lemma emits_wait_for_qfsd_installation P fuel addresses :
  (forall ip, P (readiness_probe ip)) -> P (Sleep 10) ->
  emits P (wait_for_qfsd_installation fuel addresses).
Proof.
  intros Hp Hs. unfold wait_for_qfsd_installation. apply emits_for_each. intros ip.
  eapply emits_ext; [intros h; apply wait_for_qfsd_on_poll|].
  apply emits_poll; [apply emits_readiness_attempt, Hp|exact Hs].
Qed.

Lemma emits_get_qfsd_version P ip : P (version_call ip) -> emits P (get_qfsd_version ip).
Proof. intros Hp. unfold get_qfsd_version. repeat emits_step. exact Hp. Qed.

Lemma emits_survey_node_state P qv addresses :
  (forall ip, P (version_call ip)) -> (forall ip, P (state_call ip)) ->
  emits P (survey_node_state qv addresses).
Proof.
  intros Hv Hs. unfold survey_node_state. apply emits_bind; [|intros; apply emits_ret].
  generalize empty_survey. induction (Py.split addresses) as [|ip ips IH]; intros s.
  - apply emits_ret.
  - cbn [survey_nodes]. apply emits_bind; [apply emits_get_qfsd_version, Hv|intros v].
    destruct (negb (v =? qv)%string); [apply emits_raise|].
    apply emits_bind; [|intros; apply IH].
    repeat emits_step. apply Hs.
Qed.

Lemma emits_prepare fuel : emits preliminary_call (prepare fuel).
Proof.
  unfold prepare, install_oci_cli, download_qq_client, requests_get.
  repeat first
    [ apply emits_wait_for_qfsd_installation; [intros; constructor|constructor]
    | apply emits_get_qfsd_version; constructor
    | emits_step ];
    try constructor.
Qed.

Lemma survey_pools_prepare fuel h :
  survey_pools fuel h =
  (qfsd_version <- prepare fuel ;;
   primary <- survey_node_state qfsd_version (cluster_node_ip_addresses tpl) ;;
   match snd primary with
   | _ :: _ => raise (ProvisioningError (OutOfQuorumNodes (snd primary)))
   | [] =>
       swing <- (if 0 <? Py.len (Py.split (swing_node_ip_addresses tpl))
                 then survey_node_state qfsd_version (swing_node_ip_addresses tpl)
                 else ret ([], [])) ;;
       match snd swing with
       | _ :: _ => raise (ProvisioningError (OutOfQuorumSwingNodes (snd swing)))
       | [] => ret (qfsd_version, fst primary, fst swing)
       end
   end) h.
Proof.
  unfold survey_pools, prepare.
  do 5 (rewrite bind_assoc; apply bind_ext; intros _ ?).
  reflexivity.
Qed.

Lemma preliminary_not_changing c : preliminary_call c -> ~ changing_call c.
Proof.
  intros Hp Hc. remember c as c' eqn:E in Hc.
  destruct Hp; destruct Hc;
    unfold install_oci_cli_call, download_qq_call, readiness_probe, version_call,
      state_call, put_network_config in E;
    differ E.
Qed.

(** X10: everything [main] does up to the end of the two surveys leaves the
    cluster and the secret store alone: installing the OCI client, probing
    the nodes, fetching [qq] and asking nodes for their revision and state
    are its only calls, and none of them writes a secret, creates a cluster,
    changes the membership, the buckets, the capacity clamp, the network
    configuration or a tunable.  An error raised in that phase ends [main]
    there and then. *)
Theorem surveys_change_nothing fuel :
  emits preliminary_call (survey_pools fuel)
  /\ emits (fun c => ~ changing_call c) (survey_pools fuel)
  /\ forall h e h', survey_pools fuel h = Raise e h' -> main fuel h = Raise e h'.
Proof.
  assert (E : emits preliminary_call (survey_pools fuel)).
  { eapply emits_ext; [apply survey_pools_prepare|].
    apply emits_bind; [apply emits_prepare|intros v].
    apply emits_bind; [apply emits_survey_node_state; intros; constructor|intros primary].
    destruct (snd primary); [|apply emits_raise].
    apply emits_bind.
    - destruct (0 <? _); [|apply emits_ret].
      apply emits_survey_node_state; intros; constructor.
    - intros swing. destruct (snd swing); [apply emits_ret|apply emits_raise]. }
  split; [exact E|]. split.
  - eapply emits_weaken; [apply preliminary_not_changing|exact E].
  - intros h e h' R. unfold main, bind at 1. rewrite R. reflexivity.
Qed.

(** X11: how the surveys lead to the decision.  Once the preparation has
    given the reference revision and the primary pool has been surveyed: a
    non-empty list of out-of-quorum primary nodes aborts [main] with that
    list; otherwise the swing pool is surveyed whenever swing addresses are
    declared, whatever the swing-pool flag says, and a non-empty list of
    out-of-quorum swing nodes aborts as well; only with both lists empty are
    the in-quorum lists handed on. *)
Theorem surveys_decide fuel h v h1 inq ooq h2 :
  prepare fuel h = Ret v h1 ->
  survey_node_state v (cluster_node_ip_addresses tpl) h1 = Ret (inq, ooq) h2 ->
  (ooq <> [] ->
     survey_pools fuel h = Raise (ProvisioningError (OutOfQuorumNodes ooq)) h2
     /\ main fuel h = Raise (ProvisioningError (OutOfQuorumNodes ooq)) h2)
  /\ (ooq = [] -> Py.split (swing_node_ip_addresses tpl) = [] ->
        survey_pools fuel h = Ret (v, inq, []) h2)
  /\ (ooq = [] -> Py.split (swing_node_ip_addresses tpl) <> [] ->
        forall inqs ooqs h3,
          survey_node_state v (swing_node_ip_addresses tpl) h2 = Ret (inqs, ooqs) h3 ->
          (ooqs <> [] ->
             survey_pools fuel h = Raise (ProvisioningError (OutOfQuorumSwingNodes ooqs)) h3
             /\ main fuel h = Raise (ProvisioningError (OutOfQuorumSwingNodes ooqs)) h3)
          /\ (ooqs = [] -> survey_pools fuel h = Ret (v, inq, inqs) h3)).
Proof.
  intros Hp Hs.
  assert (Abort : forall e h', survey_pools fuel h = Raise e h' ->
            survey_pools fuel h = Raise e h' /\ main fuel h = Raise e h').
  { intros e h' R. split; [exact R|]. unfold main, bind at 1. rewrite R. reflexivity. }
  assert (E : survey_pools fuel h =
              match ooq with
              | _ :: _ => Raise (ProvisioningError (OutOfQuorumNodes ooq)) h2
              | [] =>
                  (swing <- (if 0 <? Py.len (Py.split (swing_node_ip_addresses tpl))
                             then survey_node_state v (swing_node_ip_addresses tpl)
                             else ret ([], [])) ;;
                   match snd swing with
                   | _ :: _ => raise (ProvisioningError (OutOfQuorumSwingNodes (snd swing)))
                   | [] => ret (v, inq, fst swing)
                   end) h2
              end).
  { rewrite survey_pools_prepare. unfold bind at 1. rewrite Hp.
    unfold bind at 1. rewrite Hs. cbn [snd fst]. destruct ooq; reflexivity. }
  split; [|split].
  - intros Hne. apply Abort. rewrite E. destruct ooq; [contradiction|reflexivity].
  - intros -> Hnil. rewrite E, Hnil. reflexivity.
  - intros -> Hne inqs ooqs h3 Hsw.
    assert (L : (0 <? Py.len (Py.split (swing_node_ip_addresses tpl))) = true).
    { destruct (Py.split (swing_node_ip_addresses tpl)); [contradiction|].
      apply Z.ltb_lt, len_pos. }
    rewrite L in E. unfold bind in E. rewrite Hsw in E. cbn [snd fst] in E.
    split.
    + intros Hne'. apply Abort. rewrite E. destruct ooqs; [contradiction|reflexivity].
    + intros ->. exact E.
Qed.

(** ** The end of a run *)

Lemma shutdown_instance_run config h :
  shutdown_instance config h =
  if (dev_environment config =? "true")%string then Ret tt h
  else
    let h1 := (h ++ [(metadata_call, env h metadata_call)])%list in
    match env h metadata_call with
    | Response _ content =>
        match json_loads content with
        | None => Raise JSONDecodeError h1
        | Some doc =>
            match Json.item doc "id" with
            | inl e => Raise e h1
            | inr id =>
                match run_command
                        ("/root/bin/oci compute instance action --instance-id "
                         ++ match id with JStr s => s | other => py_repr other end
                         ++ " --action STOP --auth instance_principal") None h1 with
                | Ret _ h2 => Ret tt h2
                | Raise e h2 => Raise e h2
                | Spin h2 => Spin h2
                end
            end
        end
    | RequestFailed => Raise RequestException h1
    | _ => Raise OtherError h1
    end.
Proof.
  unfold shutdown_instance. destruct (dev_environment config =? "true")%string; [reflexivity|].
  unfold requests_get, metadata_call. unfold bind at 1. unfold bind at 1. unfold call at 1.
  cbn zeta.
  destruct (env h (HttpGet _ _ _)) eqn:R; try reflexivity.
  cbn [snd ret]. destruct (json_loads content) as [doc|]; [|reflexivity].
  unfold bind at 1. destruct (Json.item doc "id") as [e|id]; [reflexivity|].
  cbn [lift ret]. unfold bind. destruct (run_command _ None _); reflexivity.
Qed.

(** X12: [main] returns only at the end of this sequence: the surveys
    returned, the configuration was built, bootstrap or reconcile returned,
    and the completion secret was then written with the value "true".  In a
    development environment the run ends there; otherwise the instance
    metadata is fetched, whatever its HTTP status, and the run ends with a
    completed STOP action on the instance it names. *)
Theorem main_finishes fuel h h' :
  main fuel h = Ret tt h' ->
  exists v inq inqs h1 config h2 o e,
    survey_pools fuel h = Ret (v, inq, inqs) h1
    /\ create_provisioning_config h1 = Ret config h1
    /\ create_or_reconcile fuel inq inqs config v h1 = Ret tt h2
    /\ env h2 (completion_call config) = Completed o e
    /\ let h3 := (h2 ++ [(completion_call config, Completed o e)])%list in
       if (dev_environment config =? "true")%string then h' = h3
       else exists status content doc id o' e',
              env h3 metadata_call = Response status content
              /\ json_loads content = Some doc
              /\ Json.item doc "id" = inr id
              /\ env (h3 ++ [(metadata_call, Response status content)])%list (stop_call id)
                 = Completed o' e'
              /\ h' = (h3 ++ [(metadata_call, Response status content);
                              (stop_call id, Completed o' e')])%list.
Proof.
  unfold main. unfold bind at 1.
  destruct (survey_pools fuel h) as [[[v inq] inqs] h1|e h1|h1] eqn:S; try discriminate.
  unfold bind at 1.
  assert (C : forall hc, history_of (create_provisioning_config hc) = hc).
  { intros hc. unfold create_provisioning_config.
    destruct (Py.int (t_node_count tpl)); [|reflexivity].
    destruct (Py.int (t_swing_node_count tpl)); reflexivity. }
  destruct (create_provisioning_config h1) as [config hc|e hc|hc] eqn:Cf; try discriminate.
  pose proof (C h1) as Ch. rewrite Cf in Ch. cbn [history_of] in Ch. subst hc.
  unfold bind at 1.
  destruct (create_or_reconcile fuel inq inqs config v h1) as [[] h2|e h2|h2] eqn:D;
    try discriminate.
  unfold bind at 1, signal_complete, update_secret. unfold bind at 1.
  rewrite run_command_run; cbn zeta. fold (completion_call config).
  destruct (env h2 (completion_call config)) as [o e| | | | | | |] eqn:U; try discriminate.
  cbn [ret]. rewrite shutdown_instance_run. intros E.
  exists v, inq, inqs, h1, config, h2, o, e.
  do 4 (split; [first [reflexivity|eassumption]|]). cbn zeta.
  destruct (dev_environment config =? "true")%string; [congruence|].
  cbn zeta in E.
  destruct (env _ metadata_call) as [| | |status content| | | |] eqn:Rm; try discriminate E.
  destruct (json_loads content) as [doc|] eqn:J; [|discriminate E].
  destruct (Json.item doc "id") as [ex|id] eqn:I; [discriminate E|].
  rewrite run_command_run in E; cbn zeta in E. fold (stop_call id) in E.
  destruct (env _ (stop_call id)) as [o' e'| | | | | | |] eqn:Rs; try discriminate E.
  exists status, content, doc, id, o', e'.
  split; [reflexivity|]. split; [exact J|]. split; [exact I|]. split; [exact Rs|].
  injection E as <-. rewrite <- (app_assoc _ [_] [_]). reflexivity.
Qed.

(** ** Waiting for the nodes *)

Lemma readiness_attempt_run ip h :
  readiness_attempt ip h =
  let r := env h (readiness_probe ip) in
  let h' := (h ++ [(readiness_probe ip, r)])%list in
  match r with
  | Response status _ => Ret (status =? 200) h'
  | RequestFailed => Ret false h'
  | _ => Raise OtherError h'
  end.
Proof.
  unfold readiness_attempt, try_except, requests_get, readiness_probe, bind, call.
  cbn zeta. destruct (env h (HttpGet _ _ _)); reflexivity.
Qed.

Lemma wait_for_qfsd_on_returns fuel ip h h' :
  wait_for_qfsd_on fuel ip h = Ret tt h' ->
  exists segment, h' = (h ++ segment)%list /\ came_up ip segment.
Proof.
  rewrite wait_for_qfsd_on_poll. intros E.
  destruct (poll_ret_inv _ _ _ _ E) as (h1 & R & T).
  destruct (retrying_events _ (fun c => c = readiness_probe ip \/ c = Sleep 10) _ _
              (emits_readiness_attempt _ ip (or_introl eq_refl)) (or_intror eq_refl) R)
    as (evs & -> & F).
  rewrite readiness_attempt_run in T; cbn zeta in T.
  destruct (env _ (readiness_probe ip)) as [| | |status content| | | |] eqn:Rp;
    try discriminate T.
  injection T as Hs <-. apply Z.eqb_eq in Hs. subst status.
  exists (evs ++ [(readiness_probe ip, Response 200 content)])%list.
  split; [rewrite app_assoc; reflexivity|]. exists evs, content. auto.
Qed.

(** X13: [wait_for_qfsd_installation] returns only when every address of
    the list has answered the readiness probe with status 200.  The nodes are
    awaited one after the other in the order of the list: the history grows by
    one segment per address, made of probes of that address and 10 s sleeps
    and closed by the probe that was answered with 200. *)
Theorem wait_for_qfsd_installation_returns fuel addresses h h' :
  wait_for_qfsd_installation fuel addresses h = Ret tt h' ->
  exists segments,
    h' = (h ++ concat segments)%list
    /\ Forall2 came_up (Py.split addresses) segments.
Proof.
  unfold wait_for_qfsd_installation. revert h.
  induction (Py.split addresses) as [|ip ips IH]; intros h.
  - intros [= <-]. exists []. cbn. rewrite app_nil_r. auto.
  - cbn [for_each]. unfold bind.
    destruct (wait_for_qfsd_on fuel ip h) as [[] h1|e h1|h1] eqn:W; try discriminate.
    intros E. destruct (wait_for_qfsd_on_returns _ _ _ _ W) as (segment & -> & U).
    destruct (IH _ E) as (segments & -> & F).
    exists (segment :: segments). cbn [concat]. rewrite app_assoc. auto.
Qed.

(** ** Reading numbers back *)

Lemma is_space_nl : Py.is_space "010" = true.
Proof. reflexivity. Qed.

Lemma rstrip_newline s : Py.rstrip (s ++ nl) = Py.rstrip s.
Proof.
  induction s as [|c s IH]; [reflexivity|].
  cbn [append Py.rstrip]. rewrite IH. reflexivity.
Qed.

Lemma strip_newline s : Py.strip (s ++ nl) = Py.strip s.
Proof.
  unfold Py.strip. induction s as [|c s IH]; [reflexivity|].
  cbn [append Py.lstrip]. destruct (Py.is_space c); [exact IH|].
  apply (rstrip_newline (String c s)).
Qed.

Lemma int_newline s : Py.int (s ++ nl) = Py.int s.
Proof. unfold Py.int. rewrite strip_newline. reflexivity. Qed.

(** X15: a trailing newline does not change what [int] reads.  So when the
    secret store returns the declared limit followed by a newline, which is
    how [update_secret] encodes what it stores, capacity convergence ends
    after reading the secret: no command touches the cluster or the store. *)
Theorem capacity_read_back fuel config h out err :
  env h (read_capacity config) = Completed out err ->
  secret_content out = inr (soft_capacity_limit config ++ nl) ->
  (forall s, Py.int (s ++ nl) = Py.int s)
  /\ (Py.int (soft_capacity_limit config) <> None ->
        capacity_increase fuel config h
        = Ret tt (h ++ [(read_capacity config, Completed out err)])%list).
Proof.
  intros R S. split; [apply int_newline|]. intros Hd.
  rewrite capacity_increase_run; cbn zeta. fold (read_capacity config).
  rewrite R, S, int_newline.
  destruct (Py.int (soft_capacity_limit config)) as [d|]; [|contradiction].
  rewrite Z.ltb_irrefl. reflexivity.
Qed.

(** ** No failure goes unnoticed *)

Lemma careful_ret {A} (a : A) : careful (ret a).
Proof. intros h a' h' [= <- <-]. exists []. rewrite app_nil_r. auto. Qed.

Lemma careful_raise {A} e : careful (@raise A e).
Proof. intros h a h' [=]. Qed.

Lemma careful_spin {A} : careful (@spin A).
Proof. intros h a h' [=]. Qed.

Lemma careful_lift {A} (x : Exn + A) : careful (lift x).
Proof. destruct x; [apply careful_raise|apply careful_ret]. Qed.

Lemma careful_bind {A B} (m : M A) (k : A -> M B) :
  careful m -> (forall a, careful (k a)) -> careful (bind m k).
Proof.
  intros Hm Hk h b h' E. unfold bind in E.
  destruct (m h) as [a h1|e h1|h1] eqn:R; try discriminate E.
  destruct (Hm _ _ _ R) as (evs & -> & F).
  destruct (Hk _ _ _ _ E) as (evs' & -> & F').
  exists (evs ++ evs')%list. rewrite app_assoc. split; [reflexivity|].
  apply Forall_app; auto.
Qed.

Lemma careful_ext {A} (m m' : M A) : (forall h, m h = m' h) -> careful m' -> careful m.
Proof. intros E H h a h' R. rewrite E in R. exact (H _ _ _ R). Qed.

Lemma careful_run_command cmd timeout : careful (run_command cmd timeout).
Proof.
  intros h a h'. rewrite run_command_run; cbn zeta.
  destruct (env h (Run cmd timeout)) eqn:R; try discriminate.
  intros [= _ <-]. eexists. split; [reflexivity|]. repeat constructor.
Qed.

(** A computation that runs no shell command is careful. *)
Lemma careful_quiet {A} (m : M A) :
  emits (fun c => forall cmd timeout, c <> Run cmd timeout) m -> careful m.
Proof.
  intros He h a h' R. destruct (He h) as (evs & E & F). rewrite R in E. cbn in E.
  exists evs. split; [exact E|]. eapply Forall_impl; [|exact F].
  intros [[] r] Hc; cbn in *; try exact I. exfalso. eapply Hc. reflexivity.
Qed.

Lemma careful_call c : (forall cmd timeout, c <> Run cmd timeout) -> careful (call c).
Proof. intros H. apply careful_quiet, emits_call, H. Qed.

Lemma careful_perform c : (forall cmd timeout, c <> Run cmd timeout) -> careful (perform c).
Proof.
  intros H. apply careful_quiet. unfold perform.
  apply emits_bind; [apply emits_call, H|].
  intros []; first [apply emits_ret|apply emits_raise].
Qed.

Lemma careful_sleep n : careful (sleep n).
Proof. apply careful_quiet, emits_sleep. discriminate. Qed.

Lemma careful_probe cmd timeout marker :
  retried_poll (Run cmd timeout) -> careful (probe cmd timeout marker).
Proof.
  intros Hp h a h'. rewrite probe_run; cbn zeta.
  destruct (env h (Run cmd timeout)) eqn:R; cbn [confirms not_yet];
    try discriminate.
  - destruct (Py.contains marker stdout0); cbn [negb]; intros [= _ <-];
      (eexists; split; [reflexivity|]; repeat constructor).
  - intros [= _ <-]. eexists. split; [reflexivity|]. constructor; [exact Hp|constructor].
Qed.

Lemma careful_poll fuel attempt : careful attempt -> careful (poll fuel attempt).
Proof.
  intros Ha. induction fuel as [|fuel IH]; [apply careful_spin|].
  cbn [poll]. apply careful_bind; [exact Ha|]. intros [|]; [apply careful_ret|].
  apply careful_bind; [apply careful_sleep|intros _; exact IH].
Qed.

Lemma careful_wait_for_new_quorum fuel : careful (wait_for_new_quorum fuel).
Proof.
  eapply careful_ext; [apply wait_for_new_quorum_poll|].
  apply careful_poll, careful_probe. left. reflexivity.
Qed.

Lemma careful_wait_for_floating_addresses fuel : careful (wait_for_floating_addresses fuel).
Proof.
  eapply careful_ext; [apply wait_for_floating_addresses_poll|].
  apply careful_poll, careful_probe. right; left. reflexivity.
Qed.

Lemma careful_wait_for_membership fuel n sn : careful (wait_for_membership fuel n sn).
Proof.
  eapply careful_ext; [apply wait_for_membership_poll|].
  apply careful_poll. intros h a h'. rewrite membership_attempt_run; cbn zeta.
  destruct (env h nodes_poll) eqn:R; try discriminate.
  - destruct (reported_node_count stdout0) as [e|k].
    + destruct (is_membership_poll_error e); [|discriminate].
      intros [= _ <-]. eexists. split; [reflexivity|]. repeat constructor.
    + intros [= _ <-]. eexists. split; [reflexivity|]. repeat constructor.
  - intros [= _ <-]. eexists. split; [reflexivity|].
    constructor; [right; right; reflexivity|constructor].
Qed.

Lemma careful_wait_for_qfsd_installation fuel addresses :
  careful (wait_for_qfsd_installation fuel addresses).
Proof.
  apply careful_quiet, emits_wait_for_qfsd_installation; discriminate.
Qed.

Ltac careful_step :=
  lazymatch goal with
  | |- careful (ret _) => apply careful_ret
  | |- careful (raise _) => apply careful_raise
  | |- careful spin => apply careful_spin
  | |- careful (lift _) => apply careful_lift
  | |- careful (bind _ _) => apply careful_bind; [|intros ?]
  | |- careful (run_command _ _) => apply careful_run_command
  | |- careful (qq_command _) => apply careful_run_command
  | |- careful (update_secret _ _) => unfold update_secret
  | |- careful (sleep _) => apply careful_sleep
  | |- careful (call _) => apply careful_call; discriminate
  | |- careful (perform _) => apply careful_perform; discriminate
  | |- careful (read_json _) => unfold read_json
  | |- careful (write_json _ _) => unfold write_json
  | |- careful (wait_for_new_quorum _) => apply careful_wait_for_new_quorum
  | |- careful (wait_for_floating_addresses _) => apply careful_wait_for_floating_addresses
  | |- careful (wait_for_membership _ _ _) => apply careful_wait_for_membership
  | |- careful (wait_for_qfsd_installation _ _) => apply careful_wait_for_qfsd_installation
  | |- careful (if ?b then _ else _) => destruct b
  | |- careful (match ?x with _ => _ end) => destruct x
  end.

Lemma careful_create_cluster fuel config : careful (create_cluster fuel config).
Proof. unfold create_cluster, apply_initial_floating_ips. repeat careful_step. Qed.

Lemma careful_handle_existing_cluster fuel inq inqs psp config cna qv :
  careful (handle_existing_cluster fuel inq inqs psp config cna qv).
Proof.
  unfold handle_existing_cluster, node_add_remove, update_cluster_membership, bucket_add,
    capacity_increase, maybe_update_floating_ips, update_floating_ips,
    apply_initial_floating_ips.
  repeat careful_step.
Qed.

Lemma careful_prepare fuel : careful (prepare fuel).
Proof.
  unfold prepare, install_oci_cli, download_qq_client, requests_get, get_qfsd_version.
  repeat careful_step.
Qed.

Lemma classify_out_of_quorum ip out s :
  exists l, out_of_quorum_nodes (classify ip out s) = (out_of_quorum_nodes s ++ l)%list.
Proof.
  unfold classify.
  destruct (Py.contains "ACTIVE" out); [exists []; cbn; rewrite app_nil_r; reflexivity|].
  destruct (Py.contains "UNCONFIGURED" out); [exists []; cbn; rewrite app_nil_r; reflexivity|].
  destruct (Py.contains "REMOVED" out); [exists []; cbn; rewrite app_nil_r; reflexivity|].
  exists [ip]. reflexivity.
Qed.

(** In a survey the out-of-quorum list only grows, and it grows at every
    state query that fails. *)
Lemma survey_nodes_clean qv ips s h s' h' :
  survey_nodes qv ips s h = Ret s' h' ->
  exists evs l,
    h' = (h ++ evs)%list
    /\ out_of_quorum_nodes s' = (out_of_quorum_nodes s ++ l)%list
    /\ (l = [] -> Forall clean evs).
Proof.
  revert s h. induction ips as [|ip ips IH]; intros s h.
  - intros [= <- <-]. exists [], []. rewrite !app_nil_r. auto.
  - rewrite survey_nodes_step.
    destruct (get_qfsd_version ip h) as [v h1|e h1|h1] eqn:G; try discriminate.
    assert (Cv : careful (get_qfsd_version ip)).
    { unfold get_qfsd_version. repeat careful_step. }
    destruct (Cv _ _ _ G) as (evs0 & -> & F0).
    destruct (negb (v =? qv)%string); [discriminate|]. cbn zeta.
    destruct (env (h ++ evs0)%list (state_call ip)) as [out err|rc out err| | | | | |] eqn:R;
      try discriminate; intros E; destruct (IH _ _ E) as (evs1 & l1 & -> & Ho & F1).
    + destruct (classify_out_of_quorum ip out s) as [l0 Hl0].
      exists (evs0 ++ (state_call ip, Completed out err) :: evs1)%list, (l0 ++ l1)%list.
      split; [rewrite <- !app_assoc; reflexivity|].
      split; [rewrite Ho, Hl0, app_assoc; reflexivity|].
      intros Hnil. apply app_eq_nil in Hnil. destruct Hnil as [_ Hnil].
      apply Forall_app. split; [exact F0|]. constructor; [exact I|auto].
    + exists (evs0 ++ (state_call ip, CalledProcessError rc out err) :: evs1)%list,
        (ip :: l1).
      split; [rewrite <- !app_assoc; reflexivity|].
      split; [rewrite Ho; cbn [mark_out_of_quorum out_of_quorum_nodes];
              rewrite <- app_assoc; reflexivity|].
      discriminate.
Qed.

Lemma survey_node_state_clean qv addresses h inq h' :
  survey_node_state qv addresses h = Ret (inq, []) h' ->
  exists evs, h' = (h ++ evs)%list /\ Forall clean evs.
Proof.
  rewrite survey_node_state_run.
  destruct (survey_nodes qv (Py.split addresses) empty_survey h) as [s h1|e h1|h1] eqn:E;
    try discriminate.
  intros [= _ Ho <-]. destruct (survey_nodes_clean _ _ _ _ _ _ E) as (evs & l & -> & Hl & F).
  exists evs. split; [reflexivity|]. apply F.
  rewrite Ho in Hl. cbn in Hl. symmetry. exact Hl.
Qed.

Lemma careful_survey_pools fuel : careful (survey_pools fuel).
Proof.
  intros h a h'. rewrite survey_pools_prepare. unfold bind at 1.
  destruct (prepare fuel h) as [v h1|e h1|h1] eqn:P; try discriminate.
  destruct (careful_prepare _ _ _ _ P) as (evs0 & -> & F0).
  unfold bind at 1.
  destruct (survey_node_state v (cluster_node_ip_addresses tpl) _)
    as [[inq ooq] h2|e h2|h2] eqn:S1; try discriminate.
  cbn [snd fst]. destruct ooq; [|discriminate].
  destruct (survey_node_state_clean _ _ _ _ _ S1) as (evs1 & -> & F1).
  unfold bind at 1. destruct (0 <? Py.len (Py.split (swing_node_ip_addresses tpl))).
  - destruct (survey_node_state v (swing_node_ip_addresses tpl) _)
      as [[inqs ooqs] h3|e h3|h3] eqn:S2; try discriminate.
    cbn [snd fst]. destruct ooqs; [|discriminate].
    destruct (survey_node_state_clean _ _ _ _ _ S2) as (evs2 & -> & F2).
    intros [= _ <-]. exists (evs0 ++ evs1 ++ evs2)%list.
    split; [rewrite !app_assoc; reflexivity|].
    repeat (apply Forall_app; split); assumption.
  - cbn [ret snd fst]. intros [= _ <-]. exists (evs0 ++ evs1)%list.
    split; [rewrite !app_assoc; reflexivity|].
    apply Forall_app; split; assumption.
Qed.

Lemma careful_main fuel : careful (main fuel).
Proof.
  unfold main. apply careful_bind; [apply careful_survey_pools|].
  intros [[v inq] inqs].
  apply careful_bind.
  { unfold create_provisioning_config. repeat careful_step. }
  intros config. apply careful_bind.
  { unfold create_or_reconcile.
    destruct inq; [destruct inqs|];
      first [apply careful_create_cluster|apply careful_handle_existing_cluster]. }
  intros _. unfold signal_complete, shutdown_instance, requests_get.
  repeat careful_step.
Qed.

(** X16: no failure goes unnoticed.  When [main] returns, and likewise
    when bootstrap or reconcile returns, every shell command of the run has
    exited with status 0, with one exception: a failed poll of one of the
    three waiting loops (quorum state, network status, membership), which is
    repeated.  No command timed out, and no state query of a survey failed. *)
Theorem returns_only_on_success fuel :
  careful (main fuel)
  /\ (forall config, careful (create_cluster fuel config))
  /\ (forall inq inqs psp config cna qv,
        careful (handle_existing_cluster fuel inq inqs psp config cna qv))
  /\ (forall cmd timeout r,
        clean (Run cmd timeout, r) ->
        (exists out err, r = Completed out err)
        \/ ((exists rc out err, r = CalledProcessError rc out err)
            /\ (Run cmd timeout = quorum_poll \/ Run cmd timeout = network_status_poll
                \/ Run cmd timeout = nodes_poll))).
Proof.
  split; [apply careful_main|]. split; [intros; apply careful_create_cluster|].
  split; [intros; apply careful_handle_existing_cluster|].
  intros cmd timeout r. destruct r; cbn; intros H; try contradiction; eauto 8.
Qed.

(** ** The revision string *)

Lemma keep_digits_and_dots_shape s : all_chars digit_or_dot (Py.keep_digits_and_dots s) = true.
Proof.
  induction s as [|c s IH]; [reflexivity|]. cbn [Py.keep_digits_and_dots].
  destruct (Py.is_digit c || Ascii.eqb c ".") eqn:D; [|exact IH].
  cbn [all_chars]. unfold digit_or_dot at 1. rewrite D. exact IH.
Qed.

Lemma first_revision_line_shape lines : all_chars digit_or_dot (first_revision_line lines) = true.
Proof.
  induction lines as [|line lines IH]; [reflexivity|]. cbn [first_revision_line].
  destruct (Py.contains "revision_id" line); [apply keep_digits_and_dots_shape|exact IH].
Qed.

(** Removing the dots of a string of digits and dots leaves its digits. *)
Lemma replace_dots s :
  all_chars digit_or_dot s = true ->
  all_chars Py.is_digit (Py.replace "." "" s) = true
  /\ (has_digit s = false -> Py.replace "." "" s = "")
  /\ (has_digit s = true -> Py.replace "." "" s <> "").
Proof.
  unfold has_digit. induction s as [|c s IH]; [cbn; repeat split; congruence|].
  cbn [all_chars Py.replace]. intros H. apply andb_true_iff in H. destruct H as [Hc Hs].
  destruct (IH Hs) as (I1 & I2 & I3). unfold digit_or_dot in Hc.
  destruct (Ascii.eqb_spec c ".") as [->|Hne].
  - cbn [append]. change (Py.is_digit ".") with false. cbn [negb andb]. auto.
  - rewrite orb_false_r in Hc. rewrite Hc. cbn [negb andb all_chars].
    rewrite Hc, I1. repeat split; congruence.
Qed.

Lemma int_of_leading_digits d :
  all_chars Py.is_digit d = true -> d <> "" ->
  exists n, Py.int (Py.take 3 d) = Some n /\ 0 <= n <= 999.
Proof.
  intros H Hne.
  assert (Hd : forall c r, all_chars Py.is_digit (String c r) = true ->
            In c ["0"; "1"; "2"; "3"; "4"; "5"; "6"; "7"; "8"; "9"]%char
            /\ all_chars Py.is_digit r = true).
  { intros c r E. cbn [all_chars] in E. apply andb_true_iff in E. destruct E as [E1 E2].
    split; [apply digit_cases, E1|exact E2]. }
  destruct d as [|a d]; [contradiction|]. destruct (Hd _ _ H) as [Ha H1].
  destruct d as [|b d].
  { cbn [In] in Ha.
    repeat match goal with
           | H : _ \/ _ |- _ => destruct H as [H|H]
           | H : False |- _ => destruct H
           end; subst; (eexists; split; [vm_compute; reflexivity|lia]). }
  destruct (Hd _ _ H1) as [Hb H2].
  destruct d as [|c d].
  { cbn [In] in Ha, Hb.
    repeat match goal with
           | H : _ \/ _ |- _ => destruct H as [H|H]
           | H : False |- _ => destruct H
           end; subst; (eexists; split; [vm_compute; reflexivity|lia]). }
  destruct (Hd _ _ H2) as [Hc _]. cbn [Py.take].
  cbn [In] in Ha, Hb, Hc.
  repeat match goal with
         | H : _ \/ _ |- _ => destruct H as [H|H]
         | H : False |- _ => destruct H
         end; subst; (eexists; split; [vm_compute; reflexivity|lia]).
Qed.

(** X14: the revision [get_qfsd_version] returns is made of digits and dots
    only.  For such a revision the floating-IP gate reads a number between 0
    and 999 as soon as the revision holds a digit; a revision made of dots
    alone makes the gate raise [ValueError] before any call. *)
Theorem revision_gate_total ip h v h' :
  get_qfsd_version ip h = Ret v h' ->
  all_chars digit_or_dot v = true
  /\ (has_digit v = true -> exists n, revision_prefix v = Some n /\ 0 <= n <= 999)
  /\ (has_digit v = false -> v <> "" ->
        revision_prefix v = None
        /\ forall fuel cna fips nm h0,
             maybe_update_floating_ips fuel cna fips nm v h0 = Raise ValueError h0).
Proof.
  intros G.
  assert (Hv : all_chars digit_or_dot v = true).
  { unfold get_qfsd_version, qq_command, qq_command_within, bind in G.
    destruct (run_command _ _ h) as [result h1|e h1|h1]; try discriminate G.
    injection G as <- _. apply first_revision_line_shape. }
  destruct (replace_dots v Hv) as (D1 & D2 & D3).
  split; [exact Hv|]. split.
  - intros Hd. unfold revision_prefix. apply int_of_leading_digits; auto.
  - intros Hd Hne.
    assert (N : revision_prefix v = None).
    { unfold revision_prefix. rewrite (D2 Hd). reflexivity. }
    split; [exact N|]. intros fuel cna fips nm h0. unfold maybe_update_floating_ips.
    destruct (String.eqb_spec v ""); [contradiction|]. rewrite N. reflexivity.
Qed.

(** ** The first step of a bootstrap *)

(** X17: with a node count of zero [create_cluster] makes no call at all.
    Otherwise its first call is the create command, which names the first
    [node_count] declared addresses; when that command exits with an error or
    times out, [create_cluster] raises right there: no secret is written and
    nothing else is run. *)
Theorem create_cluster_first_step fuel config h :
  (node_count config = 0 -> create_cluster fuel config h = Ret tt h)
  /\ (node_count config <> 0 ->
        (exists rest,
           history_of (create_cluster fuel config h)
           = (h ++ (create_call config, env h (create_call config)) :: rest)%list)
        /\ ((forall out err, env h (create_call config) <> Completed out err) ->
              exists e,
                create_cluster fuel config h
                = Raise e (h ++ [(create_call config, env h (create_call config))])%list)
        /\ (forall rc out err,
              env h (create_call config) = CalledProcessError rc out err ->
              create_cluster fuel config h
              = Raise (ProvisioningError
                         (CommandFailed rc
                            (qq (create_cluster_args config
                                   (Py.slice_to (node_count config)
                                      (Py.split (node_ips_and_fault_domains config)))))))
                  (h ++ [(create_call config, CalledProcessError rc out err)])%list)).
Proof.
  unfold create_cluster. split.
  - intros ->. reflexivity.
  - intros Hne. destruct (Z.eqb_spec (node_count config) 0); [contradiction|].
    cbn zeta. unfold qq_command at 1, qq_command_within. fold (create_call config).
    split; [|split].
    + unfold bind at 1. rewrite run_command_run; cbn zeta. unfold create_call.
      destruct (env h (Run _ (Some 300))) as [out err| | | | | | |] eqn:R;
        try (exists []; reflexivity).
      match goal with
      | |- exists rest, history_of (?m ?h1) = _ =>
          assert (Hk : emits (fun _ => True) m)
            by (unfold apply_initial_floating_ips; emits_any);
          destruct (Hk h1) as (evs & Ev & _)
      end.
      exists evs. rewrite Ev, <- app_assoc. reflexivity.
    + intros Hnot. unfold qq_command at 1, qq_command_within.
      unfold bind at 1. rewrite run_command_run; cbn zeta.
      unfold create_call in *.
      destruct (env h (Run _ (Some 300))) eqn:R; eauto.
      exfalso. exact (Hnot _ _ eq_refl).
    + intros rc out err R. unfold qq_command at 1, qq_command_within.
      unfold bind at 1. rewrite run_command_run; cbn zeta.
      unfold create_call in *. rewrite R. reflexivity.
Qed.

(** ** A converged cluster *)

Lemma node_add_remove_steady fuel inq inqs psp config h :
  Py.len inq = node_count config ->
  (psp = "true" -> Py.len inqs = swing_node_count config) ->
  (psp = "false" -> inqs = []) ->
  node_add_remove fuel inq inqs (Py.VStr psp) config h = Ret tt h.
Proof.
  intros Hn Ht Hf. unfold node_add_remove. rewrite Hn, Z.eqb_refl. cbn [negb Py.eq_str].
  destruct (String.eqb_spec psp "true") as [E|_].
  - rewrite (Ht E), Z.eqb_refl. cbn [negb andb]. subst psp. reflexivity.
  - cbn [andb]. destruct (String.eqb_spec psp "false") as [E|_]; [|reflexivity].
    rewrite (Hf E). reflexivity.
Qed.

Lemma update_floating_ips_equal fuel current_config ranges new_flips nm h :
  current_floating_ip_ranges current_config = inr ranges ->
  Json.eq_strings ranges new_flips = true ->
  update_floating_ips fuel current_config new_flips nm h = Ret tt h.
Proof.
  intros Hr Heq. destruct ranges as [| | | |items|]; try discriminate Heq.
  rewrite (update_floating_ips_counted _ _ _ (Py.len items) _ _ _ Hr eq_refl).
  rewrite Heq. cbn [negb]. cbn in Heq. apply same_strings_length in Heq.
  destruct (Z.eqb_spec (Py.len items) 0) as [Hz|]; [|reflexivity].
  destruct items; [|pose proof (len_pos j items); lia].
  destruct new_flips; [reflexivity|discriminate Heq].
Qed.

Lemma steady_calls_read config : Forall (fun c => ~ changing_call c) (steady_calls config).
Proof.
  unfold steady_calls, login_call, list_buckets, read_capacity, get_network_config.
  repeat constructor; intros Hc;
    match type of Hc with changing_call ?c => remember c as c' eqn:E in Hc end;
    destruct Hc; unfold put_network_config in E; differ E.
Qed.

(** X18: reconciling a cluster that is already as declared only reads.  If
    the primary pool has the declared number of nodes in quorum, the swing
    pool is as the flag asks, the cluster uses at least the declared number of
    buckets, the recorded capacity is at least the declared one and the
    existing floating-IP range equals the declared list, then
    [handle_existing_cluster] returns after five calls: login, the bucket
    query, the secret read, the download of the network configuration and
    its loading.  None of them changes the cluster or the secret store. *)
Theorem reconcile_idempotent fuel inq inqs psp config cna qv n h
    o1 e1 o2 e2 buckets count o3 e3 text c d o4 e4 current_config ranges :
  let h1 := (h ++ [(login_call config, Completed o1 e1)])%list in
  let h2 := (h1 ++ [(list_buckets, Completed o2 e2)])%list in
  let h3 := (h2 ++ [(read_capacity config, Completed o3 e3)])%list in
  let h4 := (h3 ++ [(get_network_config, Completed o4 e4)])%list in
  Py.len inq = node_count config ->
  (psp = "true" -> Py.len inqs = swing_node_count config) ->
  (psp = "false" -> inqs = []) ->
  env h (login_call config) = Completed o1 e1 ->
  env h1 list_buckets = Completed o2 e2 ->
  json_loads (Py.replace "'" dq o2) = Some buckets ->
  Json.len buckets = inr count ->
  Py.len (Py.split (storage_uris config)) <= count ->
  env h2 (read_capacity config) = Completed o3 e3 ->
  secret_content o3 = inr text ->
  Py.int text = Some c ->
  Py.int (soft_capacity_limit config) = Some d ->
  d <= c ->
  qv <> "" -> revision_prefix qv = Some n -> 751 <= n ->
  env h3 get_network_config = Completed o4 e4 ->
  env h4 (ReadJson "network_config.json") = Loaded current_config ->
  current_floating_ip_ranges current_config = inr ranges ->
  Json.eq_strings ranges (declared_flips (floating_ips config)) = true ->
  handle_existing_cluster fuel inq inqs (Py.VStr psp) config cna qv h
  = Ret tt (h4 ++ [(ReadJson "network_config.json", Loaded current_config)])%list
  /\ map fst (events_since h
                (handle_existing_cluster fuel inq inqs (Py.VStr psp) config cna qv h))
     = steady_calls config
  /\ Forall (fun c => ~ changing_call c) (steady_calls config).
Proof.
  intros h1 h2 h3 h4 Hn Ht Hf R1 R2 J L Hb R3 S Ic Id Hc Hq Hrev Hge R4 R5 Hr Heq.
  assert (E : handle_existing_cluster fuel inq inqs (Py.VStr psp) config cna qv h
              = Ret tt (h4 ++ [(ReadJson "network_config.json", Loaded current_config)])%list).
  { subst h1 h2 h3 h4. unfold login_call, list_buckets, read_capacity in *.
    unfold handle_existing_cluster, qq_command at 1, qq_command_within.
    unfold bind at 1. rewrite (run_command_completed _ _ _ _ _ R1).
    unfold bind at 1. rewrite (node_add_remove_steady _ _ _ _ _ _ Hn Ht Hf).
    unfold bind at 1. rewrite (bucket_add_run _ _ _ _ _ _ _ R2 J L). unfold list_buckets.
    destruct (Z.ltb_spec count (Py.len (Py.split (storage_uris config)))); [lia|].
    unfold bind at 1. rewrite capacity_increase_run; cbn zeta.
    match goal with
    | |- context [env ?hh ?cc] =>
        replace (env hh cc) with (Completed o3 e3) by (symmetry; exact R3)
    end.
    rewrite S, Ic, Id.
    destruct (Z.ltb_spec c d); [lia|].
    rewrite (maybe_update_floating_ips_loaded _ _ _ _ _ _ _ _ _ _ Hq Hrev Hge R4 R5).
    rewrite (update_floating_ips_equal _ _ _ _ _ _ Hr Heq).
    f_equal. exact (app_assoc _ [_] [_]). }
  split; [exact E|]. split; [|apply steady_calls_read].
  rewrite E. unfold events_since, history_of, h4, h3, h2, h1.
  rewrite <- !app_assoc. cbn [app]. rewrite skipn_app_exact. reflexivity.
Qed.

End Script.

(** ** Examples, witnesses and counterexamples *)

Example split_example :
  Py.split " 10.0.0.1,fd1  10.0.0.2,fd2 " = ["10.0.0.1,fd1"; "10.0.0.2,fd2"].
Proof. reflexivity. Qed.

Example split_sep_example :
  Py.split_sep "," "a,,b" = ["a"; ""; "b"] /\ Py.split_sep "," "" = [""].
Proof. split; reflexivity. Qed.

Example int_examples :
  Py.int " 12 " = Some 12 /\ Py.int "-1_0" = Some (-10) /\ Py.int "" = None
  /\ Py.int "1__0" = None /\ Py.int "7.5" = None /\ Py.str 5 = "5"
  /\ Py.str (-12) = "-12" /\ Py.str 0 = "0".
Proof. repeat split; reflexivity. Qed.

Example slice_examples :
  Py.slice_to 2 ["a"; "b"; "c"] = ["a"; "b"] /\ Py.slice_to 5 ["a"; "b"; "c"] = ["a"; "b"; "c"]
  /\ Py.slice_to (-1) ["a"; "b"; "c"] = ["a"; "b"] /\ Py.slice_to (-7) ["a"; "b"; "c"] = [].
Proof. repeat split; reflexivity. Qed.

Example revision_examples :
  first_revision_line (Py.split_sep "010" (Scenario.version_text "Qumulo Core 7.5.1"))
  = "7.5.1"
  /\ revision_prefix "7.5.1" = Some 751 /\ revision_prefix "7.5.1.2" = Some 751
  /\ revision_prefix "7.4.3" = Some 743 /\ revision_prefix "10.0.0" = Some 100
  /\ revision_prefix "." = None.
Proof. repeat split; reflexivity. Qed.

Example guard_examples :
  swing_state_changes (Py.VStr "true") [] = true
  /\ swing_state_changes (Py.VStr "false") [] = true
  /\ swing_state_changes (Py.VStr "false") ["10.0.1.1"] = false
  /\ swing_state_changes (Py.VBool false) [] = false
  /\ swing_state_changes (Py.VBool false) ["10.0.1.1"] = true.
Proof. repeat split; reflexivity. Qed.

(** C7, as the claim words it, fails: the revision "7.2.3.2" stripped of its
    non-digit characters reads 7232, which is at least 751, and yet the
    floating-IP convergence is skipped without a single call. *)
Lemma floating_ip_revision_gate_counterexample :
  spec_revision_number "7.2.3.2" = Some 7232
  /\ 751 <= 7232
  /\ maybe_update_floating_ips Scenario.quiet Scenario.tpl 3
       "10.0.0.1" "10.0.0.50" "255.255.255.0" "7.2.3.2" [] = Ret tt []
  /\ ~ issued (get_network_config Scenario.tpl) []
         (maybe_update_floating_ips Scenario.quiet Scenario.tpl 3
            "10.0.0.1" "10.0.0.50" "255.255.255.0" "7.2.3.2" []).
Proof.
  split; [reflexivity|]. split; [lia|]. split; [reflexivity|].
  apply not_issued_same. reflexivity.
Qed.

Lemma floating_ip_revision_gate_witness :
  revision_prefix "7.5.1" = Some 751
  /\ issued (get_network_config Scenario.tpl) []
       (maybe_update_floating_ips (Scenario.running []) Scenario.tpl 3
          "10.0.0.1" "" "255.255.255.0" "7.5.1" [])
  /\ maybe_update_floating_ips Scenario.quiet Scenario.tpl 3
       "10.0.0.1" "10.0.0.50" "255.255.255.0" "7.2.3.2" [] = Ret tt [].
Proof.
  split; [reflexivity|]. split.
  - apply (proj1 (proj2 (floating_ip_revision_gate (Scenario.running []) Scenario.tpl 3
                           "10.0.0.1" "" "255.255.255.0" "7" "5" "1" "" []
                           eq_refl eq_refl eq_refl))).
    vm_compute. discriminate.
  - apply (proj1 (proj2 (proj2 (floating_ip_revision_gate Scenario.quiet Scenario.tpl 3
                           "10.0.0.1" "10.0.0.50" "255.255.255.0" "7" "2" "3" ".2" []
                           eq_refl eq_refl eq_refl)))).
    vm_compute. reflexivity.
Defined.

Lemma empty_floating_ips_noop_witness :
  no_floating_ips_configured (JObj [])
  /\ update_floating_ips Scenario.quiet Scenario.tpl 0 (JObj [])
       (declared_flips "") "255.255.255.0" [] = Ret tt []
  /\ floating_ips
       {| cluster_name := "demo"; admin_password := "hunter2"; product_type := "p";
          node_count := 3; node_ips_and_fault_domains := "a b c";
          swing_node_count := 0; swing_node_ip_addresses_and_fault_domains := "";
          storage_uris := "u"; soft_capacity_limit := "500";
          permanent_disk_count := "8"; floating_ips := ""; netmask := "255.255.255.0";
          secret_ocid := "v"; cluster_node_count_secret_id := "s1";
          deployed_permanent_disk_count_secret_id := "s2";
          cluster_soft_capacity_limit_secret_id := "s3";
          provisioner_complete_secret_id := "s4"; dev_environment := "false";
          clustering_node_ocid := "o" |} = "".
Proof.
  assert (H : no_floating_ips_configured (JObj [])).
  { exists (JArr []), 0. repeat split; auto. }
  split; [exact H|]. split; [|reflexivity].
  exact (proj1 (proj2 (empty_floating_ips_noop Scenario.quiet Scenario.tpl 0
                         "255.255.255.0" [])) (JObj []) H).
Defined.

(** C3, as the claim words it, fails: of three nodes at the same revision
    the first is in quorum, the second is unconfigured and the third does not
    answer its state query.  The survey finds a node in quorum, and yet [main]
    runs neither path: it raises on the out-of-quorum node, having run no
    create command and no login, the first command of reconcile. *)
Lemma bootstrap_or_reconcile_counterexample :
  exists h',
    survey_node_state Scenario.mixed Scenario.tpl "7.5.1"
      (cluster_node_ip_addresses Scenario.tpl)
      (history_of (prepare Scenario.mixed Scenario.tpl 3 []))
    = Ret (["10.0.0.1"], ["10.0.0.3"]) h'
    /\ main Scenario.mixed Scenario.no_loads Scenario.no_b64 Scenario.no_repr Scenario.tpl 3 []
       = Raise (ProvisioningError (OutOfQuorumNodes ["10.0.0.3"])) h'
    /\ Scenario.ran "create_object_backed_cluster" h' = false
    /\ Scenario.ran "login" h' = false.
Proof.
  eexists. split; [vm_compute; reflexivity|].
  split; [vm_compute; reflexivity|]. split; reflexivity.
Qed.

Lemma bootstrap_or_reconcile_witness :
  exists h,
    survey_pools Scenario.unconfigured Scenario.tpl 1 [] = Ret ("7.5.1", [], []) h
    /\ create_provisioning_config Scenario.tpl h = Ret Scenario.config h
    /\ main Scenario.unconfigured Scenario.no_loads Scenario.no_b64 Scenario.no_repr
         Scenario.tpl 1 []
       = (create_or_reconcile Scenario.unconfigured Scenario.no_loads Scenario.no_b64
            Scenario.tpl 1 [] [] Scenario.config "7.5.1" ;;
          signal_complete Scenario.unconfigured Scenario.config ;;
          shutdown_instance Scenario.unconfigured Scenario.no_loads Scenario.no_repr
            Scenario.config)%prov h
    /\ create_or_reconcile Scenario.unconfigured Scenario.no_loads Scenario.no_b64
         Scenario.tpl 1 [] [] Scenario.config "7.5.1" h
       = create_cluster Scenario.unconfigured Scenario.tpl 1 Scenario.config h
    /\ create_or_reconcile Scenario.unconfigured Scenario.no_loads Scenario.no_b64
         Scenario.tpl 1 Scenario.three_nodes [] Scenario.config "7.5.1" h
       = handle_existing_cluster Scenario.unconfigured Scenario.no_loads Scenario.no_b64
           Scenario.tpl 1 Scenario.three_nodes [] (Py.VStr "false") Scenario.config
           "10.0.0.1" "7.5.1" h.
Proof.
  eexists. split; [vm_compute; reflexivity|]. split; [reflexivity|].
  split; [|split].
  - apply (proj1 (proj2 (proj2 (bootstrap_or_reconcile Scenario.unconfigured
                                   Scenario.no_loads Scenario.no_b64 Scenario.no_repr
                                   Scenario.tpl 1 [] [] Scenario.config "7.5.1" _)))).
    + vm_compute; reflexivity.
    + reflexivity.
  - apply (proj1 (bootstrap_or_reconcile Scenario.unconfigured Scenario.no_loads
                    Scenario.no_b64 Scenario.no_repr Scenario.tpl 1 [] [] Scenario.config "7.5.1" _)).
    split; reflexivity.
  - apply (proj1 (proj2 (bootstrap_or_reconcile Scenario.unconfigured Scenario.no_loads
                    Scenario.no_b64 Scenario.no_repr Scenario.tpl 1 Scenario.three_nodes [] Scenario.config
                    "7.5.1" _))).
    left. discriminate.
Defined.

Lemma node_count_change_refused_without_swing_witness :
  Py.len Scenario.three_nodes <> node_count Scenario.grown
  /\ handle_existing_cluster Scenario.quiet Scenario.no_loads Scenario.no_b64 Scenario.tpl 3
       Scenario.three_nodes [] (Py.VStr "false") Scenario.grown "10.0.0.1" "7.5.1" []
     = Raise (ProvisioningError NodeCountAndSwingState)
         [(Run "./qq --host 10.0.0.1 login -u admin -p hunter2" (Some 300), Completed "" "")].
Proof.
  assert (H : Py.len Scenario.three_nodes <> node_count Scenario.grown) by discriminate.
  split; [exact H|].
  apply (node_count_change_refused_without_swing Scenario.quiet Scenario.no_loads
           Scenario.no_b64 Scenario.tpl 3 Scenario.three_nodes Scenario.grown
           "10.0.0.1" "7.5.1" [] "" "" H).
  reflexivity.
Defined.

Lemma swing_drain_with_count_change_not_refused_witness :
  Py.len Scenario.three_nodes <> node_count Scenario.grown
  /\ exists rep rest,
       history_of
         (handle_existing_cluster Scenario.quiet Scenario.no_loads Scenario.no_b64
            Scenario.tpl 3 Scenario.three_nodes ["10.0.1.1"] (Py.VStr "false")
            Scenario.grown "10.0.0.1" "7.5.1" [])
       = (Run "./qq --host 10.0.0.1 login -u admin -p hunter2" (Some 300), Completed "" "")
         :: (Run (qq Scenario.tpl
                    (modify_membership_args
                       ["10.0.0.1,fd1"; "10.0.0.2,fd2"; "10.0.0.3,fd3"; "10.0.0.4,fd1";
                        "10.0.0.5,fd2"; "10.0.1.1,fd3"])) (Some 300), rep)
         :: rest.
Proof.
  assert (H : Py.len Scenario.three_nodes <> node_count Scenario.grown) by discriminate.
  split; [exact H|].
  exact (proj2 (proj2 (swing_drain_with_count_change_not_refused Scenario.quiet
           Scenario.no_loads Scenario.no_b64 Scenario.tpl 3 Scenario.three_nodes
           "10.0.1.1" [] Scenario.grown "10.0.0.1" "7.5.1" [] "" "" H eq_refl))).
Defined.

(** C4, as the claim words it, fails: three freshly installed nodes all
    answer at the same revision and report UNCONFIGURED; the survey returns
    two empty lists, so the probed address 10.0.0.1 is in neither. *)
Lemma survey_partition_counterexample :
  exists h',
    survey_node_state Scenario.unconfigured Scenario.tpl "7.5.1" Scenario.addresses []
    = Ret ([], []) h'
    /\ In "10.0.0.1" (Py.split Scenario.addresses)
    /\ ~ (In "10.0.0.1" (@nil string) \/ In "10.0.0.1" (@nil string)).
Proof.
  eexists. split; [vm_compute; reflexivity|]. split; [left; reflexivity|].
  intros [[]|[]].
Qed.

Lemma survey_partition_witness :
  exists h',
    survey_node_state Scenario.mixed Scenario.tpl "7.5.1" Scenario.addresses []
    = Ret (["10.0.0.1"], ["10.0.0.3"]) h'
    /\ exists aside,
         Permutation (["10.0.0.1"] ++ aside ++ ["10.0.0.3"]) (Py.split Scenario.addresses).
Proof.
  eexists.
  refine (let H := _ : survey_node_state Scenario.mixed Scenario.tpl "7.5.1"
                         Scenario.addresses [] = Ret (["10.0.0.1"], ["10.0.0.3"]) _
          in conj H _).
  destruct (survey_partition Scenario.mixed Scenario.tpl _ _ _ _ _ _ H)
    as (aside & evs & _ & P & _).
  exists aside. exact P.
  Unshelve. vm_compute. reflexivity.
Defined.

Lemma survey_checks_revision_first_witness :
  exists s1 h1,
    survey_nodes Scenario.skewed Scenario.tpl "7.5.1" ["10.0.0.1"; "10.0.0.2"]
      empty_survey [] = Ret s1 h1
    /\ survey_node_state Scenario.skewed Scenario.tpl "7.5.1" Scenario.addresses []
       = Raise (ProvisioningError (WrongRevision "10.0.0.3" "7.4.0" "7.5.1"))
           (h1 ++ [(version_call Scenario.tpl "10.0.0.3",
                    Completed (Scenario.version_text "Qumulo Core 7.4.0") "")])%list.
Proof.
  eexists _, _.
  refine (let H := _ : survey_nodes Scenario.skewed Scenario.tpl "7.5.1"
                         ["10.0.0.1"; "10.0.0.2"] empty_survey [] = Ret _ _
          in conj H _).
  refine (proj1 (proj2 (survey_checks_revision_first Scenario.skewed Scenario.tpl "7.5.1"
                          Scenario.addresses ["10.0.0.1"; "10.0.0.2"] "10.0.0.3" []
                          [] _ _ eq_refl H)) "7.4.0" _ _).
  - vm_compute. reflexivity.
  - discriminate.
  Unshelve. vm_compute. reflexivity.
Defined.

Lemma capacity_convergence_witness :
  recorded_capacity (Scenario.running []) Scenario.loads Scenario.b64 Scenario.config [] 400
  /\ Py.int (soft_capacity_limit Scenario.config) = Some 500
  /\ issued (clamp_capacity Scenario.tpl Scenario.config) []
       (capacity_increase (Scenario.running []) Scenario.loads Scenario.b64 Scenario.tpl 0
          Scenario.config [])
  /\ capacity_increase (Scenario.running []) Scenario.loads Scenario.b64 Scenario.tpl 0
       (Scenario.with_capacity "400" Scenario.config) []
     = Ret tt [(read_capacity Scenario.config, Completed Scenario.secret_text "")]
  /\ exists n h', forall fuel, (n <= fuel)%nat ->
       capacity_increase (Scenario.running []) Scenario.loads Scenario.b64 Scenario.tpl fuel
         Scenario.config [] = Ret tt h'.
Proof.
  assert (R : recorded_capacity (Scenario.running []) Scenario.loads Scenario.b64
                Scenario.config [] 400).
  { exists Scenario.secret_text, "", ("400" ++ nl)%string. repeat split; reflexivity. }
  assert (R' : recorded_capacity (Scenario.running []) Scenario.loads Scenario.b64
                 (Scenario.with_capacity "400" Scenario.config) [] 400).
  { exists Scenario.secret_text, "", ("400" ++ nl)%string. repeat split; reflexivity. }
  split; [apply R|]. split; [reflexivity|].
  pose proof (capacity_convergence (Scenario.running []) Scenario.loads Scenario.b64
                Scenario.tpl 0 Scenario.config []) as (T1 & _ & _ & T4).
  pose proof (capacity_convergence (Scenario.running []) Scenario.loads Scenario.b64
                Scenario.tpl 0 (Scenario.with_capacity "400" Scenario.config) [])
    as (_ & T2 & _).
  cbn zeta in T1, T2, T4.
  split; [|split].
  - apply T1. exists 400, 500. split; [apply R|]. split; [reflexivity|lia].
  - apply (T2 400 400 R' eq_refl). lia.
  - eassert (S : settles (Scenario.running []) (quorum_poll Scenario.tpl) "ACTIVE"
                   [(read_capacity Scenario.config, Completed Scenario.secret_text "");
                    (clamp_capacity Scenario.tpl Scenario.config, Completed "" "")] _).
    { eexists. split; [eapply waiting_retry; [reflexivity|apply waiting_done]|].
      split; reflexivity. }
    assert (L : 400 < 500) by lia.
    destruct (T4 400 500 _ _ "" "" "" "" R eq_refl L eq_refl eq_refl S eq_refl) as [n Hn].
    exists n. eexists. exact Hn.
Defined.

Lemma floating_ip_convergence_witness :
  revision_prefix "7.5.1" = Some 751
  /\ maybe_update_floating_ips (Scenario.running Scenario.two_ranges) Scenario.tpl 3 "10.0.0.1"
       "10.0.0.50,10.0.0.51" "255.255.255.0" "7.5.1" []
     = Ret tt [(get_network_config Scenario.tpl, Completed "" "");
                (ReadJson "network_config.json",
                 Loaded (Scenario.network_doc Scenario.two_ranges))]
  /\ (exists top,
        Scenario.network_doc Scenario.two_ranges = JObj top
        /\ maybe_update_floating_ips (Scenario.running Scenario.two_ranges) Scenario.tpl 3 "10.0.0.1"
             "" "255.255.255.0" "7.5.1" []
           = (write_json (Scenario.running Scenario.two_ranges) "network_config.json"
                (JObj (Json.assign "frontend_networks" (JArr []) top)) ;;
              qq_command (Scenario.running Scenario.two_ranges) Scenario.tpl
                "network_v3_put_config --file network_config.json" ;;
              wait_for_new_quorum (Scenario.running Scenario.two_ranges) Scenario.tpl 3)%prov
               [(get_network_config Scenario.tpl, Completed "" "");
                (ReadJson "network_config.json",
                 Loaded (Scenario.network_doc Scenario.two_ranges))]
        /\ exists rest,
             history_of
               (maybe_update_floating_ips (Scenario.running Scenario.two_ranges) Scenario.tpl 3
                  "10.0.0.1" "" "255.255.255.0" "7.5.1" [])
             = ([(get_network_config Scenario.tpl, Completed "" "");
                 (ReadJson "network_config.json",
                  Loaded (Scenario.network_doc Scenario.two_ranges));
                 (write_config (JObj (Json.assign "frontend_networks" (JArr []) top)), Done)]
                ++ (put_network_config Scenario.tpl, Completed "" "") :: rest)%list)
  /\ no_floating_ips_configured (Scenario.network_doc [])
  /\ maybe_update_floating_ips (Scenario.running []) Scenario.tpl 3 "10.0.0.1"
       "10.0.0.60" "255.255.255.0" "7.5.1" []
     = apply_initial_floating_ips (Scenario.running []) Scenario.tpl 3 ["10.0.0.60"]
         "255.255.255.0" [(get_network_config Scenario.tpl, Completed "" "");
          (ReadJson "network_config.json", Loaded (Scenario.network_doc []))].
Proof.
  cbn zeta.
  assert (Hne : "7.5.1"%string <> ""%string) by discriminate.
  assert (Hge : 751 <= 751) by lia.
  split; [reflexivity|].
  split; [|split; [|split]].
  - refine (proj1 (floating_ip_convergence (Scenario.running ["10.0.0.50"; "10.0.0.51"])
                     Scenario.tpl 3 "10.0.0.1" "10.0.0.50,10.0.0.51" "255.255.255.0"
                     "7.5.1" 751 [] "" "" _ Hne eq_refl Hge eq_refl eq_refl)
                  (Json.strings ["10.0.0.50"; "10.0.0.51"]) eq_refl eq_refl).
  - destruct (proj1 (proj2 (proj2
                (floating_ip_convergence (Scenario.running ["10.0.0.50"; "10.0.0.51"])
                   Scenario.tpl 3 "10.0.0.1" "" "255.255.255.0"
                   "7.5.1" 751 [] "" "" _ Hne eq_refl Hge eq_refl eq_refl)))
              (Json.strings ["10.0.0.50"; "10.0.0.51"]) 2 eq_refl eq_refl)
      as (top & E1 & _ & E2 & E3); [lia|reflexivity|].
    exists top. split; [exact E1|]. split; [exact E2|].
    destruct E3 as (_ & _ & E3 & _). exact (E3 eq_refl).
  - exists (JArr [JObj [("id", JNum 1); ("name", JStr "default");
                        ("addresses",
                         JObj [("type", JStr "HOST");
                               ("host_addresses",
                                JObj [("floating_ip_ranges", JArr []);
                                      ("netmask", JStr "255.255.255.0")])])]]), 1.
    split; [reflexivity|]. split; [reflexivity|]. right. split; [lia|reflexivity].
  - refine (proj1 (proj2 (proj2 (proj2
              (floating_ip_convergence (Scenario.running [])
                 Scenario.tpl 3 "10.0.0.1" "10.0.0.60" "255.255.255.0"
                 "7.5.1" 751 [] "" "" _ Hne eq_refl Hge eq_refl eq_refl))) _)).
    exists (JArr [JObj [("id", JNum 1); ("name", JStr "default");
                        ("addresses",
                         JObj [("type", JStr "HOST");
                               ("host_addresses",
                                JObj [("floating_ip_ranges", JArr []);
                                      ("netmask", JStr "255.255.255.0")])])]]), 1.
    split; [reflexivity|]. split; [reflexivity|]. right. split; [lia|reflexivity].
Defined.


Lemma ends_with_sleep_retry h c r r' :
  Scenario.ends_with_sleep (h ++ [(c, r); (Sleep 10, r')])%list = true.
Proof. unfold Scenario.ends_with_sleep. rewrite rev_app_distr. reflexivity. Qed.

(** In a world where, from a certain point on, a poll shows its marker
    exactly on attempts made right after a sleep, polling settles at once
    after a sleep and on the second attempt otherwise. *)
Lemma settles_after_sleep (world : Env) (reached : History -> Prop) cmd timeout marker slow h :
  (forall h', reached h' ->
     world h' (Run cmd timeout)
     = Completed (if Scenario.ends_with_sleep h' then marker else slow) "") ->
  (forall h' evs, reached h' -> reached (h' ++ evs)%list) ->
  Py.contains marker marker = true -> Py.contains marker slow = false ->
  reached h ->
  exists h', settles world (Run cmd timeout) marker h h'.
Proof.
  intros Hreply Hstays Hyes Hno Hh.
  assert (Hafter : forall h', reached h' -> Scenario.ends_with_sleep h' = true ->
            confirms marker (world h' (Run cmd timeout)) = true).
  { intros h' R E. rewrite (Hreply h' R), E. exact Hyes. }
  destruct (Scenario.ends_with_sleep h) eqn:E.
  - eexists. exists h. split; [apply waiting_done|]. split; [apply Hafter; auto|reflexivity].
  - eexists. eexists. split; [|split; [|reflexivity]].
    + eapply waiting_retry; [|apply waiting_done].
      rewrite (Hreply h Hh), E. cbn. rewrite Hno. reflexivity.
    + apply Hafter; [apply Hstays, Hh|apply ends_with_sleep_retry].
Qed.

Lemma forming_commands_succeed : commands_succeed Scenario.forming.
Proof.
  intros h cmd timeout. unfold Scenario.forming, Scenario.scripted, Scenario.answer,
    Scenario.says, Scenario.after_sleep.
  repeat match goal with |- context [if ?b then _ else _] => destruct b end; eauto.
Qed.

Lemma ran_app marker h evs :
  Scenario.ran marker h = true -> Scenario.ran marker (h ++ evs)%list = true.
Proof.
  unfold Scenario.ran. intros H. rewrite existsb_app. apply orb_true_iff. left. exact H.
Qed.

Lemma forming_quorum_forms :
  quorum_forms_after Scenario.forming Scenario.tpl
    (Run (qq Scenario.tpl (create_cluster_args Scenario.config Scenario.three_declared))
       (Some 300)).
Proof.
  intros h Hin.
  apply (settles_after_sleep _
           (fun h' => Scenario.ran "create_object_backed_cluster" h' = true)
           _ _ "ACTIVE" "PAUSED").
  - intros h' R. unfold Scenario.forming, Scenario.scripted.
    cbn [Scenario.answer]. change (Py.contains "node_state_get" _) with true.
    cbn iota. rewrite R. reflexivity.
  - intros h' evs. apply ran_app.
  - reflexivity.
  - reflexivity.
  - apply in_map_iff in Hin. destruct Hin as ([c r] & E & Hin). cbn in E. subst c.
    unfold Scenario.ran. apply existsb_exists. eexists. split; [exact Hin|]. reflexivity.
Qed.

Lemma forming_floating_addresses_appear :
  floating_addresses_appear Scenario.forming Scenario.tpl.
Proof.
  intros h. apply (settles_after_sleep _ (fun _ => True) _ _ "floating_addresses" "{}"); auto.
Qed.


(** The scenario of C1 with a proper boolean for the swing-pool flag: one
    membership replacement naming the five declared addresses, polls until
    the quorum is ACTIVE and the reported membership has five entries, then
    the node count "5" is written to the secret store. *)
Example node_count_change_with_bool_example :
  exists h',
    node_add_remove Scenario.growing Scenario.loads Scenario.tpl 2
      Scenario.three_nodes [] (Py.VBool false) Scenario.grown [] = Ret tt h'
    /\ commands h'
       = [ qq Scenario.tpl (modify_membership_args Scenario.five_declared);
           qq Scenario.tpl "node_state_get";
           qq Scenario.tpl "node_state_get";
           qq Scenario.tpl "get_object_backed_nodes";
           qq Scenario.tpl "get_object_backed_nodes";
           update_secret_cmd "ocid1.secret.count" "5" ].
Proof. eexists. split; vm_compute; reflexivity. Qed.

(** The same scenario with the string the script really receives. *)
Example node_count_change_with_string_example :
  node_add_remove Scenario.growing Scenario.loads Scenario.tpl 2
    Scenario.three_nodes [] (Py.VStr "false") Scenario.grown []
  = Raise (ProvisioningError NodeCountAndSwingState) [].
Proof. reflexivity. Qed.

(** A node that does not answer the version query ends the survey, although
    the nodes are otherwise in quorum. *)
Example survey_unreachable_node_example :
  exists h',
    survey_node_state Scenario.unreachable Scenario.tpl "7.5.1" Scenario.addresses []
    = Raise (ProvisioningError
               (CommandFailed 1 (qq Scenario.tpl "--host 10.0.0.2 version"))) h'
    /\ commands h'
       = [ qq Scenario.tpl "--host 10.0.0.1 version";
           qq Scenario.tpl "--host 10.0.0.1 node_state_get";
           qq Scenario.tpl "--host 10.0.0.2 version" ].
Proof. eexists. split; vm_compute; reflexivity. Qed.

Lemma apply_initial_floating_ips_submits_witness :
  exists n h', forall fuel, (n <= fuel)%nat ->
    apply_initial_floating_ips (Scenario.running []) Scenario.tpl fuel ["10.0.0.60"]
      "255.255.255.0" [] = Ret tt h'.
Proof.
  assert (Hne : ["10.0.0.60"] <> @nil string) by discriminate.
  eassert (S : settles (Scenario.running []) (network_status_poll Scenario.tpl)
                 "floating_addresses"
                 [(Run (qq Scenario.tpl (put_network_args ["10.0.0.60"] "255.255.255.0"))
                     (Some 300), Completed "" "")] _).
  { eexists. split; [eapply waiting_retry; [reflexivity|apply waiting_done]|].
    split; reflexivity. }
  destruct (proj1 (proj2 (proj2 (proj2
              (apply_initial_floating_ips_submits (Scenario.running []) Scenario.tpl 0
                 ["10.0.0.60"] "255.255.255.0" [] Hne)))) "" "" _ eq_refl S) as [n Hn].
  exists n. eexists. exact Hn.
Defined.

Lemma assign_floating_ip_ranges_roundtrip_witness :
  exists updated,
    assign_floating_ip_ranges (Scenario.network_doc Scenario.two_ranges)
      (Json.strings ["10.0.0.60"]) = inr updated
    /\ current_floating_ip_ranges updated = inr (Json.strings ["10.0.0.60"])
    /\ host_addresses_item updated "netmask" = inr (JStr "255.255.255.0").
Proof.
  destruct (assign_floating_ip_ranges_roundtrip (Scenario.network_doc Scenario.two_ranges)
              (Json.strings Scenario.two_ranges) (Json.strings ["10.0.0.60"]) eq_refl)
    as (updated & E1 & E2 & E3 & _).
  exists updated. split; [exact E1|]. split; [exact E2|].
  rewrite E3 by discriminate. reflexivity.
Defined.

Lemma update_floating_ips_replaces_witness :
  exists updated,
    update_floating_ips (Scenario.running Scenario.two_ranges) Scenario.tpl 3
      (Scenario.network_doc Scenario.two_ranges) ["10.0.0.60"] "255.255.255.0" []
    = (write_json (Scenario.running Scenario.two_ranges) "network_config.json" updated ;;
       qq_command (Scenario.running Scenario.two_ranges) Scenario.tpl
         "network_v3_put_config --file network_config.json" ;;
       wait_for_new_quorum (Scenario.running Scenario.two_ranges) Scenario.tpl 3)%prov []
    /\ current_floating_ip_ranges updated = inr (Json.strings ["10.0.0.60"])
    /\ exists rest,
         history_of
           (update_floating_ips (Scenario.running Scenario.two_ranges) Scenario.tpl 3
              (Scenario.network_doc Scenario.two_ranges) ["10.0.0.60"] "255.255.255.0" [])
         = (write_config updated, Done)
           :: (put_network_config Scenario.tpl, Completed "" "") :: rest.
Proof.
  assert (Hpos : 0 < 2) by lia.
  assert (Hne : ["10.0.0.60"] <> @nil string) by discriminate.
  destruct (update_floating_ips_replaces (Scenario.running Scenario.two_ranges) Scenario.tpl 3
              (Scenario.network_doc Scenario.two_ranges) (Json.strings Scenario.two_ranges)
              2 ["10.0.0.60"] "255.255.255.0" [] eq_refl eq_refl Hpos Hne eq_refl)
    as (updated & _ & E2 & E3 & E4 & _).
  exists updated. split; [exact E3|]. split; [exact E2|].
  destruct E4 as (_ & _ & E4 & _). exact (E4 eq_refl).
Defined.

Lemma update_cluster_membership_order_witness :
  exists h1 h2 out err,
    settles Scenario.growing (quorum_poll Scenario.tpl) "ACTIVE"
      [(modify_membership Scenario.tpl 5 (node_ips_and_fault_domains Scenario.grown) "",
        Completed "" "")] h1
    /\ membership_in_effect Scenario.growing Scenario.loads Scenario.tpl 5 0 h1 h2
    /\ Scenario.growing h2 (record_node_count "ocid1.secret.count" 5) = Completed out err.
Proof.
  eassert (E : update_cluster_membership Scenario.growing Scenario.loads Scenario.tpl 3 5 0
                 (node_ips_and_fault_domains Scenario.grown) "" "ocid1.secret.count" []
               = Ret tt _) by (vm_compute; reflexivity).
  destruct (update_cluster_membership_order _ _ _ _ _ _ _ _ _ _ _ E)
    as (recorded & out & err & h1 & h2 & out' & err' & -> & _ & R & Q & W & U & _).
  vm_compute in R. injection R as <- <-.
  exists h1, h2, out', err'. split; [exact Q|]. split; [exact W|exact U].
Defined.

Lemma update_cluster_membership_completes_witness :
  exists k h', forall fuel, (k <= fuel)%nat ->
    update_cluster_membership Scenario.growing Scenario.loads Scenario.tpl fuel 5 0
      (node_ips_and_fault_domains Scenario.grown) "" "ocid1.secret.count" []
    = Ret tt h'.
Proof.
  eassert (Q : wait_for_new_quorum Scenario.growing Scenario.tpl 3
                 [(modify_membership Scenario.tpl 5
                     (node_ips_and_fault_domains Scenario.grown) "", Completed "" "")]
               = Ret tt _) by (vm_compute; reflexivity).
  rewrite wait_for_new_quorum_poll in Q. apply poll_returns in Q.
  match type of Q with
  | settles _ _ _ _ ?h1 =>
      eassert (W : wait_for_membership Scenario.growing Scenario.loads Scenario.tpl 3 5 0 h1
                   = Ret tt _) by (vm_compute; reflexivity)
  end.
  apply membership_returns in W.
  destruct (update_cluster_membership_completes Scenario.growing Scenario.loads Scenario.tpl
              5 0 (node_ips_and_fault_domains Scenario.grown) "" "ocid1.secret.count" []
              "" "" _ _ "" "" eq_refl Q W eq_refl) as [k Hk].
  exists k. eexists. exact Hk.
Defined.

Lemma swing_pool_transitions_witness :
  issued
    (modify_membership Scenario.tpl 5 (node_ips_and_fault_domains Scenario.grown)
       (swing_node_ip_addresses_and_fault_domains Scenario.grown)) []
    (node_add_remove Scenario.growing Scenario.loads Scenario.tpl 3
       Scenario.five_declared [] (Py.VStr "true") Scenario.grown []).
Proof.
  assert (Hs : Py.len (@nil string) <> swing_node_count Scenario.grown) by discriminate.
  exact (proj2 (proj1 (swing_pool_transitions Scenario.growing Scenario.loads Scenario.tpl 3
                         Scenario.five_declared [] "true" Scenario.grown [] eq_refl)
                  eq_refl Hs)).
Defined.

Lemma bucket_add_only_grows_witness :
  issued (add_buckets Scenario.tpl Scenario.config) []
    (bucket_add Scenario.one_bucket Scenario.bucket_loads Scenario.tpl 3 Scenario.config []).
Proof.
  assert (Hlt : 1 < Py.len (Py.split (storage_uris Scenario.config))) by reflexivity.
  exact (proj2 (proj1 (bucket_add_only_grows Scenario.one_bucket Scenario.bucket_loads
                         Scenario.tpl 3 Scenario.config [] Scenario.bucket_text ""
                         (Json.strings ["https://bucket-1"]) 1 eq_refl eq_refl eq_refl))
           Hlt).
Defined.

Lemma surveys_decide_witness :
  main Scenario.mixed Scenario.no_loads Scenario.no_b64 Scenario.no_repr Scenario.tpl 3 []
  = Raise (ProvisioningError (OutOfQuorumNodes ["10.0.0.3"]))
      (history_of (survey_pools Scenario.mixed Scenario.tpl 3 [])).
Proof.
  eassert (P : prepare Scenario.mixed Scenario.tpl 3 [] = Ret _ _)
    by (vm_compute; reflexivity).
  match type of P with
  | _ = Ret ?v ?h1 =>
      eassert (S : survey_node_state Scenario.mixed Scenario.tpl v
                     (cluster_node_ip_addresses Scenario.tpl) h1
                   = Ret (_, ["10.0.0.3"]) _) by (vm_compute; reflexivity)
  end.
  assert (Hne : ["10.0.0.3"] <> @nil string) by discriminate.
  destruct (proj1 (surveys_decide Scenario.mixed Scenario.no_loads Scenario.no_b64
                     Scenario.no_repr Scenario.tpl 3 [] _ _ _ _ _ P S) Hne) as [Es Em].
  rewrite Em, Es. reflexivity.
Defined.

Lemma main_finishes_witness :
  exists v inq inqs h1 config h2 o e,
    survey_pools (Scenario.on_instance Scenario.forming) Scenario.tpl 3 []
    = Ret (v, inq, inqs) h1
    /\ create_or_reconcile (Scenario.on_instance Scenario.forming) Scenario.metadata_loads
         Scenario.no_b64 Scenario.tpl 3 inq inqs config v h1 = Ret tt h2
    /\ Scenario.on_instance Scenario.forming h2 (completion_call config) = Completed o e.
Proof.
  eassert (E : main (Scenario.on_instance Scenario.forming) Scenario.metadata_loads
                 Scenario.no_b64 Scenario.no_repr Scenario.tpl 3 [] = Ret tt _)
    by (vm_compute; reflexivity).
  destruct (main_finishes _ _ _ _ _ _ _ _ E)
    as (v & inq & inqs & h1 & config & h2 & o & e & S & C & D & U & _).
  exists v, inq, inqs, h1, config, h2, o, e. split; [exact S|]. split; [exact D|exact U].
Defined.

Lemma wait_for_qfsd_installation_returns_witness :
  exists segments, Forall2 came_up ["10.0.0.1"; "10.0.0.2"; "10.0.0.3"] segments.
Proof.
  eassert (E : wait_for_qfsd_installation Scenario.quiet 1 Scenario.addresses [] = Ret tt _)
    by (vm_compute; reflexivity).
  destruct (wait_for_qfsd_installation_returns _ _ _ _ _ E) as (segments & _ & F).
  exists segments. exact F.
Defined.

Lemma capacity_read_back_witness :
  capacity_increase (Scenario.running []) Scenario.loads Scenario.b64 Scenario.tpl 3
    (Scenario.with_capacity "400" Scenario.config) []
  = Ret tt [(read_capacity (Scenario.with_capacity "400" Scenario.config),
             Completed Scenario.secret_text "")].
Proof.
  assert (Hd : Py.int (soft_capacity_limit (Scenario.with_capacity "400" Scenario.config))
               <> None) by (vm_compute; discriminate).
  exact (proj2 (capacity_read_back (Scenario.running []) Scenario.loads Scenario.b64
                  Scenario.tpl 3 (Scenario.with_capacity "400" Scenario.config) []
                  Scenario.secret_text "" eq_refl eq_refl) Hd).
Defined.

Lemma returns_only_on_success_witness :
  exists evs,
    history_of (main (Scenario.on_instance Scenario.forming) Scenario.metadata_loads
                  Scenario.no_b64 Scenario.no_repr Scenario.tpl 3 [])
    = evs
    /\ Forall (clean Scenario.tpl) evs.
Proof.
  eassert (E : main (Scenario.on_instance Scenario.forming) Scenario.metadata_loads
                 Scenario.no_b64 Scenario.no_repr Scenario.tpl 3 [] = Ret tt _)
    by (vm_compute; reflexivity).
  destruct (proj1 (returns_only_on_success (Scenario.on_instance Scenario.forming)
                     Scenario.metadata_loads Scenario.no_b64 Scenario.no_repr
                     Scenario.tpl 3) _ _ _ E) as (evs & Eh & F).
  exists evs. split; [rewrite E; exact Eh|exact F].
Defined.

Lemma revision_gate_total_witness :
  exists n, revision_prefix "7.5.1" = Some n /\ 0 <= n <= 999.
Proof.
  eassert (G : get_qfsd_version Scenario.unconfigured Scenario.tpl "10.0.0.1" []
               = Ret "7.5.1" _) by (vm_compute; reflexivity).
  exact (proj1 (proj2 (revision_gate_total _ _ _ _ _ _ G)) eq_refl).
Defined.

Lemma create_cluster_first_step_witness :
  exists rest,
    history_of (create_cluster Scenario.forming Scenario.tpl 3 Scenario.config [])
    = (create_call Scenario.tpl Scenario.config, Completed "" "") :: rest.
Proof.
  assert (Hne : node_count Scenario.config <> 0) by discriminate.
  destruct (proj1 (proj2 (create_cluster_first_step Scenario.forming Scenario.tpl 3
                            Scenario.config []) Hne)) as [rest E].
  exists rest. exact E.
Defined.

Lemma reconcile_idempotent_witness :
  map fst (events_since []
             (handle_existing_cluster Scenario.steady Scenario.steady_loads Scenario.b64
                Scenario.tpl 3 Scenario.three_nodes [] (Py.VStr "false") Scenario.converged
                "10.0.0.1" "7.5.1" []))
  = steady_calls Scenario.tpl Scenario.converged.
Proof.
  assert (Ht : "false" = "true" -> Py.len (@nil string) = swing_node_count Scenario.converged)
    by discriminate.
  assert (Hb : Py.len (Py.split (storage_uris Scenario.converged)) <= 2)
    by (vm_compute; discriminate).
  assert (Hc : 400 <= 400) by lia.
  assert (Hq : "7.5.1" <> "") by discriminate.
  assert (Hge : 751 <= 751) by lia.
  exact (proj1 (proj2 (reconcile_idempotent Scenario.steady Scenario.steady_loads Scenario.b64
                  Scenario.tpl 3 Scenario.three_nodes [] "false" Scenario.converged
                  "10.0.0.1" "7.5.1" 751 []
                  "" "" Scenario.buckets_text ""
                  (Json.strings ["https://bucket-1"; "https://bucket-2"]) 2
                  Scenario.secret_text "" ("400" ++ nl) 400 400 "" ""
                  (Scenario.network_doc Scenario.two_ranges)
                  (Json.strings Scenario.two_ranges)
                  eq_refl Ht (fun _ => eq_refl) eq_refl eq_refl eq_refl eq_refl Hb
                  eq_refl eq_refl eq_refl eq_refl Hc Hq eq_refl Hge eq_refl eq_refl
                  eq_refl eq_refl))).
Defined.
